(** * commserver: the Reddit ingestion pipeline, embedded and verified

    A shallow embedding of [src/scrapers/platforms/RedditScraper.js] and
    [src/scrapers/ScraperManager.js].

    Conventions of the embedding:
    - a JavaScript string is a Rocq [string]; an [ascii] stands for a UTF-16
      code unit below 256 (Latin-1), so the white space class has U+00A0 and
      [toLowerCase] folds the Latin-1 capitals;
    - a value that may be [undefined] is an [option];
    - timestamps, limits and engagement numbers are [Z], loop counters are
      [nat]; scores are rationals ([Q]), compared as the code compares them;
    - effects are explicit: the replies of the upstream API are a script
      consumed one reply per request (a request past its end fails), [Math.random] is a list of draws, the
      clock advances by the delays the code awaits, and every request and
      delay is appended to a trace;
    - a rejected promise or a thrown exception is the [Throw] result. *)

From Stdlib Require Import List String Ascii ZArith QArith Bool Arith Lia.
From Stdlib Require Import Permutation.
Import ListNotations.
Local Open Scope list_scope.
Local Open Scope string_scope.
Local Open Scope nat_scope.

(* ================================================================== *)
(** * String primitives of the JavaScript runtime *)
(* ================================================================== *)

Module JSString.

Definition code (c : ascii) : nat := nat_of_ascii c.

(** Line terminators (LF, CR): what [.] does not match and what [$] and [^]
    look at under the [m] flag. *)
Definition isLineTerminator (c : ascii) : bool :=
  (code c =? 10) || (code c =? 13).

(** The class [\s], which is also what [trim] removes. *)
Definition isWhiteSpace (c : ascii) : bool :=
  let n := code c in
  (n =? 9) || (n =? 10) || (n =? 11) || (n =? 12) || (n =? 13)
  || (n =? 32) || (n =? 160).

Definition toLowerChar (c : ascii) : ascii :=
  let n := code c in
  if ((65 <=? n) && (n <=? 90))
     || ((192 <=? n) && (n <=? 222) && negb (n =? 215))
  then ascii_of_nat (n + 32) else c.

Fixpoint toLowerCase (s : string) : string :=
  match s with
  | EmptyString => EmptyString
  | String c s' => String (toLowerChar c) (toLowerCase s')
  end.

(** Canonical form of a code unit under the [i] flag (no [u] flag): the
    upper case, never crossing from outside ASCII into ASCII. Only used
    against ASCII pattern characters. *)
Definition canonical (c : ascii) : nat :=
  let n := code c in
  if (97 <=? n) && (n <=? 122) then n - 32 else n.

Definition eqCI (p c : ascii) : bool := canonical p =? canonical c.

(** [matchPrefixCI pat s]: the literal [pat] matches case-insensitively at
    the start of [s]; the result is what follows the match. *)
Fixpoint matchPrefixCI (pat s : string) : option string :=
  match pat with
  | EmptyString => Some s
  | String p pat' =>
      match s with
      | EmptyString => None
      | String c s' => if eqCI p c then matchPrefixCI pat' s' else None
      end
  end.

(** Greedy [\s*] at the start of [s]: what follows it. *)
Fixpoint skipWhiteSpace (s : string) : string :=
  match s with
  | EmptyString => EmptyString
  | String c s' => if isWhiteSpace c then skipWhiteSpace s' else s
  end.

(** Greedy [.*] at the start of [s]: what follows it (a line terminator or
    the end). *)
Fixpoint skipLine (s : string) : string :=
  match s with
  | EmptyString => EmptyString
  | String c s' => if isLineTerminator c then s else skipLine s'
  end.

Fixpoint trimEnd (s : string) : string :=
  match s with
  | EmptyString => EmptyString
  | String c s' =>
      match trimEnd s' with
      | EmptyString => if isWhiteSpace c then EmptyString else String c EmptyString
      | t => String c t
      end
  end.

Definition trim (s : string) : string := trimEnd (skipWhiteSpace s).

Fixpoint startsWith (needle s : string) : bool :=
  match needle with
  | EmptyString => true
  | String a needle' =>
      match s with
      | EmptyString => false
      | String b s' => Ascii.eqb a b && startsWith needle' s'
      end
  end.

(** [String.prototype.includes]. *)
Fixpoint includes (hay needle : string) : bool :=
  startsWith needle hay
  || match hay with
     | EmptyString => false
     | String _ hay' => includes hay' needle
     end.

(** [Array.prototype.join]. *)
Fixpoint join (sep : string) (l : list string) : string :=
  match l with
  | [] => EmptyString
  | [x] => x
  | x :: rest => x ++ sep ++ join sep rest
  end.

(** Truthiness of a string that may be [undefined]. *)
Definition truthy (o : option string) : bool :=
  match o with
  | Some (String _ _) => true
  | _ => false
  end.

(** A template literal prints [undefined] for a missing value. *)
Definition show (o : option string) : string :=
  match o with
  | Some s => s
  | None => "undefined"
  end.

Definition LF : string := String (ascii_of_nat 10) EmptyString.

End JSString.

(* ================================================================== *)
(** * Data model *)
(* ================================================================== *)

(** A post as the upstream listing returns it ([child.data]). Only the
    fields the modelled functions read are kept. *)
Module Raw.
Record t : Type := mk {
  id : string;
  title : option string;
  selftext : option string;
  subreddit : string;
  permalink : string;
  author : string;
  created_utc : Z;            (* upstream clock, whole seconds *)
  stickied : bool;
  ups : Z;
  num_crossposts : Z;
  link_flair_text : option string
}.
End Raw.

(** The scraper's standard format (result of [transformRedditPost]).
    [stickied] and [pinned] are not set by the transformer but are read by
    [filterNewContent]. *)
Module Item.
Record t : Type := mk {
  id : string;
  title : string;
  content : string;
  url : string;
  author : string;
  createdAt : Z;              (* milliseconds since the epoch *)
  likes : Z;
  shares : Z;
  tags : list string;
  platform : string;
  subreddit : string;
  stickied : option bool;
  pinned : option bool
}.
End Item.

(** A reply of the upstream API to one authorized GET. *)
Module Http.
(** Body of a listing reply: [response.data.data]. A reply of any other
    shape reads as a listing without children. *)
Record Listing : Type := mkListing {
  children : list (option Raw.t);   (* [None]: a child without [data] *)
  after : option string
}.
(** A comment as the upstream returns it. *)
Record RawComment : Type := mkRawComment {
  c_id : string;
  body : option string;
  c_author : string;
  c_created_utc : Z;
  c_ups : Z;
  parent_id : string
}.
(** Body of a reply to a comments request: anything but an array of two
    or more elements is [NotAThread]; otherwise [Thread] holds
    [response.data[1]?.data?.children]. *)
Inductive CommentsBody : Type :=
| NotAThread
| Thread (children : option (list (option RawComment))).
(** [Rejected status message]: the request promise rejects (an HTTP error,
    a network error, a timeout, or a failed token refresh);
    [status] is [error.response?.status]. *)
Inductive Response (B : Type) : Type :=
| Replied (body : B)
| Rejected (status : option Z) (message : string).
Arguments Replied {B} body.
Arguments Rejected {B} status message.
End Http.

(** What the process does to the outside, in order. *)
Inductive Event : Type :=
| EvGet (path : string) (limit : Z) (after : option string)
| EvDelay (ms : Z)
| EvGenerateComments (originalId : string) (count : nat).

(** The surroundings of the process besides the upstream API. *)
Module Env.
Record t : Type := mk {
  random : list nat;              (* draws of Math.random still to come *)
  clock : Z;                      (* Date.now(), milliseconds *)
  trace : list Event              (* oldest first *)
}.
Definition log (e : Event) (n : t) : t :=
  mk (random n) (clock n) (trace n ++ [e]).
(** [await this.utils.delay(ms)] *)
Definition delay (ms : Z) (n : t) : t :=
  mk (random n) (clock n + ms)%Z (trace n ++ [EvDelay ms]).
(** [Math.floor(Math.random() * bound)] *)
Definition draw (bound : nat) (n : t) : nat * t :=
  match random n with
  | [] => (0, n)
  | x :: r => (x mod bound, mk r (clock n) (trace n))
  end.
End Env.

(** The replies of the upstream API still to come: each authorized GET
    takes the first one. When none is left the request fails with a
    network error. *)
Definition Upstream : Type := list (Http.Response Http.Listing).

(** Result of a call that may throw. *)
Inductive Result (A : Type) : Type :=
| Ok (a : A)
| Throw (message : string).
Arguments Ok {A} a.
Arguments Throw {A} message.

(* ================================================================== *)
(** * RedditScraper.js *)
(* ================================================================== *)

Module RedditScraper.
Import JSString.

Definition baseUrl : string := "https://www.reddit.com".
Definition rateLimitDelay : Z := 2000.

(** ** Title enhancement *)

(** First alternative of [alts] that matches at the start of [s], followed
    by [\s*]; [s] itself when none does. *)
Fixpoint stripFirstAlternative (alts : list string) (s : string) : string :=
  match alts with
  | [] => s
  | a :: rest =>
      match matchPrefixCI a s with
      | Some r => skipWhiteSpace r
      | None => stripFirstAlternative rest s
      end
  end.

(** [.replace(/^(PSA:|LPT:|TIL:|DAE:|TIFU:|AMA:?)\s*/i, "")] *)
Definition stripTagPrefix (s : string) : string :=
  stripFirstAlternative ["PSA:"; "LPT:"; "TIL:"; "DAE:"; "TIFU:"; "AMA:"; "AMA"] s.

(** After an opening bracket: lazy [.*?] up to the first closing bracket,
    which must come before any line terminator. *)
Fixpoint afterClosingBracket (s : string) : option string :=
  match s with
  | EmptyString => None
  | String c r =>
      if Ascii.eqb c "]" then Some r
      else if isLineTerminator c then None
      else afterClosingBracket r
  end.

(** [.replace(/^\[.*?\]\s*/, "")] *)
Definition stripBracketPrefix (s : string) : string :=
  match s with
  | String c r =>
      if Ascii.eqb c "[" then
        match afterClosingBracket r with
        | Some rest => skipWhiteSpace rest
        | None => s
        end
      else s
  | EmptyString => EmptyString
  end.

Definition enhanceTitle (originalTitle : option string) : string :=
  match originalTitle with
  | Some (String c t) =>
      let original := String c t in
      let enhanced := trim (stripBracketPrefix (stripTagPrefix original)) in
      match enhanced with
      | EmptyString => original
      | _ => enhanced
      end
  | _ => "Discussion Post"
  end.

(** ** Body enhancement *)

(** [.replace(/kw.*$/gim, "")] for a literal [kw] without line terminator:
    every occurrence of [kw] is removed together with the rest of its line.
    [skipping] holds inside a match. *)
Fixpoint removeAnnotation (kw : string) (skipping : bool) (s : string) : string :=
  match s with
  | EmptyString => EmptyString
  | String c s' =>
      if skipping then
        if isLineTerminator c then String c (removeAnnotation kw false s')
        else removeAnnotation kw true s'
      else
        match matchPrefixCI kw s with
        | Some _ => removeAnnotation kw true s'
        | None => String c (removeAnnotation kw false s')
        end
  end.

(** [/^\s*EDIT\s*:.*$/im] tried at a line start: what follows the match. *)
Definition matchEditLine (s : string) : option string :=
  match matchPrefixCI "EDIT" (skipWhiteSpace s) with
  | Some r =>
      match skipWhiteSpace r with
      | String c r' => if Ascii.eqb c ":" then Some (skipLine r') else None
      | EmptyString => None
      end
  | None => None
  end.

(** [.replace(/^\s*EDIT\s*:.*$/gim, "")]: [skip] counts the characters of
    the current match still to drop, [atLineStart] is what [^] sees. *)
Fixpoint removeEditLines (skip : nat) (atLineStart : bool) (s : string) : string :=
  match s with
  | EmptyString => EmptyString
  | String c s' =>
      match skip with
      | S k => removeEditLines k (isLineTerminator c) s'
      | O =>
          match (if atLineStart then matchEditLine s else None) with
          | Some rest =>
              removeEditLines (String.length s - String.length rest - 1)
                              (isLineTerminator c) s'
          | None => String c (removeEditLines 0 (isLineTerminator c) s')
          end
      end
  end.

Definition cleanContent (originalContent : string) : string :=
  trim
    (removeEditLines 0 true
       (removeAnnotation "TL;DR:" false
          (removeAnnotation "Update:" false
             (removeAnnotation "Edit:" false originalContent)))).

Definition expansions : list string :=
  [ "I've been thinking about this lately and wanted to get the community's perspective.";
    "This has been on my mind and I'd love to hear different viewpoints.";
    "I'm curious about others' experiences with this topic.";
    "Looking for insights from people who might have dealt with something similar." ].

Definition expandShortContent (content : string) (n : Env.t) : string * Env.t :=
  if 50 <=? String.length content then (content, n)
  else
    let (k, n') := Env.draw (List.length expansions) n in
    (content ++ LF ++ LF ++ nth k expansions EmptyString, n').

(** Own properties of the [contextualPhrases] object literal. *)
Definition contextualPhrases : list (string * string) :=
  [ ("entrepreneur", "Looking for insights and experiences from fellow entrepreneurs.");
    ("business", "Seeking advice and perspectives from the business community.");
    ("startups", "Would love to hear thoughts from other startup founders.");
    ("smallbusiness", "Any other small business owners have similar experiences?");
    ("marketing", "Interested in hearing different marketing approaches to this.");
    ("investing", "What are your thoughts on this from an investment perspective?") ].

Definition defaultPhrase : string :=
  "What are your thoughts and experiences with this?".

Fixpoint assoc (key : string) (table : list (string * string)) : option string :=
  match table with
  | [] => None
  | (k, v) :: rest => if String.eqb k key then Some v else assoc key rest
  end.

(** What a template literal prints for the members an object literal
    inherits from [Object.prototype] under an all-lower-case name. *)
Definition inheritedMembers : list (string * string) :=
  [ ("constructor", "function Object() { [native code] }");
    ("__proto__", "[object Object]") ].

(** [contextualPhrases[key] || defaultPhrase], printed. *)
Definition contextPhrase (key : string) : string :=
  match assoc key contextualPhrases with
  | Some p => p
  | None =>
      match assoc key inheritedMembers with
      | Some p => p
      | None => defaultPhrase
      end
  end.

Definition generateContentFromContext (postData : Raw.t) : string :=
  show (Raw.title postData) ++ LF ++ LF
  ++ contextPhrase (toLowerCase (Raw.subreddit postData)).

Definition enhanceContent (originalContent : option string) (postData : Raw.t)
    (n : Env.t) : string * Env.t :=
  match originalContent with
  | None => (generateContentFromContext postData, n)
  | Some original =>
      match trim original with
      | EmptyString => (generateContentFromContext postData, n)
      | _ =>
          let enhanced := cleanContent original in
          let (enhanced', n') :=
            if String.length enhanced <? 50 then expandShortContent enhanced n
            else (enhanced, n) in
          (match enhanced' with EmptyString => original | _ => enhanced' end, n')
      end
  end.

(** ** Tags *)

Definition isWordChar (c : ascii) : bool :=
  let n := code c in
  ((48 <=? n) && (n <=? 57)) || ((65 <=? n) && (n <=? 90))
  || ((97 <=? n) && (n <=? 122)) || (n =? 95).

Definition closeTag (cur : option string) : list string :=
  match cur with
  | Some (String c w) => [String c w]
  | _ => []
  end.

(** [text.match(/#\w+/g)] without the leading [#] of each match: [cur] is
    the word read so far after a [#]. *)
Fixpoint scanHashtags (cur : option string) (text : string) : list string :=
  match text with
  | EmptyString => closeTag cur
  | String c text' =>
      match cur with
      | Some w =>
          if isWordChar c then scanHashtags (Some (w ++ String c EmptyString)) text'
          else closeTag cur
               ++ scanHashtags (if Ascii.eqb c "#" then Some EmptyString else None) text'
      | None =>
          scanHashtags (if Ascii.eqb c "#" then Some EmptyString else None) text'
      end
  end.

(** [[...new Set(tags)]]: first occurrences, in order. *)
Fixpoint dedupe (seen l : list string) : list string :=
  match l with
  | [] => []
  | x :: rest =>
      if existsb (String.eqb x) seen then dedupe seen rest
      else x :: dedupe (x :: seen) rest
  end.

Definition orEmpty (o : option string) : string :=
  match o with Some s => s | None => EmptyString end.

Definition extractTags (post : Raw.t) : list string :=
  let fromSubreddit :=
    match Raw.subreddit post with
    | EmptyString => []
    | sub => [toLowerCase sub]
    end in
  let fromFlair :=
    if truthy (Raw.link_flair_text post)
    then [toLowerCase (orEmpty (Raw.link_flair_text post))] else [] in
  let text := show (Raw.title post) ++ " " ++ orEmpty (Raw.selftext post) in
  dedupe [] (fromSubreddit ++ fromFlair ++ map toLowerCase (scanHashtags None text)).

(** ** The transformer *)

(** [a || b] on strings that may be [undefined]. *)
Definition orElse (a b : option string) : option string :=
  if truthy a then a else b.

Definition transformRedditPost (redditPost : Raw.t) (n : Env.t) : Item.t * Env.t :=
  let dynamicTitle := enhanceTitle (Raw.title redditPost) in
  let (dynamicContent, n') :=
    enhanceContent (orElse (Raw.selftext redditPost) (Raw.title redditPost))
                   redditPost n in
  (Item.mk (Raw.id redditPost)
           dynamicTitle
           dynamicContent
           (baseUrl ++ Raw.permalink redditPost)
           (Raw.author redditPost)
           (Raw.created_utc redditPost * 1000)%Z
           (Raw.ups redditPost)
           (Raw.num_crossposts redditPost)
           (extractTags redditPost)
           "reddit"
           (Raw.subreddit redditPost)
           None
           None,
   n').

Record Comment : Type := mkComment {
  cm_id : string;
  cm_content : string;
  cm_author : string;
  cm_createdAt : Z;
  cm_likes : Z;
  cm_parentId : string;
  cm_platform : string
}.

Definition transformRedditComment (c : Http.RawComment) : Comment :=
  mkComment (Http.c_id c) (orEmpty (Http.body c)) (Http.c_author c)
            (Http.c_created_utc c * 1000)%Z (Http.c_ups c) (Http.parent_id c)
            "reddit".

(** ** Keyword filter *)

Definition searchText (post : Item.t) : string :=
  toLowerCase
    (Item.title post ++ " " ++ Item.content post ++ " "
     ++ join " " (Item.tags post)).

Definition matchesKeywords (post : Item.t) (keywords : list string) : bool :=
  existsb (fun keyword => includes (searchText post) (toLowerCase keyword)) keywords.

(** ** Subreddit of a source URL *)

(** Longest run of characters other than [/] and [?]. *)
Fixpoint takeSegment (s : string) : string :=
  match s with
  | EmptyString => EmptyString
  | String c r =>
      if Ascii.eqb c "/" || Ascii.eqb c "?" then EmptyString
      else String c (takeSegment r)
  end.

Definition segmentAfterR (s : string) : string :=
  match s with
  | String a (String b (String c rest)) =>
      if Ascii.eqb a "/" && Ascii.eqb b "r" && Ascii.eqb c "/"
      then takeSegment rest else EmptyString
  | _ => EmptyString
  end.

(** [url.match(/\/r\/([^\/\?]+)/)]: the first place where the pattern
    matches, with its capture. *)
Fixpoint extractSubreddit (url : string) : option string :=
  match url with
  | EmptyString => None
  | String _ r =>
      match segmentAfterR url with
      | EmptyString => extractSubreddit r
      | name => Some name
      end
  end.

(** ** Paginated listing fetch *)

(** [error.response?.status === 429] *)
Definition isRateLimited (status : option Z) : bool :=
  match status with
  | Some code => (code =? 429)%Z
  | None => false
  end.

Record FetchOptions : Type := mkFetchOptions {
  limit : Z;
  sort : string;
  excludeStickied : bool;
  minCreatedUtc : option Z
}.

Record Page : Type := mkPage {
  posts : list Item.t;
  nextAfter : option string
}.

Definition normalizedSort (sort : string) : string :=
  if existsb (String.eqb sort) ["hot"; "new"; "top"; "rising"] then sort else "hot".

(** [minCreatedUtc && child.data.created_utc <= minCreatedUtc] *)
Definition atOrBeforeMin (minCreatedUtc : option Z) (data : Raw.t) : bool :=
  match minCreatedUtc with
  | Some m => negb (m =? 0)%Z && (Raw.created_utc data <=? m)%Z
  | None => false
  end.

(** The [for (const child of children)] loop of one page. *)
Fixpoint processChildren (opts : FetchOptions) (children : list (option Raw.t))
    (acc : list Item.t) (reachedOlderThanMin : bool) (n : Env.t)
    : list Item.t * bool * Env.t :=
  match children with
  | [] => (acc, reachedOlderThanMin, n)
  | None :: rest => processChildren opts rest acc reachedOlderThanMin n
  | Some data :: rest =>
      if excludeStickied opts && Raw.stickied data then
        processChildren opts rest acc reachedOlderThanMin n
      else if atOrBeforeMin (minCreatedUtc opts) data then
        processChildren opts rest acc true n
      else
        let (post, n') := transformRedditPost data n in
        let acc' := (acc ++ [post])%list in
        if (limit opts <=? Z.of_nat (List.length acc'))%Z then
          (acc', reachedOlderThanMin, n')
        else processChildren opts rest acc' reachedOlderThanMin n'
  end.

(** The [while] loop of [fetchRedditPosts], one reply of the script per
    iteration. A 429 restarts the call: after a delay of 5000 ms the
    function calls itself with [after: nextAfter], and that call starts
    from an empty [posts] array with [reachedOlderThanMin] unset. *)
Fixpoint fetchLoop (subreddit : string) (opts : FetchOptions) (u : Upstream)
    (acc : list Item.t) (nextAfter : option string) (reachedOlderThanMin : bool)
    (n : Env.t) : Result Page * Upstream * Env.t :=
  if (Z.of_nat (List.length acc) <? limit opts)%Z && negb reachedOlderThanMin then
    let remaining := (limit opts - Z.of_nat (List.length acc))%Z in
    let n1 :=
      Env.log (EvGet ("/r/" ++ subreddit ++ "/" ++ normalizedSort (sort opts))
                     (Z.min remaining 25)
                     (if truthy nextAfter then nextAfter else None)) n in
    match u with
    | [] => (Throw "network error", [], n1)
    | Http.Rejected status message :: u' =>
        if isRateLimited status then
          fetchLoop subreddit opts u' [] nextAfter false (Env.delay 5000 n1)
        else (Throw message, u', n1)
    | Http.Replied listing :: u' =>
        match Http.children listing with
        | [] => (Ok (mkPage acc nextAfter), u', n1)
        | children =>
            let '(acc', reached', n2) :=
              processChildren opts children acc reachedOlderThanMin n1 in
            let nextAfter' := Http.after listing in
            if truthy nextAfter' then
              fetchLoop subreddit opts u' acc' nextAfter' reached'
                        (Env.delay rateLimitDelay n2)
            else (Ok (mkPage acc' nextAfter'), u', n2)
        end
    end
  else (Ok (mkPage acc nextAfter), u, n).

Definition fetchRedditPosts (subreddit : string) (opts : FetchOptions)
    (after : option string) (u : Upstream) (n : Env.t)
    : Result Page * Upstream * Env.t :=
  fetchLoop subreddit opts u [] after false n.

(** ** scrapeContent *)

Record ScrapeConfig : Type := mkScrapeConfig {
  sourceUrl : string;
  keywords : list string;
  maxPosts : Z;
  cfgSort : string;
  cfgExcludeStickied : bool;
  cfgMinCreatedUtc : option Z
}.

(** [array.slice(0, e)] *)
Definition slice0 {A : Type} (e : Z) (l : list A) : list A :=
  if (e <? 0)%Z then firstn (List.length l - Z.to_nat (- e)) l
  else firstn (Z.to_nat e) l.

Definition filterByKeywords (keywords : list string) (posts : list Item.t)
    : list Item.t :=
  match keywords with
  | [] => posts
  | _ => filter (fun post => matchesKeywords post keywords) posts
  end.

Definition scrapeContent (config : ScrapeConfig) (u : Upstream) (n : Env.t)
    : Result (list Item.t) * Upstream * Env.t :=
  match extractSubreddit (sourceUrl config) with
  | None =>
      (Throw "Reddit scraping failed: Invalid Reddit URL - could not extract subreddit",
       u, n)
  | Some subreddit =>
      match fetchRedditPosts subreddit
              (mkFetchOptions (maxPosts config) (cfgSort config)
                              (cfgExcludeStickied config) (cfgMinCreatedUtc config))
              None u n with
      | (Ok page, u', n') =>
          (Ok (slice0 (maxPosts config) (filterByKeywords (keywords config) (posts page))),
           u', n')
      | (Throw message, u', n') =>
          (Throw ("Reddit scraping failed: " ++ message), u', n')
      end
  end.

(** ** Comments of a post *)

Definition keepComment (child : option Http.RawComment) : bool :=
  match child with
  | Some data =>
      truthy (Http.body data)
      && negb (String.eqb (orEmpty (Http.body data)) "[deleted]")
  | None => false
  end.

Definition commentOf (child : option Http.RawComment) : list Comment :=
  match child with
  | Some data => [transformRedditComment data]
  | None => []
  end.

Definition commentsOfBody (body : Http.CommentsBody) (maxComments : Z)
    : list Comment :=
  match body with
  | Http.Thread (Some children) =>
      slice0 maxComments (flat_map commentOf (filter keepComment children))
  | _ => []
  end.

(** [scrapePostComments]: one reply of the script per call; a 429 makes
    the function wait 10000 ms and call itself again. *)
Fixpoint scrapePostComments (postId : string) (maxComments : Z)
    (u : list (Http.Response Http.CommentsBody)) (n : Env.t)
    : list Comment * list (Http.Response Http.CommentsBody) * Env.t :=
  let n1 := Env.log (EvGet ("/comments/" ++ postId) maxComments None) n in
  match u with
  | [] => ([], [], n1)
  | Http.Replied body :: u' => (commentsOfBody body maxComments, u', n1)
  | Http.Rejected status _ :: u' =>
      if isRateLimited status then
        scrapePostComments postId maxComments u' (Env.delay 10000 n1)
      else ([], u', n1)
  end.

End RedditScraper.

(* ================================================================== *)
(** * Persisted data (post.model.js and the collections the manager reads) *)
(* ================================================================== *)

Module Post.
Record t : Type := mk {
  title : string;
  content : string;
  sourceUrl : string;
  platform : string;
  originalId : string;
  community : string;
  owner : string;
  likes : Z;                       (* engagementMetrics.likes *)
  shares : Z;                      (* engagementMetrics.shares *)
  scrapedAt : Z;                   (* scrapingMetadata.* from here on *)
  originalAuthor : string;
  originalCreatedAt : Z;
  qualityScore : Q;
  authenticityScore : option Q;
  tags : list string;
  validationMethod : string;
  status : string
}.
End Post.

Module PlatformConfig.
Record t : Type := mk {
  platform : string;
  sourceUrl : string;
  keywords : list string;
  isActive : bool
}.
End PlatformConfig.

Module Community.
Record t : Type := mk {
  _id : string;
  name : string;
  isActive : bool;
  scrapingPlatforms : list PlatformConfig.t;
  lastScrapedAt : option Z;        (* milliseconds; unset before the first run *)
  postCount : Z;
  maxPostsPerScrape : option Z;    (* scrapingConfig?.maxPostsPerScrape *)
  qualityThreshold : option Q      (* scrapingConfig?.qualityThreshold *)
}.
End Community.

Module User.
Record t : Type := mk {
  _id : string;
  userType : string
}.
End User.

(** Everything a run reads and writes. *)
Module World.
Record t : Type := mk {
  upstream : Upstream;
  env : Env.t;
  posts : list Post.t;
  communities : list Community.t;
  users : list User.t;
  (** [Some m]: the query for the active communities rejects with [m]. *)
  communityListError : option string;
  (** [process.env.OPENAI_API_KEY] is set. *)
  openaiKey : bool;
  (** Whether [generateCommentsForPost] succeeds for the post of this
      original id (the comment generator is an external collaborator). *)
  commentGeneratorOk : string -> bool
}.
Definition withNet (w : t) (u : Upstream) (e : Env.t) : t :=
  mk u e (posts w) (communities w) (users w) (communityListError w)
     (openaiKey w) (commentGeneratorOk w).
Definition withEnv (w : t) (e : Env.t) : t := withNet w (upstream w) e.
Definition withPosts (w : t) (ps : list Post.t) : t :=
  mk (upstream w) (env w) ps (communities w) (users w) (communityListError w)
     (openaiKey w) (commentGeneratorOk w).
Definition withCommunities (w : t) (cs : list Community.t) : t :=
  mk (upstream w) (env w) (posts w) cs (users w) (communityListError w)
     (openaiKey w) (commentGeneratorOk w).
End World.

(* ================================================================== *)
(** * ScraperManager.js *)
(* ================================================================== *)

Module ScraperManager.
Import JSString.
Local Open Scope list_scope.

(** ** Queries and writes on the Post collection *)

(** [{ $or: [{ platform, originalId }, { sourceUrl }] }] on one record. *)
Definition matchesPost (platform originalId sourceUrl : string) (p : Post.t) : bool :=
  (String.eqb (Post.platform p) platform && String.eqb (Post.originalId p) originalId)
  || String.eqb (Post.sourceUrl p) sourceUrl.

(** [Post.exists] / [Post.findOne] with that query, as a truth value. *)
Definition postExists (db : list Post.t) (platform originalId sourceUrl : string) : bool :=
  existsb (matchesPost platform originalId sourceUrl) db.

Definition nonEmpty (s : string) : bool :=
  match s with EmptyString => false | _ => true end.

Definition inUnitInterval (q : Q) : bool := Qle_bool 0 q && Qle_bool q 1.

(** Schema validation of post.model.js: required strings, the platform and
    status enumerations, and the bounds of the two scores. The required
    [owner] and [community] are always given by the callers below. Outside
    the model: the cast of [mediaUrls] and the enumeration of
    [contentType], since the embedded item and the embedded result of the
    content processor carry neither. *)
Definition validates (p : Post.t) : bool :=
  nonEmpty (Post.title p) && nonEmpty (Post.content p)
  && nonEmpty (Post.sourceUrl p) && String.eqb (Post.platform p) "reddit"
  && nonEmpty (Post.originalId p)
  && inUnitInterval (Post.qualityScore p)
  && match Post.authenticityScore p with
     | Some a => inUnitInterval a
     | None => true
     end
  && existsb (String.eqb (Post.status p)) ["active"; "hidden"; "flagged"; "deleted"].

(** The [trim: true] setter of the title. *)
Definition withTrimmedTitle (p : Post.t) : Post.t :=
  Post.mk (trim (Post.title p)) (Post.content p) (Post.sourceUrl p)
          (Post.platform p) (Post.originalId p) (Post.community p) (Post.owner p)
          (Post.likes p) (Post.shares p) (Post.scrapedAt p) (Post.originalAuthor p)
          (Post.originalCreatedAt p) (Post.qualityScore p)
          (Post.authenticityScore p) (Post.tags p) (Post.validationMethod p)
          (Post.status p).

(** The schema default of [scrapingMetadata.authenticityScore], 0.5, for a
    document that gives none. *)
Definition withDefaults (p : Post.t) : Post.t :=
  Post.mk (Post.title p) (Post.content p) (Post.sourceUrl p)
          (Post.platform p) (Post.originalId p) (Post.community p) (Post.owner p)
          (Post.likes p) (Post.shares p) (Post.scrapedAt p) (Post.originalAuthor p)
          (Post.originalCreatedAt p) (Post.qualityScore p)
          (match Post.authenticityScore p with
           | Some a => Some a
           | None => Some (1 # 2)
           end)
          (Post.tags p) (Post.validationMethod p) (Post.status p).

(** [Post.create]: [None] when the document is rejected (validation, or
    the unique index on [sourceUrl]). *)
Definition createPost (doc : Post.t) (db : list Post.t) : option (list Post.t) :=
  let p := withDefaults (withTrimmedTitle doc) in
  if validates p
     && negb (existsb (fun q => String.eqb (Post.sourceUrl q) (Post.sourceUrl p)) db)
  then Some (db ++ [p]) else None.

(** ** Helpers *)

(** [_toUnixSeconds] *)
Definition _toUnixSeconds (date : Z) : Z := (date / 1000)%Z.

(** [configured || fallback] on a number that may be [undefined]. *)
Definition orNumber (configured : option Z) (fallback : Z) : Z :=
  match configured with
  | Some z => if (z =? 0)%Z then fallback else z
  | None => fallback
  end.

Definition orScore (configured : option Q) (fallback : Q) : Q :=
  match configured with
  | Some q => if Qeq_bool q 0 then fallback else q
  | None => fallback
  end.

(** [a < b] on scores. *)
Definition Qltb (a b : Q) : bool := negb (Qle_bool b a).

(** [c?.stickied === true || c?.pinned === true] *)
Definition isSticky (c : Item.t) : bool :=
  match Item.stickied c, Item.pinned c with
  | Some true, _ => true
  | _, Some true => true
  | _, _ => false
  end.

Definition filterNewContent (db : list Post.t) (items : list Item.t)
    (platform : string) : list Item.t :=
  match items with
  | [] => []
  | _ =>
      let results :=
        map (fun c =>
               let exists_ := postExists db platform (Item.id c) (Item.url c) in
               (c, negb exists_ && negb (isSticky c)))
            items in
      map fst (filter snd results)
  end.

(** ** Collaborators that are not part of the two modelled files *)

(** Result of [ContentProcessor.processContent]. *)
Record Processed : Type := mkProcessed {
  p_title : string;
  p_content : string;
  p_tags : list string
}.

(** Result of [ContentValidator.validateAuthenticity]. *)
Record Authenticity : Type := mkAuthenticity {
  valid : bool;
  reason : string;
  score : Q
}.

(** A validated item: [{ ...content, qualityScore, authenticityScore }]. *)
Record AuthenticItem : Type := mkAuthenticItem {
  item : Item.t;
  a_qualityScore : Q;
  a_authenticityScore : Q
}.

(** What [createPostsFrom...] returns. *)
Record Creation : Type := mkCreation {
  postsCreated : nat;
  createdItems : list Item.t;
  skippedExisting : nat;
  skippedLowQuality : nat
}.

Definition noCreation : Creation := mkCreation 0 [] 0 0.

Definition countExisting (r : Creation) : Creation :=
  mkCreation (postsCreated r) (createdItems r) (S (skippedExisting r))
             (skippedLowQuality r).
Definition countLowQuality (r : Creation) : Creation :=
  mkCreation (postsCreated r) (createdItems r) (skippedExisting r)
             (S (skippedLowQuality r)).
Definition countCreated (content : Item.t) (r : Creation) : Creation :=
  mkCreation (S (postsCreated r)) (createdItems r ++ [content])
             (skippedExisting r) (skippedLowQuality r).

Section Collaborators.

Variable calculateQualityScore : Item.t -> Q.
Variable processContent : Item.t -> Processed.
Variable processAuthenticContent : AuthenticItem -> Processed.
Variable validateAuthenticity : Item.t -> Authenticity.

(** ** Creation *)

(** One iteration of the loop of [createPostsFromScrapedContent]. An
    error thrown in the iteration (here: by [Post.create], or by
    [randomUser._id] when there is no user to pick) is swallowed by its
    [catch], and nothing is counted. The call of
    [autoLikeService.assignInitialLikesToPost], awaited after the post was
    counted, belongs to a service outside the modelled files and is left
    out. *)
Definition createFromScraped (community : Community.t) (platform : string)
    (platformUsers : list User.t) (st : World.t * Creation) (content : Item.t)
    : World.t * Creation :=
  let (w, r) := st in
  if postExists (World.posts w) platform (Item.id content) (Item.url content)
  then (w, countExisting r)
  else
    let qualityScore := calculateQualityScore content in
    if Qltb qualityScore (orScore (Community.qualityThreshold community) (1 # 2))
    then (w, countLowQuality r)
    else
      let (k, e1) := Env.draw (List.length platformUsers) (World.env w) in
      let processedContent := processContent content in
      let (l, e2) := Env.draw 11 e1 in
      let randomLikeCount := (Z.of_nat l + 5)%Z in
      match nth_error platformUsers k with
      | None =>
          (* [randomUser] is [undefined]: [randomUser._id] throws, and the
             [catch] of the iteration swallows the error *)
          (World.withEnv w e2, r)
      | Some randomUser =>
          let doc :=
            Post.mk (p_title processedContent) (p_content processedContent)
                    (Item.url content) platform (Item.id content)
                    (Community._id community) (User._id randomUser)
                    randomLikeCount (Item.shares content)
                    (Env.clock e2) (Item.author content) (Item.createdAt content)
                    qualityScore None (p_tags processedContent)
                    "real_api_scraping" "active" in
          match createPost doc (World.posts w) with
          | Some db' => (World.withPosts (World.withEnv w e2) db', countCreated content r)
          | None => (World.withEnv w e2, r)
          end
      end.

Definition createPostsFromScrapedContent (scrapedContent : list Item.t)
    (community : Community.t) (platform : string) (platformUsers : list User.t)
    (w : World.t) : World.t * Creation :=
  fold_left (createFromScraped community platform platformUsers)
            scrapedContent (w, noCreation).

(** One iteration of the loop of [createPostsFromAuthenticContent], with
    the same handling of errors. *)
Definition createFromAuthentic (community : Community.t) (platform : string)
    (users : list User.t) (st : World.t * Creation) (content : AuthenticItem)
    : World.t * Creation :=
  let (w, r) := st in
  let c := item content in
  if postExists (World.posts w) platform (Item.id c) (Item.url c)
  then (w, countExisting r)
  else
    let (k, e1) := Env.draw (List.length users) (World.env w) in
    let processedContent := processAuthenticContent content in
    let (l, e2) := Env.draw 11 e1 in
    let randomLikeCount := (Z.of_nat l + 5)%Z in
    match nth_error users k with
    | None => (World.withEnv w e2, r)     (* [randomUser._id] throws; caught *)
    | Some randomUser =>
        let doc :=
          Post.mk (p_title processedContent) (p_content processedContent)
                  (Item.url c) platform (Item.id c)
                  (Community._id community) (User._id randomUser)
                  randomLikeCount (Item.shares c)
                  (Env.clock e2) (Item.author c) (Item.createdAt c)
                  (a_qualityScore content) (Some (a_authenticityScore content))
                  (p_tags processedContent)
                  "enhanced_validation" "active" in
        match createPost doc (World.posts w) with
        | Some db' => (World.withPosts (World.withEnv w e2) db', countCreated c r)
        | None => (World.withEnv w e2, r)
        end
    end.

Definition createPostsFromAuthenticContent (authenticContent : list AuthenticItem)
    (community : Community.t) (platform : string) (users : list User.t)
    (w : World.t) : World.t * Creation :=
  fold_left (createFromAuthentic community platform users)
            authenticContent (w, noCreation).

(** The loop of [validateAuthenticContent]; it reads the posts and writes
    nothing. *)
Fixpoint validateLoop (db : list Post.t) (community : Community.t) (maxPosts : Z)
    (scrapedContent : list Item.t) (authenticContent : list AuthenticItem)
    : list AuthenticItem :=
  match scrapedContent with
  | [] => authenticContent
  | content :: rest =>
      if postExists db (Item.platform content) (Item.id content) (Item.url content)
      then validateLoop db community maxPosts rest authenticContent
      else
        let isAuthentic := validateAuthenticity content in
        if negb (valid isAuthentic)
        then validateLoop db community maxPosts rest authenticContent
        else
          let qualityScore := calculateQualityScore content in
          let minQualityScore := orScore (Community.qualityThreshold community) (3 # 5) in
          if Qltb qualityScore minQualityScore
          then validateLoop db community maxPosts rest authenticContent
          else
            let authenticContent' :=
              (authenticContent
               ++ [mkAuthenticItem content qualityScore (score isAuthentic)])%list in
            if (maxPosts <=? Z.of_nat (List.length authenticContent'))%Z
            then authenticContent'
            else validateLoop db community maxPosts rest authenticContent'
  end.

Definition validateAuthenticContent (db : list Post.t) (scrapedContent : list Item.t)
    (community : Community.t) (maxPosts : Z) : list AuthenticItem :=
  validateLoop db community maxPosts scrapedContent [].

(** ** Comment generation for the created posts *)

Definition findPost (db : list Post.t) (platform originalId : string) : option Post.t :=
  find (fun p => String.eqb (Post.platform p) platform
                 && String.eqb (Post.originalId p) originalId) db.

Definition generateCommentsFor (platform : string) (w : World.t) (content : Item.t)
    : World.t :=
  match findPost (World.posts w) platform (Item.id content) with
  | None => w
  | Some post =>
      let (k, e1) := Env.draw 6 (World.env w) in
      let commentCount := k + 10 in
      let e2 := Env.log (EvGenerateComments (Post.originalId post) commentCount) e1 in
      if World.commentGeneratorOk w (Post.originalId post)
      then World.withEnv w (Env.delay 2000 e2)
      else World.withEnv w e2
  end.

Definition generateCommentsForCreatedPosts (createdItems : list Item.t)
    (platform : string) (w : World.t) : World.t :=
  if World.openaiKey w
  then fold_left (generateCommentsFor platform) createdItems w
  else w.

Definition enrich (created : Creation) (platform : string) (w : World.t) : World.t :=
  match createdItems created with
  | [] => w
  | items => generateCommentsForCreatedPosts items platform w
  end.

(** ** One source config of one community *)

(** The body of the [try] block of the per-platform loop, in each of the
    three modes. A [Throw] is what the [catch (platformError)] receives. *)

Definition since (community : Community.t) : option Z :=
  match Community.lastScrapedAt community with
  | Some date => Some (_toUnixSeconds date)
  | None => None
  end.

(** [scrapeCommunity] *)
Definition bulkStage (community : Community.t) (platformConfig : PlatformConfig.t)
    (platformUsers : list User.t) (w : World.t) : Result Creation * World.t :=
  let config :=
    RedditScraper.mkScrapeConfig
      (PlatformConfig.sourceUrl platformConfig)
      (PlatformConfig.keywords platformConfig)
      (orNumber (Community.maxPostsPerScrape community) 50)
      "new" true (since community) in
  match RedditScraper.scrapeContent config (World.upstream w) (World.env w) with
  | (Throw message, u, e) => (Throw message, World.withNet w u e)
  | (Ok scrapedContent, u, e) =>
      let w1 := World.withNet w u e in
      let newOnly :=
        filterNewContent (World.posts w1) scrapedContent
                         (PlatformConfig.platform platformConfig) in
      let (w2, created) :=
        createPostsFromScrapedContent newOnly community
          (PlatformConfig.platform platformConfig) platformUsers w1 in
      (Ok created, enrich created (PlatformConfig.platform platformConfig) w2)
  end.

(** [scrapeSinglePostPerPlatform] *)
Definition singlePostStage (community : Community.t)
    (platformConfig : PlatformConfig.t) (platformUsers : list User.t)
    (w : World.t) : Result Creation * World.t :=
  let config :=
    RedditScraper.mkScrapeConfig
      (PlatformConfig.sourceUrl platformConfig)
      (PlatformConfig.keywords platformConfig)
      5 "new" true (since community) in
  match RedditScraper.scrapeContent config (World.upstream w) (World.env w) with
  | (Throw message, u, e) => (Throw message, World.withNet w u e)
  | (Ok scrapedContent, u, e) =>
      let w1 := World.withNet w u e in
      let newOnly :=
        RedditScraper.slice0 1
          (filterNewContent (World.posts w1) scrapedContent
                            (PlatformConfig.platform platformConfig)) in
      let (w2, created) :=
        createPostsFromScrapedContent newOnly community
          (PlatformConfig.platform platformConfig) platformUsers w1 in
      (Ok created, enrich created (PlatformConfig.platform platformConfig) w2)
  end.

(** [scrapeAuthenticContent]: no [minCreatedUtc] is passed. *)
Definition authenticStage (postsPerPlatform : Z) (community : Community.t)
    (platformConfig : PlatformConfig.t) (platformUsers : list User.t)
    (w : World.t) : Result Creation * World.t :=
  let config :=
    RedditScraper.mkScrapeConfig
      (PlatformConfig.sourceUrl platformConfig)
      (PlatformConfig.keywords platformConfig)
      (postsPerPlatform * 3)%Z "new" true None in
  match RedditScraper.scrapeContent config (World.upstream w) (World.env w) with
  | (Throw message, u, e) => (Throw message, World.withNet w u e)
  | (Ok scrapedContent, u, e) =>
      let w1 := World.withNet w u e in
      let authenticContent :=
        validateAuthenticContent (World.posts w1) scrapedContent community
                                 postsPerPlatform in
      let (w2, created) :=
        createPostsFromAuthenticContent authenticContent community
          (PlatformConfig.platform platformConfig) platformUsers w1 in
      (Ok created, enrich created (PlatformConfig.platform platformConfig) w2)
  end.

(** ** One community *)

Record PlatformResult : Type := mkPlatformResult {
  pr_platform : string;
  pr_postsCreated : nat;
  pr_skippedExisting : nat;
  pr_skippedLowQuality : nat;
  pr_success : bool;
  pr_error : option string
}.

Record CommunityResult : Type := mkCommunityResult {
  communityId : string;
  communityName : string;
  cr_postsCreated : nat;
  platformResults : list PlatformResult
}.

Definition Stage : Type :=
  Community.t -> PlatformConfig.t -> list User.t -> World.t -> Result Creation * World.t.

(** One iteration of [for (const platformConfig of community.scrapingPlatforms)]:
    the state is the world, [totalPostsCreated] and [platformResults]. *)
Definition platformStep (stage : Stage) (community : Community.t)
    (platformUsers : list User.t) (st : World.t * nat * list PlatformResult)
    (platformConfig : PlatformConfig.t) : World.t * nat * list PlatformResult :=
  let '(w, totalPostsCreated, results) := st in
  if negb (PlatformConfig.isActive platformConfig) then st
  else if negb (String.eqb (PlatformConfig.platform platformConfig) "reddit") then st
  else
    match stage community platformConfig platformUsers w with
    | (Ok created, w') =>
        (w', totalPostsCreated + postsCreated created,
         results ++ [mkPlatformResult (PlatformConfig.platform platformConfig)
                       (postsCreated created) (skippedExisting created)
                       (skippedLowQuality created) true None])
    | (Throw message, w') =>
        (w', totalPostsCreated,
         results ++ [mkPlatformResult (PlatformConfig.platform platformConfig)
                       0 0 0 false (Some message)])
    end.

Definition findById (communities : list Community.t) (communityId : string)
    : option Community.t :=
  find (fun c => String.eqb (Community._id c) communityId) communities.

(** [Community.findByIdAndUpdate(communityId,
      { lastScrapedAt: new Date(), $inc: { postCount: n } })] *)
Fixpoint findByIdAndUpdate (communityId : string) (now : Z) (n : nat)
    (communities : list Community.t) : list Community.t :=
  match communities with
  | [] => []
  | c :: rest =>
      if String.eqb (Community._id c) communityId then
        Community.mk (Community._id c) (Community.name c) (Community.isActive c)
                     (Community.scrapingPlatforms c) (Some now)
                     (Community.postCount c + Z.of_nat n)%Z
                     (Community.maxPostsPerScrape c) (Community.qualityThreshold c)
        :: rest
      else c :: findByIdAndUpdate communityId now n rest
  end.

Definition isPlatformUser (u : User.t) : bool := String.eqb (User.userType u) "platform".

(** The common shape of [scrapeCommunity], [scrapeSinglePostPerPlatform]
    and [scrapeAuthenticContent]; they differ in the stage only. *)
Definition communityRun (stage : Stage) (communityId : string) (w : World.t)
    : Result CommunityResult * World.t :=
  match findById (World.communities w) communityId with
  | None => (Throw "Community not found", w)
  | Some community =>
      match filter isPlatformUser (World.users w) with
      | [] => (Throw "No platform users found for post assignment", w)
      | platformUsers =>
          let '(w', totalPostsCreated, results) :=
            fold_left (platformStep stage community platformUsers)
                      (Community.scrapingPlatforms community) (w, 0, []) in
          let w'' :=
            World.withCommunities w'
              (findByIdAndUpdate communityId (Env.clock (World.env w'))
                                 totalPostsCreated (World.communities w')) in
          (Ok (mkCommunityResult communityId (Community.name community)
                                 totalPostsCreated results),
           w'')
      end
  end.

Definition scrapeCommunity : string -> World.t -> Result CommunityResult * World.t :=
  communityRun bulkStage.

Definition scrapeSinglePostPerPlatform
    : string -> World.t -> Result CommunityResult * World.t :=
  communityRun singlePostStage.

Definition scrapeAuthenticContent (communityId : string) (postsPerPlatform : Z)
    : World.t -> Result CommunityResult * World.t :=
  communityRun (authenticStage postsPerPlatform) communityId.

(** ** Sweeps over the active communities *)

Record RunResult : Type := mkRunResult {
  totalCommunities : nat;
  successfulScrapes : nat;
  failedScrapes : nat;
  totalPostsCreated : nat;
  errors : list (string * string)     (* community name, error message *)
}.

(** [Community.find({ isActive: true, "scrapingPlatforms.isActive": true })] *)
Definition isActiveCommunity (c : Community.t) : bool :=
  Community.isActive c && existsb PlatformConfig.isActive (Community.scrapingPlatforms c).

(** One iteration of [for (const community of activeCommunities)]. *)
Definition sweepStep (run : string -> World.t -> Result CommunityResult * World.t)
    (st : World.t * RunResult) (community : Community.t) : World.t * RunResult :=
  let (w, results) := st in
  match run (Community._id community) w with
  | (Ok communityResult, w') =>
      (w', mkRunResult (totalCommunities results) (S (successfulScrapes results))
                       (failedScrapes results)
                       (totalPostsCreated results + cr_postsCreated communityResult)
                       (errors results))
  | (Throw message, w') =>
      (w', mkRunResult (totalCommunities results) (successfulScrapes results)
                       (S (failedScrapes results)) (totalPostsCreated results)
                       (errors results ++ [(Community.name community, message)]))
  end.

Definition sweep (run : string -> World.t -> Result CommunityResult * World.t)
    (w : World.t) : Result RunResult * World.t :=
  match World.communityListError w with
  | Some message => (Throw message, w)
  | None =>
      let activeCommunities := filter isActiveCommunity (World.communities w) in
      let (w', results) :=
        fold_left (sweepStep run) activeCommunities
                  (w, mkRunResult (List.length activeCommunities) 0 0 0 []) in
      (Ok results, w')
  end.

Definition scrapeAllCommunities : World.t -> Result RunResult * World.t :=
  sweep scrapeCommunity.

Definition scrapeSinglePostFromAllCommunities : World.t -> Result RunResult * World.t :=
  sweep scrapeSinglePostPerPlatform.

End Collaborators.

End ScraperManager.

(* ================================================================== *)
(** * Properties stated in the words of the specification *)
(* ================================================================== *)

Module Spec.
Import JSString.
Local Open Scope string_scope.

(** [needle] occurs in [hay] as a substring. *)
Definition occursIn (needle hay : string) : Prop :=
  exists before after_, hay = before ++ needle ++ after_.

(** At least one keyword occurs, case-insensitively, in the title, the
    content and the tags of the item, joined by single spaces. *)
Definition keywordOccurs (post : Item.t) (keywords : list string) : Prop :=
  exists keyword,
    In keyword keywords /\
    occursIn (toLowerCase keyword)
             (toLowerCase (Item.title post ++ " " ++ Item.content post ++ " "
                           ++ join " " (Item.tags post))).

(** The deduplicator's notion of a new item, decided on the corpus: no
    record of the same platform and original id, none of the same source
    URL, and the item is neither stickied nor pinned. *)
Definition isNew (db : list Post.t) (platform : string) (c : Item.t) : bool :=
  negb (existsb (fun p => String.eqb (Post.platform p) platform
                          && String.eqb (Post.originalId p) (Item.id c)) db)
  && negb (existsb (fun p => String.eqb (Post.sourceUrl p) (Item.url c)) db)
  && negb (match Item.stickied c with Some true => true | _ => false end)
  && negb (match Item.pinned c with Some true => true | _ => false end).

Definition IsNew (db : list Post.t) (platform : string) (c : Item.t) : Prop :=
  (forall p, In p db ->
     ~ (Post.platform p = platform /\ Post.originalId p = Item.id c))
  /\ (forall p, In p db -> Post.sourceUrl p <> Item.url c)
  /\ Item.stickied c <> Some true
  /\ Item.pinned c <> Some true.

(** Between two worlds only the network, the environment and the posts
    changed, and the posts grew by [created] at the end. *)
Definition added (w w' : World.t) (created : list Post.t) : Prop :=
  World.posts w' = (World.posts w ++ created)%list
  /\ World.communities w' = World.communities w
  /\ World.users w' = World.users w
  /\ World.communityListError w' = World.communityListError w
  /\ World.openaiKey w' = World.openaiKey w
  /\ World.commentGeneratorOk w' = World.commentGeneratorOk w.

(** The record [p] was made from the item [content]. *)
Definition fromItem (platform : string) (content : Item.t) (p : Post.t) : Prop :=
  Post.originalCreatedAt p = Item.createdAt content
  /\ Post.originalId p = Item.id content
  /\ Post.sourceUrl p = Item.url content
  /\ Post.platform p = platform.

(** The upstream timestamp of the record is strictly after the
    community's watermark (when the watermark, in seconds, is not 0). *)
Definition afterWatermark (community : Community.t) (p : Post.t) : Prop :=
  forall T,
    Community.lastScrapedAt community = Some T ->
    ScraperManager._toUnixSeconds T <> 0%Z ->
    (T < Post.originalCreatedAt p)%Z.

(** The record's quality score reaches the threshold in force: the
    configured one, or [fallback] when none (or 0) is configured; in both
    cases it reaches the configured threshold, if any. *)
Definition passesGate (fallback : Q) (community : Community.t) (p : Post.t) : Prop :=
  (ScraperManager.orScore (Community.qualityThreshold community) fallback
   <= Post.qualityScore p)%Q
  /\ forall q, Community.qualityThreshold community = Some q ->
               (q <= Post.qualityScore p)%Q.

(** What a stage must guarantee about the records it adds, for a property
    [R] of records: it only appends records, all of them satisfy [R], and
    the count it reports is their number. *)
Definition StageAdds (R : Community.t -> Post.t -> Prop)
    (stage : Community.t -> PlatformConfig.t -> list User.t -> World.t ->
             Result ScraperManager.Creation * World.t) : Prop :=
  forall community platformConfig platformUsers w,
    exists created,
      added w (snd (stage community platformConfig platformUsers w)) created
      /\ Forall (R community) created
      /\ match fst (stage community platformConfig platformUsers w) with
         | Ok c => ScraperManager.postsCreated c = List.length created
         | Throw _ => created = []
         end.

(** The three modes of a community run. *)
Inductive Mode : Type :=
| Bulk
| SinglePost
| Authentic (postsPerPlatform : Z).

Section Modes.
Variable calculateQualityScore : Item.t -> Q.
Variable processContent : Item.t -> ScraperManager.Processed.
Variable processAuthenticContent : ScraperManager.AuthenticItem -> ScraperManager.Processed.
Variable validateAuthenticity : Item.t -> ScraperManager.Authenticity.

Definition stageOf (mode : Mode) : ScraperManager.Stage :=
  match mode with
  | Bulk => ScraperManager.bulkStage calculateQualityScore processContent
  | SinglePost => ScraperManager.singlePostStage calculateQualityScore processContent
  | Authentic n =>
      ScraperManager.authenticStage calculateQualityScore processAuthenticContent
                                    validateAuthenticity n
  end.

Definition runMode (mode : Mode) (communityId : string) (w : World.t)
    : Result ScraperManager.CommunityResult * World.t :=
  match mode with
  | Bulk =>
      ScraperManager.scrapeCommunity calculateQualityScore processContent communityId w
  | SinglePost =>
      ScraperManager.scrapeSinglePostPerPlatform calculateQualityScore processContent
                                                 communityId w
  | Authentic n =>
      ScraperManager.scrapeAuthenticContent calculateQualityScore processAuthenticContent
                                            validateAuthenticity communityId n w
  end.
End Modes.

(** The default quality threshold of a mode. *)
Definition fallbackOf (mode : Mode) : Q :=
  match mode with
  | Authentic _ => 3 # 5
  | _ => 1 # 2
  end.

(** What a mode guarantees of every record it persists. *)
Definition guarantees (mode : Mode) (community : Community.t) (p : Post.t) : Prop :=
  passesGate (fallbackOf mode) community p
  /\ match mode with
     | Authentic _ => True
     | _ => afterWatermark community p
     end.

(** The two sweep entrypoints and the community flow each one runs. *)
Section Sweeps.
Variable calculateQualityScore : Item.t -> Q.
Variable processContent : Item.t -> ScraperManager.Processed.

Definition flowOf (trickle : bool) (communityId : string) (w : World.t)
    : Result ScraperManager.CommunityResult * World.t :=
  if trickle
  then ScraperManager.scrapeSinglePostPerPlatform calculateQualityScore processContent
                                                  communityId w
  else ScraperManager.scrapeCommunity calculateQualityScore processContent communityId w.

Definition sweepOf (trickle : bool) (w : World.t)
    : Result ScraperManager.RunResult * World.t :=
  if trickle
  then ScraperManager.scrapeSinglePostFromAllCommunities calculateQualityScore
                                                         processContent w
  else ScraperManager.scrapeAllCommunities calculateQualityScore processContent w.
End Sweeps.

(** The source configs a community run works on. *)
Definition isScraped (platformConfig : PlatformConfig.t) : bool :=
  PlatformConfig.isActive platformConfig
  && String.eqb (PlatformConfig.platform platformConfig) "reddit".

(** The entry [pr] of [platformResults] records an execution of the stage
    of [platformConfig]: its counts and success when the stage returned,
    success = false, zero counts and the message when it threw. *)
Definition recorded (stage : ScraperManager.Stage) (community : Community.t)
    (platformUsers : list User.t) (platformConfig : PlatformConfig.t)
    (pr : ScraperManager.PlatformResult) : Prop :=
  exists w,
    match fst (stage community platformConfig platformUsers w) with
    | Ok c =>
        pr = ScraperManager.mkPlatformResult
               (PlatformConfig.platform platformConfig)
               (ScraperManager.postsCreated c) (ScraperManager.skippedExisting c)
               (ScraperManager.skippedLowQuality c) true None
    | Throw message =>
        pr = ScraperManager.mkPlatformResult
               (PlatformConfig.platform platformConfig) 0 0 0 false (Some message)
    end.

(** The community after [lastScrapedAt] is set to [now] and [postCount]
    is incremented by [n]. *)
Definition updated (now : Z) (n : nat) (c : Community.t) : Community.t :=
  Community.mk (Community._id c) (Community.name c) (Community.isActive c)
               (Community.scrapingPlatforms c) (Some now)
               (Community.postCount c + Z.of_nat n)%Z
               (Community.maxPostsPerScrape c) (Community.qualityThreshold c).



(** What the specification asks of the loop over the source configs of a
    community, as a relation: starting in the world [w], the stage of
    each config of the list is executed in turn, each in the world the one
    before it left, whether that one returned or threw. The relation
    gives the entries of [platformResults] in order, the total of the
    posts the stages that returned report, and the world the last stage
    left. *)
Inductive executed (stage : ScraperManager.Stage) (community : Community.t)
    (platformUsers : list User.t)
    : World.t -> list PlatformConfig.t -> list ScraperManager.PlatformResult ->
      nat -> World.t -> Prop :=
| executed_none w :
    executed stage community platformUsers w [] [] 0 w
| executed_returned w platformConfig c w1 rest entries total w2 :
    stage community platformConfig platformUsers w = (Ok c, w1) ->
    executed stage community platformUsers w1 rest entries total w2 ->
    executed stage community platformUsers w (platformConfig :: rest)
      (ScraperManager.mkPlatformResult
         (PlatformConfig.platform platformConfig)
         (ScraperManager.postsCreated c) (ScraperManager.skippedExisting c)
         (ScraperManager.skippedLowQuality c) true None :: entries)
      (ScraperManager.postsCreated c + total) w2
| executed_threw w platformConfig message w1 rest entries total w2 :
    stage community platformConfig platformUsers w = (Throw message, w1) ->
    executed stage community platformUsers w1 rest entries total w2 ->
    executed stage community platformUsers w (platformConfig :: rest)
      (ScraperManager.mkPlatformResult
         (PlatformConfig.platform platformConfig) 0 0 0 false (Some message) :: entries)
      total w2.



End Spec.

(* ================================================================== *)
(** * Concrete inputs used by the examples below *)
(* ================================================================== *)

Module Examples.
Import JSString RedditScraper ScraperManager.
Local Open Scope string_scope.

(** A link post (empty body) of r/business. *)
Definition rawHello : Raw.t :=
  Raw.mk "h0" (Some "Hello") (Some EmptyString) "business"
         "/r/business/comments/h0/hello/" "carol" 1700000300 false 3 0 None.

Definition rawA : Raw.t :=
  Raw.mk "a1" (Some "PSA: Launching a startup") (Some EmptyString) "startups"
         "/r/startups/comments/a1/launching/" "alice" 2000 false 10 0 None.

Definition rawB : Raw.t :=
  Raw.mk "b2" (Some "Marketing budget question")
         (Some "How much do you spend on marketing each month? I would like to compare numbers.")
         "startups" "/r/startups/comments/b2/budget/" "bob" 1500 false 4 1 None.

(** A post created 900 s after the epoch. *)
Definition rawOld : Raw.t :=
  Raw.mk "c3" (Some "Lessons from ten years of running a small bakery")
         (Some "We started in a garage and learned everything the hard way, one customer at a time.")
         "startups" "/r/startups/comments/c3/lessons/" "dave" 900 false 7 0 None.

Definition env0 : Env.t := Env.mk [] 1700000000000 [].

Definition fetch50 : FetchOptions := mkFetchOptions 50 "new" true None.

(** Page one, then a 429 on the request for page two, then page two. *)
Definition script429 : Upstream :=
  [ Http.Replied (Http.mkListing [Some rawA] (Some "t3_a1"));
    Http.Rejected (Some 429%Z) "Request failed with status code 429";
    Http.Replied (Http.mkListing [Some rawB] None) ].

(** The same two pages without the 429. *)
Definition scriptQuiet : Upstream :=
  [ Http.Replied (Http.mkListing [Some rawA] (Some "t3_a1"));
    Http.Replied (Http.mkListing [Some rawB] None) ].

Definition idsOf (r : Result Page * Upstream * Env.t) : option (list string) :=
  match r with
  | (Ok page, _, _) => Some (map Item.id (posts page))
  | (Throw _, _, _) => None
  end.

Definition traceOf (r : Result Page * Upstream * Env.t) : list Event :=
  Env.trace (snd r).

(** A keyword-filtered scrape of one page holding [rawA] and [rawB]. *)
Definition configMarketing : ScrapeConfig :=
  mkScrapeConfig "https://www.reddit.com/r/startups/" ["Marketing"] 50 "new" true None.

Definition scriptOnePage : Upstream :=
  [ Http.Replied (Http.mkListing [Some rawA; Some rawB] None) ].

Definition scrapedMarketing : Result (list Item.t) * Upstream * Env.t :=
  Eval vm_compute in scrapeContent configMarketing scriptOnePage env0.

Definition keptMarketing : list Item.t :=
  Eval vm_compute in
    match scrapedMarketing with
    | (Ok kept, _, _) => kept
    | (Throw _, _, _) => []
    end.

Definition envMarketing : Env.t := Eval vm_compute in snd scrapedMarketing.

(** Comments: one kept, one deleted, one without body. *)
Definition commentKept : Http.RawComment :=
  Http.mkRawComment "k1" (Some "Great point") "erin" 1700000400 2 "t3_h0".
Definition commentDeleted : Http.RawComment :=
  Http.mkRawComment "k2" (Some "[deleted]") "[deleted]" 1700000401 0 "t3_h0".
Definition commentEmpty : Http.RawComment :=
  Http.mkRawComment "k3" (Some EmptyString) "frank" 1700000402 0 "t3_h0".

(** Stand-ins for the collaborators, for the concrete runs. *)
Definition scoreHigh (c : Item.t) : Q := 4 # 5.
Definition scoreLow (c : Item.t) : Q := 1 # 10.
Definition plainProcess (c : Item.t) : Processed :=
  mkProcessed (Item.title c) (Item.content c) (Item.tags c).
Definition plainProcessAuthentic (a : AuthenticItem) : Processed :=
  plainProcess (item a).
Definition alwaysAuthentic (c : Item.t) : Authenticity :=
  mkAuthenticity true EmptyString (9 # 10).

Definition users1 : list User.t :=
  [ User.mk "u1" "platform"; User.mk "u2" "member" ].

(** A source config whose URL names no subreddit: its stage throws. *)
Definition cfgBroken : PlatformConfig.t :=
  PlatformConfig.mk "reddit" "https://www.reddit.com/user/nobody" [] true.
Definition cfgStartups : PlatformConfig.t :=
  PlatformConfig.mk "reddit" "https://www.reddit.com/r/startups/" [] true.

(** Last scraped 1000 s after the epoch. *)
Definition founders : Community.t :=
  Community.mk "c1" "Founders" true [cfgBroken; cfgStartups]
               (Some 1000000%Z) 7 None None.

Definition worldOf (u : Upstream) (us : list User.t) : World.t :=
  World.mk u env0 [] [founders] us None false (fun _ => true).

(** One page: a post created at 2000 s and one created at 900 s. *)
Definition worldMixed : World.t :=
  worldOf [ Http.Replied (Http.mkListing [Some rawA; Some rawOld] None) ] users1.


(** A community last scraped half a second after the epoch, and a post
    the upstream stamps with second 0. *)
Definition rawEpoch : Raw.t :=
  Raw.mk "e0" (Some "A post stamped with the epoch by the upstream")
         (Some "The upstream reports a creation time of zero seconds for this post, nothing else is odd.")
         "startups" "/r/startups/comments/e0/epoch/" "gina" 0 false 1 0 None.

Definition early : Community.t :=
  Community.mk "c2" "Early" true [cfgStartups] (Some 500%Z) 0 None None.

Definition worldEarly : World.t :=
  World.mk [ Http.Replied (Http.mkListing [Some rawEpoch] None) ] env0 []
           [early] users1 None false (fun _ => true).

Definition createdAtOf (w : World.t) : list (string * Z) :=
  map (fun p => (Post.originalId p, Post.originalCreatedAt p)) (World.posts w).

Definition entriesOf (r : Result CommunityResult * World.t)
    : list (nat * nat * nat * bool) :=
  match fst r with
  | Ok c =>
      map (fun pr => (pr_postsCreated pr, pr_skippedExisting pr,
                      pr_skippedLowQuality pr, pr_success pr))
          (platformResults c)
  | Throw _ => []
  end.

End Examples.

(* ================================================================== *)
(** * RedditScraper.js: access token *)
(* ================================================================== *)

(** [getAccessToken] as one caller after the other sees it. The pending
    promise shared by concurrent callers ([tokenRequestPromise]) is reset
    before any caller resumes, so a sequential caller always finds it
    unset; concurrent callers are outside this model. *)
Module Token.
Import JSString.
Local Open Scope string_scope.

(** [process.env.REDDIT_CLIENT_ID] and its two siblings. *)
Record Credentials : Type := mkCredentials {
  clientId : option string;
  clientSecret : option string;
  refreshToken : option string
}.

Record Cache : Type := mkCache {
  accessToken : option string;
  tokenExpiresAt : Z
}.

(** The constructor's values. *)
Definition emptyCache : Cache := mkCache None 0.

Definition isAuthConfigured (c : Credentials) : bool :=
  truthy (clientId c) && truthy (clientSecret c) && truthy (refreshToken c).

(** What the token endpoint answers: [response.data?.access_token] and
    [response.data?.expires_in], or a rejection with
    [error.response?.data?.error_description],
    [error.response?.data?.message] and [error.message]. *)
Inductive Exchange : Type :=
| Granted (access_token : option string) (expires_in : option Z)
| Refused (error_description : option string) (dataMessage : option string)
          (message : string).

Record Outcome : Type := mkOutcome {
  token : Result string;
  cache : Cache;
  exchanged : bool               (* a request went to the token endpoint *)
}.

Definition missingCredentials : string :=
  "Missing Reddit OAuth credentials. Please set REDDIT_CLIENT_ID, REDDIT_CLIENT_SECRET, and REDDIT_REFRESH_TOKEN.".

Definition refreshFailed (message : string) : string :=
  "Failed to refresh Reddit access token: " ++ message.

(** [a || b || c] *)
Definition firstTruthy (a b : option string) (c : string) : string :=
  match a, b with
  | Some (String x a'), _ => String x a'
  | _, Some (String y b') => String y b'
  | _, _ => c
  end.

(** The exchange with the token endpoint, [arrival] being [Date.now()]
    when its answer is handled. The cache is written on success only. *)
Definition refresh (cred : Credentials) (c : Cache) (reply : Exchange) (arrival : Z)
    : Outcome :=
  if negb (isAuthConfigured cred) then mkOutcome (Throw missingCredentials) c false
  else
    match reply with
    | Granted access_token expires_in =>
        if truthy access_token then
          let expiresIn := match expires_in with Some e => e | None => 3600%Z end in
          mkOutcome (Ok (RedditScraper.orEmpty access_token))
                    (mkCache access_token
                             (arrival + Z.max (expiresIn - 60) 60 * 1000)%Z)
                    true
        else
          mkOutcome (Throw (refreshFailed "Reddit did not return an access token")) c true
    | Refused d m message =>
        mkOutcome (Throw (refreshFailed (firstTruthy d m message))) c true
    end.

(** [now] is [Date.now()] at the call. *)
Definition getAccessToken (cred : Credentials) (c : Cache) (now : Z)
    (reply : Exchange) (arrival : Z) : Outcome :=
  if truthy (accessToken c) && (now <? tokenExpiresAt c - 60 * 1000)%Z
  then mkOutcome (Ok (RedditScraper.orEmpty (accessToken c))) c false
  else refresh cred c reply arrival.

End Token.

(* ================================================================== *)
(** * RedditScraper.js: thumbnail and media of a post *)
(* ================================================================== *)

Module Media.
Import JSString.
Local Open Scope string_scope.

(** The fields of an upstream post that [extractThumbnail] and
    [extractMediaUrls] read. *)
Record t : Type := mk {
  thumbnail : option string;
  previewUrl : option string;             (* preview?.images?.[0]?.source?.url *)
  url : option string;
  is_video : bool;
  fallback_url : option string;           (* media?.reddit_video?.fallback_url *)
  is_gallery : bool;
  (** [Object.values(media_metadata)], each entry read at [s?.u];
      [None] when the post has no [media_metadata]. *)
  media_metadata : option (list (option string))
}.

(** [.replace(/&amp;/g, "&")]: [skip] counts the characters of the current
    match still to drop. *)
Fixpoint unescapeAmp (skip : nat) (s : string) : string :=
  match s with
  | EmptyString => EmptyString
  | String c r =>
      match skip with
      | S k => unescapeAmp k r
      | O =>
          if startsWith "&amp;" s then String "&" (unescapeAmp 4 r)
          else String c (unescapeAmp 0 r)
      end
  end.

Definition extractThumbnail (post : t) : option string :=
  if truthy (thumbnail post)
     && negb (String.eqb (RedditScraper.orEmpty (thumbnail post)) "self")
     && negb (String.eqb (RedditScraper.orEmpty (thumbnail post)) "default")
  then thumbnail post
  else if truthy (previewUrl post)
  then Some (unescapeAmp 0 (RedditScraper.orEmpty (previewUrl post)))
  else None.

Record MediaUrl : Type := mkMediaUrl {
  type : string;
  m_url : string
}.

Definition galleryEntry (u : option string) : list MediaUrl :=
  if truthy u then [mkMediaUrl "image" (unescapeAmp 0 (RedditScraper.orEmpty u))]
  else [].

(** [isImageUrl] belongs to ScrapingUtils, which is not among the modelled
    files. *)
Definition extractMediaUrls (isImageUrl : string -> bool) (post : t) : list MediaUrl :=
  ((if truthy (url post) && isImageUrl (RedditScraper.orEmpty (url post))
    then [mkMediaUrl "image" (RedditScraper.orEmpty (url post))] else [])
   ++ (if is_video post && truthy (fallback_url post)
       then [mkMediaUrl "video" (RedditScraper.orEmpty (fallback_url post))] else [])
   ++ (if is_gallery post
       then match media_metadata post with
            | Some entries => flat_map galleryEntry entries
            | None => []
            end
       else []))%list.

End Media.

(* ================================================================== *)
(** * ScraperManager.js: cleanup of the corpus *)
(* ================================================================== *)

Module Maintenance.
Local Open Scope list_scope.

(** A stored post: the record with the identifier and the creation
    timestamp the store gives it. *)
Record Stored : Type := mkStored {
  _id : nat;
  createdAt : Z;
  doc : Post.t
}.

(** [options] of [cleanupPosts]; a missing field takes its default. *)
Record Options : Type := mkOptions {
  olderThanDays : option Z;
  minQualityScore : option Q;
  maxPostsPerCommunity : option nat
}.

Definition withStatus (status : string) (p : Post.t) : Post.t :=
  Post.mk (Post.title p) (Post.content p) (Post.sourceUrl p) (Post.platform p)
          (Post.originalId p) (Post.community p) (Post.owner p) (Post.likes p)
          (Post.shares p) (Post.scrapedAt p) (Post.originalAuthor p)
          (Post.originalCreatedAt p) (Post.qualityScore p)
          (Post.authenticityScore p) (Post.tags p) (Post.validationMethod p) status.

Definition hide (d : Stored) : Stored :=
  mkStored (_id d) (createdAt d) (withStatus "hidden" (doc d)).

Definition isActive (d : Stored) : bool := String.eqb (Post.status (doc d)) "active".

Definition isHidden (d : Stored) : bool := String.eqb (Post.status (doc d)) "hidden".

(** [Post.updateMany(query, { status: "hidden" })]: the collection after
    the update and [modifiedCount]. *)
Definition updateMany (query : Stored -> bool) (db : list Stored) : list Stored * nat :=
  (map (fun d => if query d then hide d else d) db,
   List.length (filter (fun d => query d && negb (isHidden d)) db)).

(** [.sort({ createdAt: -1 })]; records with the same timestamp come in
    one of the orders the store may choose. *)
Fixpoint insertDesc (d : Stored) (l : list Stored) : list Stored :=
  match l with
  | [] => [d]
  | x :: rest =>
      if (createdAt x <? createdAt d)%Z then d :: l else x :: insertDesc d rest
  end.

Definition sortDesc (l : list Stored) : list Stored := fold_right insertDesc [] l.

(** [{ createdAt: { $lt: cutoffDate },
       "scrapingMetadata.qualityScore": { $lt: minQualityScore },
       status: "active" }] *)
Definition oldAndLow (cutoffDate : Z) (minQualityScore : Q) (d : Stored) : bool :=
  (createdAt d <? cutoffDate)%Z
  && ScraperManager.Qltb (Post.qualityScore (doc d)) minQualityScore
  && isActive d.

(** [{ community: community._id, status: "active" }] *)
Definition activeOf (communityId : string) (d : Stored) : bool :=
  String.eqb (Post.community (doc d)) communityId && isActive d.

(** One iteration of [for (const community of communities)]. *)
Definition capCommunity (maxPostsPerCommunity : nat) (db : list Stored)
    (community : Community.t) : list Stored :=
  let excessPosts :=
    skipn maxPostsPerCommunity
          (sortDesc (filter (activeOf (Community._id community)) db)) in
  match excessPosts with
  | [] => db
  | _ =>
      fst (updateMany (fun d => existsb (Nat.eqb (_id d)) (map _id excessPosts)) db)
  end.

(** [cleanupPosts]: the collection afterwards and [hiddenLowQuality]. *)
Definition cleanupPosts (options : Options) (now : Z) (communities : list Community.t)
    (db : list Stored) : list Stored * nat :=
  let days := match olderThanDays options with Some n => n | None => 30%Z end in
  let minQ := match minQualityScore options with Some q => q | None => 3 # 10 end in
  let cap := match maxPostsPerCommunity options with Some n => n | None => 1000 end in
  let cutoffDate := (now - days * 24 * 60 * 60 * 1000)%Z in
  let (db1, hiddenLowQuality) := updateMany (oldAndLow cutoffDate minQ) db in
  (fold_left (capCommunity cap) (filter Community.isActive communities) db1,
   hiddenLowQuality).

End Maintenance.

Module Props.
Import JSString.
Local Open Scope list_scope.

(** Every character of [s] satisfies [f]. *)
Fixpoint allChars (f : ascii -> bool) (s : string) : bool :=
  match s with
  | EmptyString => true
  | String c r => f c && allChars f r
  end.

(** A character a subreddit name captured from a URL can hold. *)
Definition isSegmentChar (c : ascii) : bool :=
  negb (Ascii.eqb c "/" || Ascii.eqb c "?").

(** [s] neither starts nor ends with white space. *)
Definition tight (s : string) : Prop :=
  skipWhiteSpace s = s /\ trimEnd s = s.

(** A listing request of a fetch on [subreddit]: one of the four listings
    of that subreddit, asking for 1 to 25 items. *)
Definition goodGet (subreddit : string) (path : string) (limit : Z) : bool :=
  existsb (fun s => String.eqb path ("/r/" ++ subreddit ++ "/" ++ s)%string)
          ["hot"; "new"; "top"; "rising"]%string
  && (1 <=? limit)%Z && (limit <=? 25)%Z.

(** The events of a fetch: requests and pauses alternate, starting with a
    request; every pause lasts 2000 or 5000 ms. *)
Fixpoint paced (subreddit : string) (expectGet : bool) (evs : list Event) : bool :=
  match evs with
  | [] => true
  | EvGet path limit _ :: rest =>
      expectGet && goodGet subreddit path limit && paced subreddit false rest
  | EvDelay ms :: rest =>
      negb expectGet && ((ms =? 2000) || (ms =? 5000))%Z && paced subreddit true rest
  | EvGenerateComments _ _ :: _ => false
  end.

(** Total of the pauses among the events. *)
Fixpoint delays (evs : list Event) : Z :=
  match evs with
  | [] => 0
  | EvDelay ms :: rest => (ms + delays rest)%Z
  | _ :: rest => delays rest
  end.

(** The reply is a rejection with HTTP status 429. *)
Definition is429 (r : Http.Response Http.Listing) : bool :=
  match r with
  | Http.Rejected status _ => RedditScraper.isRateLimited status
  | Http.Replied _ => false
  end.

(** The two keys the store declares unique. *)
Definition key (p : Post.t) : string * string := (Post.platform p, Post.originalId p).

Definition Unique (db : list Post.t) : Prop :=
  NoDup (map Post.sourceUrl db) /\ NoDup (map key db).

(** A stage keeps a property of the corpus. *)
Definition StageKeeps (I : list Post.t -> Prop) (stage : ScraperManager.Stage) : Prop :=
  forall community platformConfig platformUsers w,
    I (World.posts w) ->
    I (World.posts (snd (stage community platformConfig platformUsers w))).

(** Whether the store accepts the record made from the item, as far as
    the item decides it (the owner, the like count and the timestamps
    play no part in the validation). *)
Definition validatesItem (calc : Item.t -> Q)
    (pc : Item.t -> ScraperManager.Processed) (platform : string) (c : Item.t) : bool :=
  ScraperManager.validates
    (ScraperManager.withDefaults
       (ScraperManager.withTrimmedTitle
          (Post.mk (ScraperManager.p_title (pc c)) (ScraperManager.p_content (pc c))
                   (Item.url c) platform (Item.id c) EmptyString EmptyString 0 0 0
                   EmptyString 0 (calc c) None [] EmptyString "active"))).

(** Nothing is left to do for the item: a matching record exists, or
    its score is under the threshold in force, or the store refuses the
    record made from it. *)
Definition settled (calc : Item.t -> Q) (pc : Item.t -> ScraperManager.Processed)
    (community : Community.t) (platform : string) (db : list Post.t) (c : Item.t) : Prop :=
  ScraperManager.postExists db platform (Item.id c) (Item.url c) = true
  \/ ScraperManager.Qltb (calc c)
       (ScraperManager.orScore (Community.qualityThreshold community) (1 # 2)) = true
  \/ validatesItem calc pc platform c = false.

(** What every record created by the manager carries. *)
Definition seeded (community : Community.t) (platform : string)
    (users : list User.t) (p : Post.t) : Prop :=
  (5 <= Post.likes p <= 15)%Z
  /\ Post.status p = "active"%string
  /\ Post.community p = Community._id community
  /\ Post.platform p = platform
  /\ In (Post.owner p) (map User._id users).

(** The corpus holds a record of this platform and original id
    ([Post.findOne({ platform, originalId })] finds one). *)
Definition hasRecord (db : list Post.t) (platform originalId : string) : bool :=
  existsb (fun p => String.eqb (Post.platform p) platform
                    && String.eqb (Post.originalId p) originalId) db.

(** The three counters of a creation loop, added up. *)
Definition accounted (r : ScraperManager.Creation) : nat :=
  ScraperManager.postsCreated r + ScraperManager.skippedExisting r
  + ScraperManager.skippedLowQuality r.

(** An event of the comment generation: a request for 10 to 15 comments,
    or a pause of 2000 ms. *)
Definition isCommentEvent (ev : Event) : bool :=
  match ev with
  | EvGenerateComments _ count => (10 <=? count)%nat && (count <=? 15)%nat
  | EvDelay ms => (ms =? 2000)%Z
  | EvGet _ _ _ => false
  end.

(** The posts comments were requested for, oldest request first. *)
Fixpoint generatedFor (evs : list Event) : list string :=
  match evs with
  | [] => []
  | EvGenerateComments originalId _ :: rest => originalId :: generatedFor rest
  | _ :: rest => generatedFor rest
  end.

(** The invariant of a creation loop on its counters: as many created
    items as created posts, every created item taken from the items seen
    so far and found in the corpus, and no item counted twice. *)
Definition countsFor (platform : string) (seen : list Item.t)
    (st : World.t * ScraperManager.Creation) : Prop :=
  ScraperManager.postsCreated (snd st) = List.length (ScraperManager.createdItems (snd st))
  /\ accounted (snd st) <= List.length seen
  /\ incl (ScraperManager.createdItems (snd st)) seen
  /\ Forall (fun c => hasRecord (World.posts (fst st)) platform (Item.id c) = true)
            (ScraperManager.createdItems (snd st)).

(** What a comment generation does between two worlds: the corpus, the
    upstream and the settings stay; the trace grows by comment events for
    the posts [sel]; the clock advances by the pauses. *)
Definition commented (sel : list string) (w w' : World.t) : Prop :=
  Spec.added w w' []
  /\ World.upstream w' = World.upstream w
  /\ exists evs,
       Env.trace (World.env w') = Env.trace (World.env w) ++ evs
       /\ forallb isCommentEvent evs = true
       /\ generatedFor evs = sel
       /\ Env.clock (World.env w') = (Env.clock (World.env w) + delays evs)%Z.


(** What the validation of the authentic mode attaches to an item it
    selects, and why it selected it. *)
Definition selected (calc : Item.t -> Q) (va : Item.t -> ScraperManager.Authenticity)
    (db : list Post.t) (community : Community.t) (a : ScraperManager.AuthenticItem)
    : Prop :=
  ScraperManager.postExists db (Item.platform (ScraperManager.item a))
                            (Item.id (ScraperManager.item a))
                            (Item.url (ScraperManager.item a)) = false
  /\ ScraperManager.valid (va (ScraperManager.item a)) = true
  /\ ScraperManager.a_qualityScore a = calc (ScraperManager.item a)
  /\ ScraperManager.a_authenticityScore a = ScraperManager.score (va (ScraperManager.item a))
  /\ (ScraperManager.orScore (Community.qualityThreshold community) (3 # 5)
      <= ScraperManager.a_qualityScore a)%Q.

(** The most posts one source config can yield in one run of a mode. *)
Definition capOf (mode : Spec.Mode) (community : Community.t) : Z :=
  match mode with
  | Spec.Bulk => Z.max 0 (ScraperManager.orNumber (Community.maxPostsPerScrape community) 50)
  | Spec.SinglePost => 1
  | Spec.Authentic postsPerPlatform => Z.max 0 postsPerPlatform
  end.

(** Every ampersand written as the entity the upstream uses. *)
Fixpoint escapeAmp (s : string) : string :=
  match s with
  | EmptyString => EmptyString
  | String c r =>
      if Ascii.eqb c "&" then ("&amp;" ++ escapeAmp r)%string
      else String c (escapeAmp r)
  end.

Definition isVideo (m : Media.MediaUrl) : bool := String.eqb (Media.type m) "video".

(** The only thing a cleanup does to a stored post: nothing, or hide it
    when it was active. *)
Definition hiddenFrom (d d' : Maintenance.Stored) : Prop :=
  d' = d \/ (Maintenance.isActive d = true /\ d' = Maintenance.hide d).

(** The number of active posts of a community. *)
Definition activeCount (communityId : string) (db : list Maintenance.Stored) : nat :=
  List.length (filter (Maintenance.activeOf communityId) db).

(** The options of a cleanup with their defaults filled in. *)
Definition cutoffOf (options : Maintenance.Options) (now : Z) : Z :=
  (now - match Maintenance.olderThanDays options with Some n => n | None => 30 end
         * 24 * 60 * 60 * 1000)%Z.
Definition minQualityOf (options : Maintenance.Options) : Q :=
  match Maintenance.minQualityScore options with Some q => q | None => 3 # 10 end.
Definition capIn (options : Maintenance.Options) : nat :=
  match Maintenance.maxPostsPerCommunity options with Some n => n | None => 1000 end.

(** Newest first. *)
Fixpoint descending (l : list Maintenance.Stored) : Prop :=
  match l with
  | [] => True
  | x :: rest =>
      Forall (fun y => (Maintenance.createdAt y <= Maintenance.createdAt x)%Z) rest
      /\ descending rest
  end.

End Props.

Module Cases.
Import JSString.
Local Open Scope list_scope.

(** A small stored corpus of the community "c1": three recent posts and
    an old one of low quality. *)
Definition storedPost (n : nat) (at_ : Z) (q : Q) : Maintenance.Stored :=
  Maintenance.mkStored n at_
    (Post.mk "A title" "Some content" "https://www.reddit.com/x" "reddit" "x" "c1" "u1"
             5 0 at_ "someone" at_ q None [] "real_api_scraping" "active").

Definition stored4 : list Maintenance.Stored :=
  [ storedPost 1 1699999000000 (4 # 5);
    storedPost 2 1699999100000 (4 # 5);
    storedPost 3 1699999200000 (4 # 5);
    storedPost 4 1600000000000 (1 # 10) ].

Definition keepTwo : Maintenance.Options :=
  Maintenance.mkOptions None None (Some 2).


Definition worldQuiet : World.t := Examples.worldOf Examples.scriptQuiet Examples.users1.



(** A corpus that already holds [a1] and [b2] (what the bulk run of "c1"
    created from the two quiet pages), in front of an upstream that lists
    both of them again, and [h0]. *)
Definition storedTwo : list Post.t :=
  Eval vm_compute in
    World.posts
      (snd (Spec.runMode Examples.scoreHigh Examples.plainProcess
                         Examples.plainProcessAuthentic Examples.alwaysAuthentic
                         Spec.Bulk "c1" worldQuiet)).

Definition pageThree : Upstream :=
  [ Http.Replied
      (Http.mkListing [Some Examples.rawA; Some Examples.rawB; Some Examples.rawHello]
                      None) ].

Definition worldAgain : World.t :=
  World.mk pageThree Examples.env0 storedTwo [Examples.founders] Examples.users1
           None false (fun _ => true).

(** The three items as [scrapeContent] returns them. *)
Definition scrapedThree : list Item.t :=
  Eval vm_compute in
    match RedditScraper.scrapeContent
            (RedditScraper.mkScrapeConfig "https://www.reddit.com/r/startups/" [] 50
                                          "new" true None)
            pageThree Examples.env0 with
    | (Ok kept, _, _) => kept
    | (Throw _, _, _) => []
    end.

End Cases.

(* ================================================================== *)
(** * Theorems *)
(* ================================================================== *)

Import JSString.

(** ** Strings *)

Section StringFacts.
Local Open Scope string_scope.

Lemma startsWith_spec (needle s : string) :
  startsWith needle s = true <-> exists rest, s = needle ++ rest.
Proof.
  revert s; induction needle as [|a needle IH]; intros s; simpl.
  - split; [intros _; now exists s | reflexivity].
  - destruct s as [|b s]; simpl.
    + split; [discriminate | intros [rest H]; discriminate].
    + rewrite andb_true_iff, Ascii.eqb_eq, IH. split.
      * intros [-> [rest ->]]. now exists rest.
      * intros [rest H]. injection H as -> ->. split; [reflexivity | now exists rest].
Qed.

Lemma includes_spec (hay needle : string) :
  includes hay needle = true <-> Spec.occursIn needle hay.
Proof.
  unfold Spec.occursIn. induction hay as [|c hay IH].
  - simpl. rewrite orb_false_r, startsWith_spec. split.
    + intros [rest H]. exists EmptyString, rest. exact H.
    + intros [[|b before] [after_ H]]; simpl in H.
      * now exists after_.
      * discriminate.
  - cbn [includes]. rewrite orb_true_iff, startsWith_spec, IH. split.
    + intros [[rest H] | [before [after_ H]]].
      * exists EmptyString, rest. exact H.
      * exists (String c before), after_. simpl. now rewrite H.
    + intros [[|b before] [after_ H]]; simpl in H.
      * left. now exists after_.
      * right. injection H as _ H. now exists before, after_.
Qed.

End StringFacts.

(** ** Title enhancement *)

Section Title.
Import RedditScraper.
Local Open Scope string_scope.

(** The scenario of the specification. *)
Example enhanceTitle_PSA :
  enhanceTitle (Some "PSA: Always back up your data") = "Always back up your data".
Proof. reflexivity. Qed.

(** C10. [enhanceTitle] is a total function that never returns the empty
    string: a missing or empty title gives the constant "Discussion Post";
    a title that the prefix stripping (and trimming) reduces to nothing is
    returned unmodified; any other title is returned stripped. *)
Theorem enhanceTitle_never_empty :
  (forall originalTitle, 0 < String.length (enhanceTitle originalTitle))
  /\ enhanceTitle None = "Discussion Post"
  /\ enhanceTitle (Some EmptyString) = "Discussion Post"
  /\ (forall t,
        t <> EmptyString ->
        trim (stripBracketPrefix (stripTagPrefix t)) = EmptyString ->
        enhanceTitle (Some t) = t)
  /\ (forall t,
        t <> EmptyString ->
        trim (stripBracketPrefix (stripTagPrefix t)) <> EmptyString ->
        enhanceTitle (Some t) = trim (stripBracketPrefix (stripTagPrefix t))).
Proof.
  repeat split.
  - intros [[|c t]|]; cbn [enhanceTitle]; try (simpl; lia).
    destruct (trim (stripBracketPrefix (stripTagPrefix (String c t)))); simpl; lia.
  - intros [|c t] Hne Hstrip; [congruence|].
    cbn [enhanceTitle]. now rewrite Hstrip.
  - intros [|c t] Hne Hstrip; [congruence|].
    cbn [enhanceTitle].
    destruct (trim (stripBracketPrefix (stripTagPrefix (String c t)))); congruence.
Qed.

Lemma enhanceTitle_never_empty_witness :
  0 < String.length (enhanceTitle (Some "[Help]   "))
  /\ enhanceTitle (Some "[Help]   ") = "[Help]   "
  /\ enhanceTitle (Some "TIL: [x] y ") = "y".
Proof.
  destruct enhanceTitle_never_empty as (Hlen & _ & _ & Hback & Hstrip).
  split; [apply Hlen|]. split.
  - apply Hback; [discriminate | reflexivity].
  - rewrite Hstrip; [reflexivity | discriminate | discriminate].
Defined.

End Title.

(** ** The listing fetch *)

Section Fetch.
Import RedditScraper.
Local Open Scope list_scope.

Lemma fetchLoop_eq subreddit opts u acc nextAfter reached n :
  fetchLoop subreddit opts u acc nextAfter reached n =
  if (Z.of_nat (List.length acc) <? limit opts)%Z && negb reached then
    let n1 :=
      Env.log (EvGet ("/r/" ++ subreddit ++ "/" ++ normalizedSort (sort opts))%string
                     (Z.min (limit opts - Z.of_nat (List.length acc)) 25)
                     (if truthy nextAfter then nextAfter else None)) n in
    match u with
    | [] => (Throw "network error"%string, [], n1)
    | Http.Rejected status message :: u' =>
        if isRateLimited status then
          fetchLoop subreddit opts u' [] nextAfter false (Env.delay 5000 n1)
        else (Throw message, u', n1)
    | Http.Replied listing :: u' =>
        match Http.children listing with
        | [] => (Ok (mkPage acc nextAfter), u', n1)
        | children =>
            let '(acc', reached', n2) := processChildren opts children acc reached n1 in
            if truthy (Http.after listing) then
              fetchLoop subreddit opts u' acc' (Http.after listing) reached'
                        (Env.delay rateLimitDelay n2)
            else (Ok (mkPage acc' (Http.after listing)), u', n2)
        end
    end
  else (Ok (mkPage acc nextAfter), u, n).
Proof. destruct u; reflexivity. Qed.

(** Whatever holds of the empty list and is kept by the loop over one page
    holds of the posts a fetch returns. *)
Lemma fetchLoop_invariant (P : list Item.t -> Prop) subreddit opts :
  P [] ->
  (forall children acc reached n,
     P acc -> (Z.of_nat (List.length acc) < limit opts)%Z ->
     P (fst (fst (processChildren opts children acc reached n)))) ->
  forall u acc nextAfter reached n page u' n',
    P acc ->
    fetchLoop subreddit opts u acc nextAfter reached n = (Ok page, u', n') ->
    P (posts page).
Proof.
  intros Hnil Hpage u.
  induction u as [|r u IH]; intros acc nextAfter reached n page u' n' Hacc H;
    rewrite fetchLoop_eq in H;
    destruct ((Z.of_nat (List.length acc) <? limit opts)%Z) eqn:Hlt;
    cbn [andb] in H; try (injection H as <- _ _; exact Hacc);
    destruct reached; cbn [negb] in H; try (injection H as <- _ _; exact Hacc);
    cbv zeta in H; try discriminate.
  apply Z.ltb_lt in Hlt.
  destruct r as [listing | status message].
  - destruct (Http.children listing) as [|child children] eqn:Hch.
    + injection H as <- _ _; exact Hacc.
    + specialize (Hpage (child :: children) acc false
                   (Env.log (EvGet ("/r/" ++ subreddit ++ "/" ++ normalizedSort (sort opts))%string
                                   (Z.min (limit opts - Z.of_nat (List.length acc)) 25)
                                   (if truthy nextAfter then nextAfter else None)) n)
                   Hacc Hlt).
      destruct (processChildren opts (child :: children) acc false _) as [[acc' reached'] n2].
      cbn [fst] in Hpage.
      destruct (truthy (Http.after listing)).
      * eapply IH; [exact Hpage | exact H].
      * injection H as <- _ _; exact Hpage.
  - destruct (isRateLimited status); [|discriminate].
    eapply IH; [exact Hnil | exact H].
Qed.

End Fetch.

Section FetchFacts.
Import RedditScraper.
Local Open Scope list_scope.

Lemma transformRedditPost_createdAt data n :
  Item.createdAt (fst (transformRedditPost data n)) = (Raw.created_utc data * 1000)%Z.
Proof.
  unfold transformRedditPost. now destruct (enhanceContent _ data n).
Qed.


(** A page never pushes past the cap. *)
Lemma processChildren_length opts children :
  forall acc reached n,
    (Z.of_nat (List.length acc) < limit opts)%Z ->
    (Z.of_nat (List.length (fst (fst (processChildren opts children acc reached n))))
     <= limit opts)%Z.
Proof.
  induction children as [|[data|] children IH]; intros acc reached n Hlt;
    cbn [processChildren fst]; try lia; try (now apply IH).
  destruct (excludeStickied opts && Raw.stickied data); [now apply IH|].
  destruct (atOrBeforeMin (minCreatedUtc opts) data); [now apply IH|].
  destruct (transformRedditPost data n) as [post n1].
  destruct (Z.leb_spec (limit opts) (Z.of_nat (List.length (acc ++ [post])))) as [Hge|Hlt'].
  - cbn [fst]. rewrite length_app in *. simpl in *. lia.
  - now apply IH.
Qed.

(** What holds of every post pushed by a page holds of the page's result. *)
Lemma processChildren_Forall (P : Item.t -> Prop) opts :
  (forall data n,
     (excludeStickied opts && Raw.stickied data) = false ->
     atOrBeforeMin (minCreatedUtc opts) data = false ->
     P (fst (transformRedditPost data n))) ->
  forall children acc reached n,
    Forall P acc ->
    Forall P (fst (fst (processChildren opts children acc reached n))).
Proof.
  intros HP children.
  induction children as [|[data|] children IH]; intros acc reached n Hacc;
    cbn [processChildren fst]; try assumption; try (now apply IH).
  destruct (excludeStickied opts && Raw.stickied data) eqn:Hs; [now apply IH|].
  destruct (atOrBeforeMin (minCreatedUtc opts) data) eqn:Hm; [now apply IH|].
  specialize (HP data n Hs Hm).
  destruct (transformRedditPost data n) as [post n1]. cbn [fst] in HP.
  assert (Forall P (acc ++ [post])) by (apply Forall_app; split; [assumption | now constructor]).
  destruct (limit opts <=? Z.of_nat (List.length (acc ++ [post])))%Z; [assumption | now apply IH].
Qed.

Lemma fetchRedditPosts_length subreddit opts after u n page u' n' :
  fetchRedditPosts subreddit opts after u n = (Ok page, u', n') ->
  (Z.of_nat (List.length (posts page)) <= Z.max 0 (limit opts))%Z.
Proof.
  unfold fetchRedditPosts.
  apply (fetchLoop_invariant
           (fun l => (Z.of_nat (List.length l) <= Z.max 0 (limit opts))%Z)).
  - simpl. lia.
  - intros children acc reached n0 _ Hlt.
    pose proof (processChildren_length opts children acc reached n0 Hlt). lia.
  - simpl. lia.
Qed.

Lemma fetchRedditPosts_Forall (P : Item.t -> Prop) subreddit opts after u n page u' n' :
  (forall data n,
     (excludeStickied opts && Raw.stickied data) = false ->
     atOrBeforeMin (minCreatedUtc opts) data = false ->
     P (fst (transformRedditPost data n))) ->
  fetchRedditPosts subreddit opts after u n = (Ok page, u', n') ->
  Forall P (posts page).
Proof.
  intros HP. unfold fetchRedditPosts.
  apply (fetchLoop_invariant (Forall P)).
  - constructor.
  - intros children acc reached n0 Hacc _. now apply processChildren_Forall.
  - constructor.
Qed.

Lemma slice0_all {A : Type} (e : Z) (l : list A) :
  (Z.of_nat (List.length l) <= Z.max 0 e)%Z -> slice0 e l = l.
Proof.
  intros H. unfold slice0. destruct (Z.ltb_spec e 0).
  - destruct l; [now rewrite firstn_nil | simpl in H; lia].
  - apply firstn_all2. lia.
Qed.

Lemma firstn_incl {A : Type} (k : nat) (l : list A) : incl (firstn k l) l.
Proof.
  intros x Hx. rewrite <- (firstn_skipn k l). apply in_or_app. now left.
Qed.

Lemma slice0_incl {A : Type} (e : Z) (l : list A) : incl (slice0 e l) l.
Proof.
  unfold slice0; destruct (e <? 0)%Z; apply firstn_incl.
Qed.

Lemma filterByKeywords_incl keywords l : incl (filterByKeywords keywords l) l.
Proof.
  destruct keywords; simpl; [apply incl_refl|].
  intros x Hx. apply filter_In in Hx. tauto.
Qed.

Lemma filterByKeywords_length keywords l :
  List.length (filterByKeywords keywords l) <= List.length l.
Proof.
  destruct keywords; simpl; [lia | apply filter_length_le].
Qed.

(** What [scrapeContent] returns, when it returns: the fetched posts that
    pass the keyword filter. *)
Lemma scrapeContent_Ok config u n kept u' n' :
  scrapeContent config u n = (Ok kept, u', n') ->
  exists subreddit page,
    extractSubreddit (sourceUrl config) = Some subreddit
    /\ fetchRedditPosts subreddit
         (mkFetchOptions (maxPosts config) (cfgSort config)
                         (cfgExcludeStickied config) (cfgMinCreatedUtc config))
         None u n = (Ok page, u', n')
    /\ kept = filterByKeywords (keywords config) (posts page).
Proof.
  unfold scrapeContent. intros H.
  destruct (extractSubreddit (sourceUrl config)) as [subreddit|]; [|discriminate].
  destruct (fetchRedditPosts subreddit _ None u n) as [[[page|message] u1] n1] eqn:Hf;
    [|discriminate].
  injection H as <- <- <-.
  exists subreddit, page. repeat split; [exact Hf|].
  apply slice0_all.
  pose proof (fetchRedditPosts_length _ _ _ _ _ _ _ _ Hf) as Hlen. cbn [limit] in Hlen.
  pose proof (filterByKeywords_length (keywords config) (posts page)). lia.
Qed.

Lemma matchesKeywords_spec post keywords :
  matchesKeywords post keywords = true <-> Spec.keywordOccurs post keywords.
Proof.
  unfold matchesKeywords, Spec.keywordOccurs. rewrite existsb_exists.
  split; intros [k [Hin Hk]]; exists k; (split; [exact Hin|]);
    apply includes_spec; exact Hk.
Qed.

(** C9. When [scrapeContent] returns, its items are the fetched posts
    filtered by keyword, in order: with a non-empty keyword list an item
    is kept exactly when some keyword occurs, case-insensitively, in the
    space-joined title, content and tags; with an empty list every fetched
    post is kept. *)
Theorem scrapeContent_keyword_filter config u n kept u' n' :
  scrapeContent config u n = (Ok kept, u', n') ->
  exists subreddit page,
    extractSubreddit (sourceUrl config) = Some subreddit
    /\ fetchRedditPosts subreddit
         (mkFetchOptions (maxPosts config) (cfgSort config)
                         (cfgExcludeStickied config) (cfgMinCreatedUtc config))
         None u n = (Ok page, u', n')
    /\ (keywords config = [] -> kept = posts page)
    /\ (keywords config <> [] ->
        kept = filter (fun post => matchesKeywords post (keywords config)) (posts page)
        /\ forall post,
             In post kept <->
             In post (posts page) /\ Spec.keywordOccurs post (keywords config)).
Proof.
  intros H. destruct (scrapeContent_Ok _ _ _ _ _ _ H) as (subreddit & page & Hs & Hf & Hk).
  exists subreddit, page.
  split; [exact Hs|]. split; [exact Hf|]. split.
  - intros Hnil. rewrite Hk, Hnil. reflexivity.
  - intros Hne. destruct (keywords config) as [|k ks] eqn:E; [congruence|].
    cbn [filterByKeywords] in Hk. split; [exact Hk|].
    intros post. rewrite Hk, filter_In, matchesKeywords_spec. tauto.
Qed.

Lemma scrapeContent_keyword_filter_witness :
  map Item.id Examples.keptMarketing = ["b2"%string]
  /\ exists subreddit page,
       extractSubreddit (sourceUrl Examples.configMarketing) = Some subreddit
       /\ fetchRedditPosts subreddit
            (mkFetchOptions (maxPosts Examples.configMarketing)
                            (cfgSort Examples.configMarketing)
                            (cfgExcludeStickied Examples.configMarketing)
                            (cfgMinCreatedUtc Examples.configMarketing))
            None Examples.scriptOnePage Examples.env0
          = (Ok page, [], Examples.envMarketing)
       /\ (keywords Examples.configMarketing = [] -> Examples.keptMarketing = posts page)
       /\ (keywords Examples.configMarketing <> [] ->
           Examples.keptMarketing
           = filter (fun post => matchesKeywords post (keywords Examples.configMarketing))
                    (posts page)
           /\ forall post,
                In post Examples.keptMarketing <->
                In post (posts page)
                /\ Spec.keywordOccurs post (keywords Examples.configMarketing)).
Proof.
  split; [reflexivity|].
  apply (scrapeContent_keyword_filter Examples.configMarketing Examples.scriptOnePage
           Examples.env0 Examples.keptMarketing [] Examples.envMarketing).
  vm_compute. reflexivity.
Defined.

End FetchFacts.

(** ** The deduplicator *)

Section Deduplicator.
Import ScraperManager.
Local Open Scope list_scope.

Lemma existsb_orb {A : Type} (f g : A -> bool) (l : list A) :
  existsb (fun x => f x || g x) l = existsb f l || existsb g l.
Proof.
  induction l as [|x l IH]; simpl; [reflexivity|].
  rewrite IH. destruct (f x), (g x), (existsb f l), (existsb g l); reflexivity.
Qed.

Lemma existsb_false {A : Type} (f : A -> bool) (l : list A) :
  existsb f l = false <-> forall x, In x l -> f x = false.
Proof.
  induction l as [|x l IH]; simpl.
  - split; [intros _ y [] | reflexivity].
  - rewrite orb_false_iff, IH. split.
    + intros [Hx Hl] y [<- | Hy]; [exact Hx | now apply Hl].
    + intros H. split; [apply H; now left | intros y Hy; apply H; now right].
Qed.

Lemma map_fst_filter_snd {A : Type} (f : A -> bool) (l : list A) :
  map fst (filter snd (map (fun c => (c, f c)) l)) = filter f l.
Proof.
  induction l as [|x l IH]; simpl; [reflexivity|].
  destruct (f x); simpl; now rewrite IH.
Qed.

Lemma keep_isNew db platform c :
  negb (postExists db platform (Item.id c) (Item.url c)) && negb (isSticky c)
  = Spec.isNew db platform c.
Proof.
  unfold postExists, matchesPost, Spec.isNew, isSticky.
  rewrite (existsb_orb
             (fun p => String.eqb (Post.platform p) platform
                       && String.eqb (Post.originalId p) (Item.id c))
             (fun p => String.eqb (Post.sourceUrl p) (Item.url c))).
  destruct (existsb _ db), (existsb _ db),
    (Item.stickied c) as [[|]|], (Item.pinned c) as [[|]|]; reflexivity.
Qed.

Lemma isNew_IsNew db platform c :
  Spec.isNew db platform c = true <-> Spec.IsNew db platform c.
Proof.
  unfold Spec.isNew, Spec.IsNew.
  rewrite !andb_true_iff, !negb_true_iff, !existsb_false.
  split; intros [[[H1 H2] H3] H4] || intros [H1 [H2 [H3 H4]]].
  - split; [|split; [|split]].
    + intros p Hp [Ha Hb]. specialize (H1 p Hp).
      apply andb_false_iff in H1.
      destruct H1 as [H1|H1]; apply String.eqb_neq in H1; congruence.
    + intros p Hp. apply String.eqb_neq. now apply H2.
    + destruct (Item.stickied c) as [[|]|]; congruence.
    + destruct (Item.pinned c) as [[|]|]; congruence.
  - split; [split; [split|]|].
    + intros p Hp. apply andb_false_iff.
      destruct (String.eqb_spec (Post.platform p) platform) as [Ha|Ha]; [|now left].
      right. apply String.eqb_neq. intros Hb. now apply (H1 p Hp).
    + intros p Hp. apply String.eqb_neq. now apply H2.
    + destruct (Item.stickied c) as [[|]|]; congruence.
    + destruct (Item.pinned c) as [[|]|]; congruence.
Qed.

Lemma filterNewContent_filter db items platform :
  filterNewContent db items platform = filter (Spec.isNew db platform) items.
Proof.
  unfold filterNewContent. destruct items as [|c items]; [reflexivity|].
  rewrite (map_fst_filter_snd
             (fun c => negb (postExists db platform (Item.id c) (Item.url c))
                       && negb (isSticky c))).
  apply filter_ext. intros a. apply keep_isNew.
Qed.

Lemma filterNewContent_incl db items platform :
  incl (filterNewContent db items platform) items.
Proof.
  rewrite filterNewContent_filter. intros x Hx. apply filter_In in Hx. tauto.
Qed.

(** C2. [filterNewContent] returns, in the order of the input, exactly the
    items for which no persisted record has the same platform and original
    id, none has the same source URL, and which are neither stickied nor
    pinned. *)
Theorem filterNewContent_exact db items platform :
  filterNewContent db items platform = filter (Spec.isNew db platform) items
  /\ (forall c, Spec.isNew db platform c = true <-> Spec.IsNew db platform c)
  /\ (forall c, In c (filterNewContent db items platform)
                <-> In c items /\ Spec.IsNew db platform c).
Proof.
  split; [apply filterNewContent_filter|]. split; [intros c; apply isNew_IsNew|].
  intros c. rewrite filterNewContent_filter, filter_In, isNew_IsNew. tauto.
Qed.

End Deduplicator.

(** ** Comments of a post *)

Section Comments.
Import RedditScraper.
Local Open Scope list_scope.

Lemma keepComment_spec child :
  keepComment child = true <->
  exists data b,
    child = Some data /\ Http.body data = Some b
    /\ b <> EmptyString /\ b <> "[deleted]"%string.
Proof.
  unfold keepComment. destruct child as [data|].
  - destruct (Http.body data) as [[|c b]|] eqn:Hb; cbn [truthy orEmpty andb].
    + split; [discriminate | intros (d & b & [= <-] & Hb' & Hne & _); congruence].
    + rewrite negb_true_iff, String.eqb_neq. split.
      * intros Hd. exists data, (String c b). repeat split; congruence.
      * intros (d & b' & [= <-] & Hb' & _ & Hd). congruence.
    + split; [discriminate | intros (d & b & [= <-] & Hb' & _); congruence].
  - split; [discriminate | intros (d & b & Hd & _); discriminate].
Qed.

Lemma commentsOfBody_content body maxComments c :
  In c (commentsOfBody body maxComments) ->
  cm_content c <> EmptyString /\ cm_content c <> "[deleted]"%string.
Proof.
  destruct body as [|[children|]]; cbn [commentsOfBody]; try (intros []).
  intros Hin. apply slice0_incl in Hin.
  apply in_flat_map in Hin. destruct Hin as (child & Hchild & Hc).
  apply filter_In in Hchild. destruct Hchild as [_ Hkeep].
  apply keepComment_spec in Hkeep. destruct Hkeep as (data & b & -> & Hb & Hne & Hdel).
  cbn [commentOf] in Hc. destruct Hc as [<- | []].
  cbn [transformRedditComment cm_content]. rewrite Hb. cbn [orEmpty]. now split.
Qed.

(** C8. The comment fetch: from a thread it returns the comments whose
    body is neither empty nor "[deleted]", cut to the limit; a 429 makes
    it wait 10000 ms and call itself once more on what the upstream says
    next; any other failure gives the empty list. No outcome of the call is
    an exception. *)
Theorem scrapePostComments_contract postId maxComments :
  (forall children u n,
     scrapePostComments postId maxComments
       (Http.Replied (Http.Thread (Some children)) :: u) n
     = (slice0 maxComments (flat_map commentOf (filter keepComment children)), u,
        Env.log (EvGet ("/comments/" ++ postId)%string maxComments None) n))
  /\ (forall child,
        keepComment child = true <->
        exists data b,
          child = Some data /\ Http.body data = Some b
          /\ b <> EmptyString /\ b <> "[deleted]"%string)
  /\ (forall u n c,
        In c (fst (fst (scrapePostComments postId maxComments u n))) ->
        cm_content c <> EmptyString /\ cm_content c <> "[deleted]"%string)
  /\ (forall message u n,
        scrapePostComments postId maxComments
          (Http.Rejected (Some 429%Z) message :: u) n
        = scrapePostComments postId maxComments u
            (Env.delay 10000
               (Env.log (EvGet ("/comments/" ++ postId)%string maxComments None) n)))
  /\ (forall status message u n,
        status <> Some 429%Z ->
        scrapePostComments postId maxComments (Http.Rejected status message :: u) n
        = ([], u, Env.log (EvGet ("/comments/" ++ postId)%string maxComments None) n)).
Proof.
  split; [reflexivity|]. split; [exact keepComment_spec|]. split; [|split].
  - intros u. induction u as [|[body|status message] u IH]; intros n c;
      cbn [scrapePostComments fst].
    + intros [].
    + apply commentsOfBody_content.
    + destruct (isRateLimited status); [apply IH | intros []].
  - reflexivity.
  - intros status message u n Hne. cbn [scrapePostComments].
    destruct status as [code|]; cbn [isRateLimited]; [|reflexivity].
    destruct (Z.eqb_spec code 429); [congruence | reflexivity].
Qed.

Lemma scrapePostComments_contract_witness :
  fst (fst (scrapePostComments "h0" 10
              [ Http.Rejected (Some 429%Z) "Too Many Requests";
                Http.Rejected (Some 500%Z) "Internal Server Error" ]
              Examples.env0)) = []
  /\ map cm_id
       (fst (fst (scrapePostComments "h0" 10
                    [ Http.Rejected (Some 429%Z) "Too Many Requests";
                      Http.Replied (Http.Thread (Some [ Some Examples.commentKept;
                                                        Some Examples.commentDeleted;
                                                        None;
                                                        Some Examples.commentEmpty ])) ]
                    Examples.env0))) = ["k1"%string].
Proof.
  destruct (scrapePostComments_contract "h0" 10) as (Hthread & _ & _ & H429 & Hother).
  split.
  - rewrite H429, Hother; [reflexivity | discriminate].
  - rewrite H429, Hthread. reflexivity.
Defined.

End Comments.

(** ** Rate limiting during a listing fetch *)

Section RateLimit.
Import RedditScraper Examples.
Local Open Scope list_scope.

(** A 429 inside the loop: after 5000 ms the same page is requested with
    the same cursor, by a call that starts from an empty accumulator. The
    right-hand side does not mention [acc]. *)
Lemma fetchLoop_rate_limited subreddit opts message u acc nextAfter n :
  (Z.of_nat (List.length acc) < limit opts)%Z ->
  fetchLoop subreddit opts (Http.Rejected (Some 429%Z) message :: u) acc nextAfter false n
  = fetchLoop subreddit opts u [] nextAfter false
      (Env.delay 5000
         (Env.log (EvGet ("/r/" ++ subreddit ++ "/" ++ normalizedSort (sort opts))%string
                         (Z.min (limit opts - Z.of_nat (List.length acc)) 25)
                         (if truthy nextAfter then nextAfter else None)) n)).
Proof.
  intros Hlt. rewrite fetchLoop_eq. apply Z.ltb_lt in Hlt. rewrite Hlt. reflexivity.
Qed.

(** C4, evaluated: page one holds a1 and names a cursor, the request for
    page two gets a 429, its retry gets page two holding b2. The retry
    waits 5000 ms and asks for the same cursor, and no error surfaces, but
    the call returns b2 only; without the 429 it returns a1 and b2. *)
Theorem fetchRedditPosts_429_returns_later_pages_only :
  idsOf (fetchRedditPosts "startups" fetch50 None script429 env0)
  = Some ["b2"%string]
  /\ idsOf (fetchRedditPosts "startups" fetch50 None scriptQuiet env0)
     = Some ["a1"%string; "b2"%string]
  /\ traceOf (fetchRedditPosts "startups" fetch50 None script429 env0)
     = [ EvGet "/r/startups/new" 25 None;
         EvDelay 2000;
         EvGet "/r/startups/new" 25 (Some "t3_a1"%string);
         EvDelay 5000;
         EvGet "/r/startups/new" 25 (Some "t3_a1"%string) ].
Proof. repeat split; vm_compute; reflexivity. Qed.

End RateLimit.

(** ** Body synthesis *)

Section Body.
Import RedditScraper Examples.
Local Open Scope string_scope.

(** With no body the transformer enhances the title in place of the body. *)
Lemma transformRedditPost_no_body raw n :
  truthy (Raw.selftext raw) = false ->
  Item.content (fst (transformRedditPost raw n))
  = fst (enhanceContent (Raw.title raw) raw n).
Proof.
  intros H. unfold transformRedditPost, orElse. rewrite H.
  now destruct (enhanceContent (Raw.title raw) raw n).
Qed.

(** The synthesis from title and channel is reached only when the title is
    missing or blank as well. *)
Lemma transformRedditPost_no_body_no_title raw n :
  truthy (Raw.selftext raw) = false ->
  match Raw.title raw with Some t => trim t = EmptyString | None => True end ->
  Item.content (fst (transformRedditPost raw n)) = generateContentFromContext raw.
Proof.
  intros Hs Ht. rewrite transformRedditPost_no_body by exact Hs.
  unfold enhanceContent. destruct (Raw.title raw) as [t|]; [|reflexivity].
  now rewrite Ht.
Qed.

Lemma hello_expansion_differs k :
  String.eqb ("Hello" ++ LF ++ LF ++ nth k expansions EmptyString)
             (generateContentFromContext rawHello) = false.
Proof.
  destruct k as [|[|[|[|[|k]]]]]; reflexivity.
Qed.

(** C5, evaluated: for the link post titled Hello of r/business (empty
    body), whatever the random draw, the content is the title followed by
    one of the four filler sentences, and differs from the title followed
    by the sentence of the table for business. *)
Theorem transformRedditPost_empty_body_gets_filler :
  forall n,
    Item.content (fst (transformRedditPost rawHello n))
    = "Hello" ++ LF ++ LF
      ++ nth (fst (Env.draw 4 n)) expansions EmptyString
    /\ String.eqb (Item.content (fst (transformRedditPost rawHello n)))
                  (generateContentFromContext rawHello) = false
    /\ generateContentFromContext rawHello
       = "Hello" ++ LF ++ LF
         ++ "Seeking advice and perspectives from the business community.".
Proof.
  intros n.
  assert (E : Item.content (fst (transformRedditPost rawHello n))
              = "Hello" ++ LF ++ LF ++ nth (fst (Env.draw 4 n)) expansions EmptyString).
  { rewrite transformRedditPost_no_body by reflexivity.
    change (Raw.title rawHello) with (Some "Hello").
    unfold enhanceContent.
    change (trim "Hello") with "Hello".
    change (cleanContent "Hello") with "Hello".
    change (String.length "Hello" <? 50)%nat with true. cbv iota.
    unfold expandShortContent.
    change (50 <=? String.length "Hello")%nat with false. cbv iota.
    change (List.length expansions) with 4.
    destruct (Env.draw 4 n) as [k n']. reflexivity. }
  split; [exact E|]. split; [|reflexivity].
  rewrite E. apply hello_expansion_differs.
Qed.

End Body.

(** ** Creation of records *)

Section Creation.
Import ScraperManager.
Local Open Scope list_scope.

Lemma added_refl w : Spec.added w w [].
Proof. unfold Spec.added. rewrite app_nil_r. tauto. Qed.

Lemma added_trans w w1 w2 c1 c2 :
  Spec.added w w1 c1 -> Spec.added w1 w2 c2 -> Spec.added w w2 (c1 ++ c2).
Proof.
  unfold Spec.added. intros (P1 & A1 & B1 & C1 & D1 & E1) (P2 & A2 & B2 & C2 & D2 & E2).
  rewrite P2, P1, app_assoc. repeat split; congruence.
Qed.

Lemma added_withNet w u e : Spec.added w (World.withNet w u e) [].
Proof. unfold Spec.added. cbn. rewrite app_nil_r. tauto. Qed.

Lemma added_withEnv w e : Spec.added w (World.withEnv w e) [].
Proof. apply added_withNet. Qed.

Lemma added_nil_trans w w1 w2 c :
  Spec.added w w1 [] -> Spec.added w1 w2 c -> Spec.added w w2 c.
Proof. intros H1 H2. exact (added_trans _ _ _ _ _ H1 H2). Qed.

Lemma createPost_Some doc db db' :
  createPost doc db = Some db' -> db' = db ++ [withDefaults (withTrimmedTitle doc)].
Proof.
  unfold createPost. destruct (_ && _); [|discriminate]. now intros [= <-].
Qed.

Lemma Qltb_false a b : Qltb a b = false -> (b <= a)%Q.
Proof.
  unfold Qltb. rewrite negb_false_iff. apply Qle_bool_imp_le.
Qed.

Lemma orScore_configured configured fallback q :
  (0 <= fallback)%Q -> configured = Some q -> (q <= orScore configured fallback)%Q.
Proof.
  intros Hf ->. unfold orScore. destruct (Qeq_bool q 0) eqn:E.
  - apply Qeq_bool_eq in E. rewrite E. exact Hf.
  - apply Qle_refl.
Qed.

Lemma passesGate_intro fallback community p :
  (0 <= fallback)%Q ->
  (orScore (Community.qualityThreshold community) fallback <= Post.qualityScore p)%Q ->
  Spec.passesGate fallback community p.
Proof.
  intros Hf H. split; [exact H|].
  intros q Hq. eapply Qle_trans; [|exact H]. now apply orScore_configured.
Qed.

(** One iteration of the bulk creation loop appends at most one record,
    made from the item, whose score reaches the threshold in force. *)
Lemma createFromScraped_adds calculateQualityScore processContent community platform platformUsers w r content :
  exists created,
    Spec.added w (fst (createFromScraped calculateQualityScore processContent
                         community platform platformUsers (w, r) content)) created
    /\ Forall (fun p => Spec.fromItem platform content p
                        /\ Spec.passesGate (1 # 2) community p) created
    /\ postsCreated (snd (createFromScraped calculateQualityScore processContent
                            community platform platformUsers (w, r) content))
       = postsCreated r + List.length created.
Proof.
  unfold createFromScraped.
  destruct (postExists (World.posts w) platform (Item.id content) (Item.url content)).
  { exists []. cbn. split; [apply added_refl|]. split; [constructor | lia]. }
  destruct (Qltb (calculateQualityScore content) _) eqn:Hq.
  { exists []. cbn. split; [apply added_refl|]. split; [constructor | lia]. }
  destruct (Env.draw (List.length platformUsers) (World.env w)) as [k e1].
  destruct (Env.draw 11 e1) as [l e2].
  destruct (nth_error platformUsers k) as [randomUser|];
    [|exists []; cbn [fst snd]; split; [apply added_withEnv|];
      split; [constructor | cbn; lia]].
  match goal with |- context [createPost ?d ?db] => destruct (createPost d db) as [db'|] eqn:Hc end.
  - apply createPost_Some in Hc. subst db'.
    eexists. cbn [fst snd]. split; [|split].
    + unfold Spec.added. cbn. split; [reflexivity | tauto].
    + constructor; [|constructor]. split.
      * unfold Spec.fromItem. cbn. tauto.
      * apply passesGate_intro; [discriminate|]. cbn. now apply Qltb_false.
    + cbn. lia.
  - exists []. cbn [fst snd]. split; [apply added_withEnv|]. split; [constructor | cbn; lia].
Qed.

(** The same for the authentic creation loop; the score is the one the
    validation attached to the item. *)
Lemma createFromAuthentic_adds processAuthenticContent community platform users w r content :
  exists created,
    Spec.added w (fst (createFromAuthentic processAuthenticContent
                         community platform users (w, r) content)) created
    /\ Forall (fun p => Spec.fromItem platform (item content) p
                        /\ Post.qualityScore p = a_qualityScore content) created
    /\ postsCreated (snd (createFromAuthentic processAuthenticContent
                            community platform users (w, r) content))
       = postsCreated r + List.length created
    /\ skippedLowQuality (snd (createFromAuthentic processAuthenticContent
                                 community platform users (w, r) content))
       = skippedLowQuality r.
Proof.
  unfold createFromAuthentic.
  destruct (postExists (World.posts w) platform _ _).
  { exists []. cbn. split; [apply added_refl|]. repeat split; [constructor | lia]. }
  destruct (Env.draw (List.length users) (World.env w)) as [k e1].
  destruct (Env.draw 11 e1) as [l e2].
  destruct (nth_error users k) as [randomUser|];
    [|exists []; cbn [fst snd]; split; [apply added_withEnv|];
      repeat split; [constructor | cbn; lia]].
  match goal with |- context [createPost ?d ?db] => destruct (createPost d db) as [db'|] eqn:Hc end.
  - apply createPost_Some in Hc. subst db'.
    eexists. cbn [fst snd]. split; [|split; [|split]].
    + unfold Spec.added. cbn. split; [reflexivity | tauto].
    + constructor; [|constructor]. split; [unfold Spec.fromItem; cbn; tauto | reflexivity].
    + cbn. lia.
    + reflexivity.
  - exists []. cbn [fst snd]. split; [apply added_withEnv|].
    repeat split; [constructor | cbn; lia].
Qed.

(** A loop of such iterations appends records each made by one of them,
    and counts them. *)
Lemma fold_adds {A : Type} (step : World.t * Creation -> A -> World.t * Creation)
    (R : A -> Post.t -> Prop) :
  (forall w r a,
     exists created,
       Spec.added w (fst (step (w, r) a)) created
       /\ Forall (R a) created
       /\ postsCreated (snd (step (w, r) a)) = postsCreated r + List.length created) ->
  forall l w r,
    exists created,
      Spec.added w (fst (fold_left step l (w, r))) created
      /\ Forall (fun p => exists a, In a l /\ R a p) created
      /\ postsCreated (snd (fold_left step l (w, r))) = postsCreated r + List.length created.
Proof.
  intros Hstep l. induction l as [|a l IH]; intros w r.
  - exists []. cbn. split; [apply added_refl|]. split; [constructor | lia].
  - cbn [fold_left]. destruct (Hstep w r a) as (c1 & A1 & F1 & N1).
    destruct (step (w, r) a) as [w1 r1]. cbn [fst snd] in *.
    destruct (IH w1 r1) as (c2 & A2 & F2 & N2).
    exists (c1 ++ c2). split; [eapply added_trans; eassumption|]. split.
    + apply Forall_app. split.
      * eapply Forall_impl; [|exact F1]. intros p Hp. exists a. split; [now left | exact Hp].
      * eapply Forall_impl; [|exact F2]. intros p (a' & Ha' & Hp). exists a'. split; [now right | exact Hp].
    + rewrite N2, N1, length_app. lia.
Qed.

End Creation.

(** ** The stages of a source config *)

Section Stages.
Import RedditScraper ScraperManager.
Local Open Scope list_scope.

Lemma generateCommentsFor_adds platform w content :
  Spec.added w (generateCommentsFor platform w content) [].
Proof.
  unfold generateCommentsFor.
  destruct (findPost (World.posts w) platform (Item.id content)); [|apply added_refl].
  destruct (Env.draw 6 (World.env w)) as [k e1].
  destruct (World.commentGeneratorOk w _); apply added_withEnv.
Qed.

Lemma enrich_adds created platform w :
  Spec.added w (enrich created platform w) [].
Proof.
  unfold enrich, generateCommentsForCreatedPosts.
  destruct (createdItems created) as [|c items]; [apply added_refl|].
  destruct (World.openaiKey w); [|apply added_refl].
  generalize (c :: items). clear. intros l. revert w.
  induction l as [|a l IH]; intros w; cbn [fold_left]; [apply added_refl|].
  eapply added_nil_trans; [apply generateCommentsFor_adds | apply IH].
Qed.

(** The watermark test of the page loop, for a community whose watermark
    in seconds is not 0: an item passes it exactly when its timestamp is
    strictly after [lastScrapedAt]. *)
Lemma atOrBeforeMin_since community T data :
  Community.lastScrapedAt community = Some T ->
  _toUnixSeconds T <> 0%Z ->
  (atOrBeforeMin (since community) data = false
   <-> (T < Raw.created_utc data * 1000)%Z).
Proof.
  intros HT Hnz. unfold since, atOrBeforeMin. rewrite HT.
  destruct (Z.eqb_spec (_toUnixSeconds T) 0) as [E|_]; [contradiction|].
  cbn [negb andb]. rewrite Z.leb_gt. unfold _toUnixSeconds.
  pose proof (Z.div_mod T 1000 ltac:(lia)).
  pose proof (Z.mod_pos_bound T 1000 ltac:(lia)). lia.
Qed.

Lemma scraped_afterWatermark community config u n kept u' n' :
  scrapeContent config u n = (Ok kept, u', n') ->
  cfgMinCreatedUtc config = since community ->
  Forall (fun content =>
            forall T, Community.lastScrapedAt community = Some T ->
                      _toUnixSeconds T <> 0%Z -> (T < Item.createdAt content)%Z)
         kept.
Proof.
  intros H Hmin.
  destruct (scrapeContent_Ok _ _ _ _ _ _ H) as (subreddit & page & _ & Hf & ->).
  assert (Hall : Forall (fun content =>
            forall T, Community.lastScrapedAt community = Some T ->
                      _toUnixSeconds T <> 0%Z -> (T < Item.createdAt content)%Z)
            (posts page)).
  { eapply fetchRedditPosts_Forall; [|exact Hf].
    intros data n0 _ Hm T HT Hnz. cbn [minCreatedUtc] in Hm. rewrite Hmin in Hm.
    rewrite transformRedditPost_createdAt.
    now apply (atOrBeforeMin_since community T data HT Hnz). }
  rewrite Forall_forall in *. intros x Hx. apply Hall.
  now apply (filterByKeywords_incl (keywords config)).
Qed.


(** Records created by the bulk loop from items that are all after the
    watermark are after the watermark and pass the gate. *)
Lemma createPostsFromScrapedContent_adds calculateQualityScore processContent community platform platformUsers w items :
  Forall (fun content =>
            forall T, Community.lastScrapedAt community = Some T ->
                      _toUnixSeconds T <> 0%Z -> (T < Item.createdAt content)%Z)
         items ->
  exists created,
    Spec.added w (fst (createPostsFromScrapedContent calculateQualityScore processContent
                         items community platform platformUsers w)) created
    /\ Forall (fun p => Spec.afterWatermark community p
                        /\ Spec.passesGate (1 # 2) community p) created
    /\ postsCreated (snd (createPostsFromScrapedContent calculateQualityScore processContent
                            items community platform platformUsers w))
       = List.length created.
Proof.
  intros Hitems. unfold createPostsFromScrapedContent.
  destruct (fold_adds
              (createFromScraped calculateQualityScore processContent
                                 community platform platformUsers)
              (fun content p => Spec.fromItem platform content p
                                /\ Spec.passesGate (1 # 2) community p)
              (fun w r a => createFromScraped_adds calculateQualityScore processContent
                              community platform platformUsers w r a)
              items w noCreation) as (created & Ha & Hf & Hn).
  exists created. split; [exact Ha|]. split; [|exact Hn].
  eapply Forall_impl; [|exact Hf].
  intros p (content & Hin & (Hc & _) & Hgate). split; [|exact Hgate].
  intros T HT Hnz. rewrite Hc.
  rewrite Forall_forall in Hitems. now apply (Hitems content Hin).
Qed.

Lemma bulkStage_adds calculateQualityScore processContent :
  Spec.StageAdds (fun community p => Spec.afterWatermark community p
                                     /\ Spec.passesGate (1 # 2) community p)
                 (bulkStage calculateQualityScore processContent).
Proof.
  intros community platformConfig platformUsers w. unfold bulkStage.
  match goal with |- context [scrapeContent ?c ?u ?e] =>
    destruct (scrapeContent c u e) as [[[scraped|message] u'] e'] eqn:Hs end.
  - pose proof (scraped_afterWatermark community _ _ _ _ _ _ Hs eq_refl) as Hall.
    match goal with |- context [createPostsFromScrapedContent _ _ ?items ?c ?pl ?us ?w1] =>
      destruct (createPostsFromScrapedContent_adds calculateQualityScore processContent c pl us w1 items) as (created & Ha & Hf & Hn);
      [|destruct (createPostsFromScrapedContent calculateQualityScore processContent
                    items c pl us w1) as [w2 cr] eqn:Hcr]
    end.
    { rewrite Forall_forall in *. intros x Hx. apply Hall.
      now apply filterNewContent_incl in Hx. }
    cbn [fst snd] in *. exists created. split; [|split; [exact Hf | exact Hn]].
    eapply added_nil_trans; [apply added_withNet|].
    rewrite <- (app_nil_r created).
    eapply added_trans; [exact Ha | apply enrich_adds].
  - exists []. cbn [fst snd]. split; [apply added_withNet|]. split; [constructor | reflexivity].
Qed.

Lemma singlePostStage_adds calculateQualityScore processContent :
  Spec.StageAdds (fun community p => Spec.afterWatermark community p
                                     /\ Spec.passesGate (1 # 2) community p)
                 (singlePostStage calculateQualityScore processContent).
Proof.
  intros community platformConfig platformUsers w. unfold singlePostStage.
  match goal with |- context [scrapeContent ?c ?u ?e] =>
    destruct (scrapeContent c u e) as [[[scraped|message] u'] e'] eqn:Hs end.
  - pose proof (scraped_afterWatermark community _ _ _ _ _ _ Hs eq_refl) as Hall.
    match goal with |- context [createPostsFromScrapedContent _ _ ?items ?c ?pl ?us ?w1] =>
      destruct (createPostsFromScrapedContent_adds calculateQualityScore processContent c pl us w1 items) as (created & Ha & Hf & Hn);
      [|destruct (createPostsFromScrapedContent calculateQualityScore processContent
                    items c pl us w1) as [w2 cr] eqn:Hcr]
    end.
    { rewrite Forall_forall in *. intros x Hx. apply Hall.
      apply slice0_incl in Hx. now apply filterNewContent_incl in Hx. }
    cbn [fst snd] in *. exists created. split; [|split; [exact Hf | exact Hn]].
    eapply added_nil_trans; [apply added_withNet|].
    rewrite <- (app_nil_r created).
    eapply added_trans; [exact Ha | apply enrich_adds].
  - exists []. cbn [fst snd]. split; [apply added_withNet|]. split; [constructor | reflexivity].
Qed.

End Stages.

(** ** The authentic stage *)

Section AuthenticStage.
Import RedditScraper ScraperManager.
Local Open Scope list_scope.

Lemma validateLoop_gate calculateQualityScore validateAuthenticity db community maxPosts :
  forall scrapedContent authenticContent,
    Forall (fun a => (orScore (Community.qualityThreshold community) (3 # 5)
                      <= a_qualityScore a)%Q) authenticContent ->
    Forall (fun a => (orScore (Community.qualityThreshold community) (3 # 5)
                      <= a_qualityScore a)%Q)
           (validateLoop calculateQualityScore validateAuthenticity
                         db community maxPosts scrapedContent authenticContent).
Proof.
  induction scrapedContent as [|content rest IH]; intros acc Hacc;
    cbn [validateLoop]; [exact Hacc|].
  destruct (postExists db _ _ _); [now apply IH|].
  destruct (negb (valid (validateAuthenticity content))); [now apply IH|].
  destruct (Qltb (calculateQualityScore content) _) eqn:Hq; [now apply IH|].
  assert (Forall (fun a => (orScore (Community.qualityThreshold community) (3 # 5)
                            <= a_qualityScore a)%Q)
                 (acc ++ [mkAuthenticItem content (calculateQualityScore content)
                                          (score (validateAuthenticity content))])).
  { apply Forall_app. split; [exact Hacc|]. constructor; [|constructor].
    cbn [a_qualityScore]. now apply Qltb_false. }
  destruct (maxPosts <=? _)%Z; [assumption | now apply IH].
Qed.

(** The authentic creation loop never touches its low-quality counter. *)
Lemma createPostsFromAuthenticContent_skippedLowQuality
    processAuthenticContent community platform users :
  forall items w r,
    skippedLowQuality
      (snd (fold_left (createFromAuthentic processAuthenticContent community platform users)
                      items (w, r)))
    = skippedLowQuality r.
Proof.
  induction items as [|a items IH]; intros w r; cbn [fold_left]; [reflexivity|].
  destruct (createFromAuthentic_adds processAuthenticContent community platform users w r a)
    as (_ & _ & _ & _ & Hs).
  destruct (createFromAuthentic processAuthenticContent community platform users (w, r) a)
    as [w1 r1].
  cbn [snd] in Hs. now rewrite IH.
Qed.

Lemma createPostsFromAuthenticContent_adds
    processAuthenticContent community platform users w items :
  Forall (fun a => (orScore (Community.qualityThreshold community) (3 # 5)
                    <= a_qualityScore a)%Q) items ->
  exists created,
    Spec.added w (fst (createPostsFromAuthenticContent processAuthenticContent
                         items community platform users w)) created
    /\ Forall (Spec.passesGate (3 # 5) community) created
    /\ postsCreated (snd (createPostsFromAuthenticContent processAuthenticContent
                            items community platform users w))
       = List.length created.
Proof.
  intros Hitems. unfold createPostsFromAuthenticContent.
  destruct (fold_adds
              (createFromAuthentic processAuthenticContent community platform users)
              (fun content p => Post.qualityScore p = a_qualityScore content)
              (fun w r a =>
                 match createFromAuthentic_adds processAuthenticContent
                         community platform users w r a with
                 | ex_intro _ created (conj Ha (conj Hf (conj Hn _))) =>
                     ex_intro _ created
                       (conj Ha (conj (Forall_impl _ (fun p H => proj2 H) Hf) Hn))
                 end)
              items w noCreation) as (created & Ha & Hf & Hn).
  exists created. split; [exact Ha|]. split; [|exact Hn].
  eapply Forall_impl; [|exact Hf].
  intros p (content & Hin & Hq). apply passesGate_intro; [discriminate|].
  rewrite Hq. rewrite Forall_forall in Hitems. now apply Hitems.
Qed.

Lemma authenticStage_adds calculateQualityScore processAuthenticContent
    validateAuthenticity postsPerPlatform :
  Spec.StageAdds (Spec.passesGate (3 # 5))
                 (authenticStage calculateQualityScore processAuthenticContent
                                 validateAuthenticity postsPerPlatform).
Proof.
  intros community platformConfig platformUsers w. unfold authenticStage.
  match goal with |- context [scrapeContent ?c ?u ?e] =>
    destruct (scrapeContent c u e) as [[[scraped|message] u'] e'] eqn:Hs end.
  - match goal with
      |- context [createPostsFromAuthenticContent _ ?items ?c ?pl ?us ?w1] =>
        destruct (createPostsFromAuthenticContent_adds processAuthenticContent
                    c pl us w1 items) as (created & Ha & Hf & Hn);
        [|destruct (createPostsFromAuthenticContent processAuthenticContent
                      items c pl us w1) as [w2 cr] eqn:Hcr]
    end.
    { apply validateLoop_gate. constructor. }
    cbn [fst snd] in *. exists created. split; [|split; [exact Hf | exact Hn]].
    eapply added_nil_trans; [apply added_withNet|].
    rewrite <- (app_nil_r created).
    eapply added_trans; [exact Ha | apply enrich_adds].
  - exists []. cbn [fst snd]. split; [apply added_withNet|]. split; [constructor | reflexivity].
Qed.

(** In authentic mode the stage reports no low-quality skip, whatever the
    validation dropped. *)
Lemma authenticStage_skippedLowQuality calculateQualityScore processAuthenticContent
    validateAuthenticity postsPerPlatform community platformConfig platformUsers w :
  match fst (authenticStage calculateQualityScore processAuthenticContent
               validateAuthenticity postsPerPlatform community platformConfig
               platformUsers w) with
  | Ok c => skippedLowQuality c = 0
  | Throw _ => True
  end.
Proof.
  unfold authenticStage.
  match goal with |- context [scrapeContent ?c ?u ?e] =>
    destruct (scrapeContent c u e) as [[[scraped|message] u'] e'] end; [|exact I].
  match goal with
    |- context [createPostsFromAuthenticContent _ ?items ?c ?pl ?us ?w1] =>
      pose proof (createPostsFromAuthenticContent_skippedLowQuality
                    processAuthenticContent c pl us items w1 noCreation) as Hs;
      fold (createPostsFromAuthenticContent processAuthenticContent items c pl us w1) in Hs;
      destruct (createPostsFromAuthenticContent processAuthenticContent items c pl us w1)
        as [w2 cr]
  end.
  exact Hs.
Qed.

End AuthenticStage.

(** ** One community *)

Section CommunityRun.
Import ScraperManager.
Local Open Scope list_scope.

Variable R : Community.t -> Post.t -> Prop.
Variable stage : Stage.
Hypothesis stage_adds : Spec.StageAdds R stage.

Lemma platformStep_skipped community platformUsers st cfg :
  Spec.isScraped cfg = false ->
  platformStep stage community platformUsers st cfg = st.
Proof.
  unfold Spec.isScraped, platformStep. destruct st as [[w total] results].
  destruct (PlatformConfig.isActive cfg); cbn [negb andb]; [|reflexivity].
  intros ->. reflexivity.
Qed.

Lemma platformStep_scraped community platformUsers w total results cfg :
  Spec.isScraped cfg = true ->
  platformStep stage community platformUsers (w, total, results) cfg
  = match stage community cfg platformUsers w with
    | (Ok created, w') =>
        (w', total + postsCreated created,
         results ++ [mkPlatformResult (PlatformConfig.platform cfg)
                       (postsCreated created) (skippedExisting created)
                       (skippedLowQuality created) true None])
    | (Throw message, w') =>
        (w', total,
         results ++ [mkPlatformResult (PlatformConfig.platform cfg)
                       0 0 0 false (Some message)])
    end.
Proof.
  unfold Spec.isScraped, platformStep.
  destruct (PlatformConfig.isActive cfg); cbn [negb andb]; [|discriminate].
  intros ->. reflexivity.
Qed.

(** The loop over the source configs: every scraped config gets its
    entry, in order, whether its stage returned or threw; the records
    added are those the stages added, and the total counts them. *)
Lemma platformLoop_spec community platformUsers :
  forall configs w total results,
    exists created entries,
      Spec.added w
        (fst (fst (fold_left (platformStep stage community platformUsers) configs
                             (w, total, results)))) created
      /\ Forall (R community) created
      /\ snd (fst (fold_left (platformStep stage community platformUsers) configs
                             (w, total, results)))
         = total + List.length created
      /\ snd (fold_left (platformStep stage community platformUsers) configs
                        (w, total, results))
         = results ++ entries
      /\ Forall2 (Spec.recorded stage community platformUsers)
                 (filter Spec.isScraped configs) entries.
Proof.
  induction configs as [|cfg configs IH]; intros w total results.
  - exists [], []. cbn. rewrite app_nil_r.
    split; [apply added_refl|]. repeat split; [constructor | lia | constructor].
  - cbn [fold_left filter]. destruct (Spec.isScraped cfg) eqn:Hsc.
    2:{ rewrite platformStep_skipped by exact Hsc. apply IH. }
    rewrite platformStep_scraped by exact Hsc.
    destruct (stage_adds community cfg platformUsers w) as (c1 & A1 & F1 & N1).
    assert (Hrec : Spec.recorded stage community platformUsers cfg
                     match fst (stage community cfg platformUsers w) with
                     | Ok c => mkPlatformResult (PlatformConfig.platform cfg)
                                 (postsCreated c) (skippedExisting c)
                                 (skippedLowQuality c) true None
                     | Throw message => mkPlatformResult (PlatformConfig.platform cfg)
                                          0 0 0 false (Some message)
                     end).
    { exists w. destruct (fst (stage community cfg platformUsers w)); reflexivity. }
    destruct (stage community cfg platformUsers w) as [[c|message] w1];
      cbn [fst snd] in *.
    + destruct (IH w1 (total + postsCreated c)
                  (results ++ [mkPlatformResult (PlatformConfig.platform cfg)
                                 (postsCreated c) (skippedExisting c)
                                 (skippedLowQuality c) true None]))
        as (c2 & e2 & A2 & F2 & N2 & E2 & G2).
      exists (c1 ++ c2), (mkPlatformResult (PlatformConfig.platform cfg)
                            (postsCreated c) (skippedExisting c)
                            (skippedLowQuality c) true None :: e2).
      split; [eapply added_trans; eassumption|].
      split; [apply Forall_app; now split|].
      split; [rewrite N2, N1, length_app; lia|].
      split; [rewrite E2, <- app_assoc; reflexivity|].
      constructor; assumption.
    + subst c1.
      destruct (IH w1 total
                  (results ++ [mkPlatformResult (PlatformConfig.platform cfg)
                                 0 0 0 false (Some message)]))
        as (c2 & e2 & A2 & F2 & N2 & E2 & G2).
      exists c2, (mkPlatformResult (PlatformConfig.platform cfg)
                    0 0 0 false (Some message) :: e2).
      split; [eapply added_nil_trans; eassumption|].
      split; [assumption|]. split; [assumption|].
      split; [rewrite E2, <- app_assoc; reflexivity|].
      constructor; assumption.
Qed.

Lemma findByIdAndUpdate_updated communityId now n communities community :
  findById communities communityId = Some community ->
  findById (findByIdAndUpdate communityId now n communities) communityId
  = Some (Spec.updated now n community).
Proof.
  unfold findById. induction communities as [|c rest IH]; cbn [find findByIdAndUpdate];
    [discriminate|].
  destruct (String.eqb (Community._id c) communityId) eqn:E.
  - intros [= <-]. cbn [find Community._id]. rewrite E. reflexivity.
  - intros H. cbn [find]. rewrite E. now apply IH.
Qed.

(** A community run that finds its community and a platform user
    returns, with one entry per scraped source config, and updates the
    community once, after the loop. *)
Lemma communityRun_spec communityId w community :
  findById (World.communities w) communityId = Some community ->
  filter isPlatformUser (World.users w) <> [] ->
  exists created entries w',
    communityRun stage communityId w
    = (Ok (mkCommunityResult communityId (Community.name community)
                             (List.length created) entries), w')
    /\ World.posts w' = World.posts w ++ created
    /\ Forall (R community) created
    /\ Forall2 (Spec.recorded stage community (filter isPlatformUser (World.users w)))
               (filter Spec.isScraped (Community.scrapingPlatforms community)) entries
    /\ World.communities w'
       = findByIdAndUpdate communityId (Env.clock (World.env w')) (List.length created)
                           (World.communities w).
Proof.
  intros Hfind Husers. unfold communityRun. rewrite Hfind.
  destruct (filter isPlatformUser (World.users w)) as [|u0 us] eqn:Hu; [congruence|].
  destruct (platformLoop_spec community (u0 :: us)
              (Community.scrapingPlatforms community) w 0 [])
    as (created & entries & A & F & N & E & G).
  destruct (fold_left (platformStep stage community (u0 :: us))
                      (Community.scrapingPlatforms community) (w, 0, []))
    as [[w1 total] results].
  cbn [fst snd] in *. subst total results. cbn [app].
  destruct A as (P & C & _).
  eexists created, entries, _. split; [reflexivity|].
  cbn. rewrite C. repeat split; assumption.
Qed.

(** Whatever the outcome of a community run, it only appends records
    that satisfy [R] for the community it ran on. *)
Lemma communityRun_posts communityId w community :
  findById (World.communities w) communityId = Some community ->
  exists created,
    World.posts (snd (communityRun stage communityId w)) = World.posts w ++ created
    /\ Forall (R community) created.
Proof.
  intros Hfind.
  destruct (filter isPlatformUser (World.users w)) as [|u0 us] eqn:Hu.
  - exists []. unfold communityRun. rewrite Hfind, Hu. cbn. rewrite app_nil_r.
    split; [reflexivity | constructor].
  - destruct (communityRun_spec communityId w community Hfind) as
      (created & entries & w' & Hrun & HP & HF & _); [congruence|].
    exists created. rewrite Hrun. split; assumption.
Qed.

End CommunityRun.

(** ** The three modes *)

Section Modes.
Import RedditScraper ScraperManager.
Local Open Scope list_scope.

Lemma runMode_communityRun calc pc pac va mode communityId w :
  Spec.runMode calc pc pac va mode communityId w
  = communityRun (Spec.stageOf calc pc pac va mode) communityId w.
Proof. destruct mode; reflexivity. Qed.

Lemma stageOf_adds calc pc pac va mode :
  Spec.StageAdds (Spec.guarantees mode) (Spec.stageOf calc pc pac va mode).
Proof.
  intros community platformConfig platformUsers w.
  destruct mode as [| |n]; cbn [Spec.stageOf].
  - destruct (bulkStage_adds calc pc community platformConfig platformUsers w)
      as (created & A & F & N).
    exists created. split; [exact A|]. split; [|exact N].
    eapply Forall_impl; [|exact F]. intros p [Hw Hg]. now split.
  - destruct (singlePostStage_adds calc pc community platformConfig platformUsers w)
      as (created & A & F & N).
    exists created. split; [exact A|]. split; [|exact N].
    eapply Forall_impl; [|exact F]. intros p [Hw Hg]. now split.
  - destruct (authenticStage_adds calc pac va n community platformConfig platformUsers w)
      as (created & A & F & N).
    exists created. split; [exact A|]. split; [|exact N].
    eapply Forall_impl; [|exact F]. intros p Hg. now split.
Qed.

(** The quality gate (the part of C3 that holds in every mode): every
    record a community run persists has a quality score that reaches the
    threshold in force, hence the configured threshold if there is one. *)
Lemma quality_gate_invariant calc pc pac va mode communityId w community :
  findById (World.communities w) communityId = Some community ->
  exists created,
    World.posts (snd (Spec.runMode calc pc pac va mode communityId w))
    = World.posts w ++ created
    /\ Forall (Spec.passesGate (Spec.fallbackOf mode) community) created.
Proof.
  intros Hfind. rewrite runMode_communityRun.
  destruct (communityRun_posts _ _ (stageOf_adds calc pc pac va mode) communityId w
              community Hfind) as (created & HP & HF).
  exists created. split; [exact HP|].
  eapply Forall_impl; [|exact HF]. now intros p [Hg _].
Qed.


End Modes.

(** ** Partial failure of a community run *)

Section Isolation.
Import ScraperManager Examples.
Local Open Scope list_scope.

Lemma recorded_failure stage community platformUsers configs entries :
  Forall2 (Spec.recorded stage community platformUsers) configs entries ->
  forall pr,
    In pr entries -> pr_success pr = false ->
    pr_postsCreated pr = 0 /\ exists message, pr_error pr = Some message.
Proof.
  induction 1 as [|cfg pr0 configs entries [wk Hrec] _ IH]; intros pr [].
  - subst pr0. destruct (fst (stage community cfg platformUsers wk)) as [c|message];
      subst pr; cbn; [discriminate|].
    intros _. split; [reflexivity | now exists message].
  - now apply IH.
Qed.

(** The loop over the source configs executes the stages of the scraped
    configs in turn, each in the world the one before it left. *)
Lemma platformLoop_executed stage community platformUsers :
  forall configs w total results,
    exists entries n w1,
      fold_left (platformStep stage community platformUsers) configs (w, total, results)
      = (w1, total + n, results ++ entries)
      /\ Spec.executed stage community platformUsers w
                       (filter Spec.isScraped configs) entries n w1.
Proof.
  induction configs as [|cfg configs IH]; intros w total results.
  - exists [], 0, w. cbn. rewrite app_nil_r, Nat.add_0_r. split; [reflexivity | constructor].
  - cbn [fold_left filter]. destruct (Spec.isScraped cfg) eqn:Hs.
    + rewrite (platformStep_scraped stage community platformUsers w total results cfg Hs).
      destruct (stage community cfg platformUsers w) as [[c|message] w0] eqn:Hst.
      * destruct (IH w0 (total + postsCreated c)
                     (results ++ [mkPlatformResult (PlatformConfig.platform cfg)
                                    (postsCreated c) (skippedExisting c)
                                    (skippedLowQuality c) true None]))
          as (entries & n & w1 & Hf & He).
        eexists (_ :: entries), (postsCreated c + n), w1. split.
        -- rewrite Hf, <- app_assoc, Nat.add_assoc. reflexivity.
        -- econstructor; eassumption.
      * destruct (IH w0 total
                     (results ++ [mkPlatformResult (PlatformConfig.platform cfg)
                                    0 0 0 false (Some message)]))
          as (entries & n & w1 & Hf & He).
        eexists (_ :: entries), n, w1. split.
        -- rewrite Hf, <- app_assoc. reflexivity.
        -- eapply Spec.executed_threw; eassumption.
    + rewrite (platformStep_skipped stage community platformUsers (w, total, results) cfg Hs).
      apply IH.
Qed.

(** The total of an execution is the sum of the counts of its entries. *)
Lemma executed_total stage community platformUsers w configs entries n w1 :
  Spec.executed stage community platformUsers w configs entries n w1 ->
  n = list_sum (map pr_postsCreated entries).
Proof.
  induction 1 as [|? ? ? ? ? ? ? ? _ _ IH|? ? ? ? ? ? ? ? _ _ IH]; cbn;
    [reflexivity | now rewrite IH | exact IH].
Qed.

(** C6. A community run (in any mode) that finds its community and at
    least one platform user returns a result, whatever its stages do. The
    stages of the active reddit source configs are executed in order, each
    in the world the one before it left, whether that one returned or
    threw: a stage that throws stops no other. [platformResults] holds
    the entries of exactly these executions, in order; a failed one has
    success = false, zero counts and the error message. The total the run
    reports is the sum of the counts of the entries and the number of
    records the run appended to the corpus. The community is updated
    once, after the last stage, in the world that stage left:
    [lastScrapedAt] becomes the clock at that moment and [postCount] grows
    by that total. *)
Theorem partial_failure_isolation calc pc pac va mode communityId w community :
  findById (World.communities w) communityId = Some community ->
  filter isPlatformUser (World.users w) <> [] ->
  exists created entries w1 w',
    Spec.runMode calc pc pac va mode communityId w
    = (Ok (mkCommunityResult communityId (Community.name community)
                             (List.length created) entries), w')
    /\ Spec.executed (Spec.stageOf calc pc pac va mode) community
                     (filter isPlatformUser (World.users w)) w
                     (filter Spec.isScraped (Community.scrapingPlatforms community))
                     entries (List.length created) w1
    /\ List.length created = list_sum (map pr_postsCreated entries)
    /\ w' = World.withCommunities w1
              (findByIdAndUpdate communityId (Env.clock (World.env w1))
                                 (List.length created) (World.communities w1))
    /\ Forall2 (Spec.recorded (Spec.stageOf calc pc pac va mode) community
                              (filter isPlatformUser (World.users w)))
               (filter Spec.isScraped (Community.scrapingPlatforms community)) entries
    /\ (forall pr, In pr entries -> pr_success pr = false ->
                   pr_postsCreated pr = 0 /\ exists message, pr_error pr = Some message)
    /\ World.posts w' = World.posts w ++ created
    /\ World.communities w'
       = findByIdAndUpdate communityId (Env.clock (World.env w')) (List.length created)
                           (World.communities w)
    /\ findById (World.communities w') communityId
       = Some (Spec.updated (Env.clock (World.env w')) (List.length created) community).
Proof.
  intros Hfind Husers. rewrite runMode_communityRun.
  destruct (communityRun_spec _ _ (stageOf_adds calc pc pac va mode) communityId w
              community Hfind Husers)
    as (created & entries & w' & Hrun & HP & _ & HG & HC).
  assert (Hex : exists w1,
             Spec.executed (Spec.stageOf calc pc pac va mode) community
               (filter isPlatformUser (World.users w)) w
               (filter Spec.isScraped (Community.scrapingPlatforms community))
               entries (List.length created) w1
             /\ w' = World.withCommunities w1
                       (findByIdAndUpdate communityId (Env.clock (World.env w1))
                                          (List.length created) (World.communities w1))).
  { revert Hrun. unfold communityRun. rewrite Hfind.
    destruct (filter isPlatformUser (World.users w)) as [|u0 us]; [congruence|].
    destruct (platformLoop_executed (Spec.stageOf calc pc pac va mode) community (u0 :: us)
                (Community.scrapingPlatforms community) w 0 [])
      as (entries' & n & w1 & Hf & He).
    rewrite Hf. cbn [Nat.add app]. intros [= Hn Hentries Hw']. subst n entries'.
    exists w1. split; [exact He | now symmetry]. }
  destruct Hex as (w1 & He & Hw').
  exists created, entries, w1, w'. split; [exact Hrun|]. split; [exact He|].
  split; [exact (executed_total _ _ _ _ _ _ _ _ He)|]. split; [exact Hw'|].
  split; [exact HG|].
  split; [exact (recorded_failure _ _ _ _ _ HG)|]. split; [exact HP|].
  split; [exact HC|]. rewrite HC. now apply findByIdAndUpdate_updated.
Qed.

Lemma partial_failure_isolation_witness :
  entriesOf (Spec.runMode scoreHigh plainProcess plainProcessAuthentic alwaysAuthentic
                          Spec.Bulk "c1" worldMixed)
  = [(0, 0, 0, false); (1, 0, 0, true)]
  /\ exists created entries w1 w',
       Spec.runMode scoreHigh plainProcess plainProcessAuthentic alwaysAuthentic
                    Spec.Bulk "c1" worldMixed
       = (Ok (mkCommunityResult "c1" (Community.name founders)
                                (List.length created) entries), w')
       /\ Spec.executed (Spec.stageOf scoreHigh plainProcess plainProcessAuthentic
                                      alwaysAuthentic Spec.Bulk) founders
                        (filter isPlatformUser (World.users worldMixed)) worldMixed
                        (filter Spec.isScraped (Community.scrapingPlatforms founders))
                        entries (List.length created) w1
       /\ List.length created = list_sum (map pr_postsCreated entries)
       /\ w' = World.withCommunities w1
                 (findByIdAndUpdate "c1" (Env.clock (World.env w1))
                                    (List.length created) (World.communities w1))
       /\ Forall2 (Spec.recorded (Spec.stageOf scoreHigh plainProcess plainProcessAuthentic
                                               alwaysAuthentic Spec.Bulk) founders
                                 (filter isPlatformUser (World.users worldMixed)))
                  (filter Spec.isScraped (Community.scrapingPlatforms founders)) entries
       /\ (forall pr, In pr entries -> pr_success pr = false ->
                      pr_postsCreated pr = 0 /\ exists message, pr_error pr = Some message)
       /\ World.posts w' = World.posts worldMixed ++ created
       /\ World.communities w'
          = findByIdAndUpdate "c1" (Env.clock (World.env w')) (List.length created)
                              (World.communities worldMixed)
       /\ findById (World.communities w') "c1"
          = Some (Spec.updated (Env.clock (World.env w')) (List.length created) founders).
Proof.
  split; [vm_compute; reflexivity|].
  apply (partial_failure_isolation scoreHigh plainProcess plainProcessAuthentic
           alwaysAuthentic Spec.Bulk "c1" worldMixed founders).
  - reflexivity.
  - vm_compute. discriminate.
Defined.

End Isolation.

(** ** Sweeps *)

Section Sweep.
Import ScraperManager Examples.
Local Open Scope list_scope.








End Sweep.

(** ** Low-quality items in authentic mode *)

Section LowQuality.
Import ScraperManager Examples.
Local Open Scope list_scope.

(** C3, evaluated. The gate itself holds in every mode
    ([quality_gate_invariant]); the count does not: in authentic mode the
    stage reports [skippedLowQuality = 0] whatever the validation dropped.
    With a scorer that gives 1/10 to every item and no configured
    threshold, the authentic run on the page of two posts persists
    nothing and reports no low-quality skip, where the bulk run on the
    same world reports one (the only post after the watermark). *)
Theorem authentic_mode_reports_no_low_quality_skip :
  (forall calc pac va n community platformConfig platformUsers w,
     match fst (authenticStage calc pac va n community platformConfig platformUsers w) with
     | Ok c => skippedLowQuality c = 0
     | Throw _ => True
     end)
  /\ entriesOf (Spec.runMode scoreLow plainProcess plainProcessAuthentic alwaysAuthentic
                             (Spec.Authentic 2) "c1" worldMixed)
     = [(0, 0, 0, false); (0, 0, 0, true)]
  /\ World.posts (snd (Spec.runMode scoreLow plainProcess plainProcessAuthentic
                         alwaysAuthentic (Spec.Authentic 2) "c1" worldMixed))
     = []
  /\ entriesOf (Spec.runMode scoreLow plainProcess plainProcessAuthentic alwaysAuthentic
                             Spec.Bulk "c1" worldMixed)
     = [(0, 0, 0, false); (0, 0, 1, true)].
Proof.
  split; [exact authenticStage_skippedLowQuality|].
  repeat split; vm_compute; reflexivity.
Qed.

End LowQuality.

(* ================================================================== *)
(** * Further properties of RedditScraper.js *)
(* ================================================================== *)

(** ** Titles and subreddit names *)

Section TitlesAndNames.
Import RedditScraper.
Local Open Scope string_scope.

Lemma trimEnd_cons c s :
  trimEnd (String c s)
  = match trimEnd s with
    | EmptyString => if isWhiteSpace c then EmptyString else String c EmptyString
    | t => String c t
    end.
Proof. reflexivity. Qed.

Lemma trimEnd_idempotent s : trimEnd (trimEnd s) = trimEnd s.
Proof.
  induction s as [|c s IH]; [reflexivity|].
  rewrite trimEnd_cons. destruct (trimEnd s) as [|d t] eqn:E.
  - destruct (isWhiteSpace c) eqn:W; [reflexivity|].
    rewrite trimEnd_cons. cbn [trimEnd]. now rewrite W.
  - rewrite trimEnd_cons, IH. reflexivity.
Qed.

Lemma skipWhiteSpace_head s c r :
  skipWhiteSpace s = String c r -> isWhiteSpace c = false.
Proof.
  induction s as [|d s IH]; cbn [skipWhiteSpace]; [discriminate|].
  destruct (isWhiteSpace d) eqn:W; [exact IH|]. now intros [= <- _].
Qed.

Lemma trimEnd_head c r :
  isWhiteSpace c = false -> exists t, trimEnd (String c r) = String c t.
Proof.
  intros W. cbn [trimEnd]. destruct (trimEnd r); [rewrite W|]; eauto.
Qed.

Lemma trim_tight s : Props.tight (trim s).
Proof.
  unfold Props.tight, trim. split; [|apply trimEnd_idempotent].
  destruct (skipWhiteSpace s) as [|c r] eqn:E; [reflexivity|].
  pose proof (skipWhiteSpace_head _ _ _ E) as W.
  destruct (trimEnd_head c r W) as [t ->]. cbn [skipWhiteSpace]. now rewrite W.
Qed.

Lemma trim_idempotent s : trim (trim s) = trim s.
Proof.
  destruct (trim_tight s) as [H1 H2]. unfold trim at 1. now rewrite H1, H2.
Qed.

(** X1. What [enhanceTitle] returns is the constant title, the original title
    unchanged, or a title without white space at either end. *)
Theorem enhanceTitle_tight originalTitle :
  enhanceTitle originalTitle = "Discussion Post"
  \/ originalTitle = Some (enhanceTitle originalTitle)
  \/ (Props.tight (enhanceTitle originalTitle)
      /\ trim (enhanceTitle originalTitle) = enhanceTitle originalTitle).
Proof.
  destruct originalTitle as [[|c t]|]; cbn [enhanceTitle]; try (now left).
  destruct (trim (stripBracketPrefix (stripTagPrefix (String c t)))) as [|d e] eqn:E.
  - right; left; reflexivity.
  - right; right. rewrite <- E. split; [apply trim_tight | apply trim_idempotent].
Qed.

Lemma takeSegment_prefix s : exists rest, s = takeSegment s ++ rest.
Proof.
  induction s as [|c s [rest IH]]; [now exists EmptyString|].
  cbn [takeSegment]. destruct (Ascii.eqb c "/" || Ascii.eqb c "?").
  - now exists (String c s).
  - exists rest. cbn. now rewrite <- IH.
Qed.

Lemma takeSegment_chars s : Props.allChars Props.isSegmentChar (takeSegment s) = true.
Proof.
  induction s as [|c s IH]; [reflexivity|].
  cbn [takeSegment]. destruct (Ascii.eqb c "/" || Ascii.eqb c "?") eqn:E; [reflexivity|].
  cbn [Props.allChars]. unfold Props.isSegmentChar at 1. now rewrite E, IH.
Qed.

Lemma takeSegment_exact name rest :
  Props.allChars Props.isSegmentChar name = true ->
  (rest = EmptyString \/ exists r, rest = "/" ++ r \/ rest = "?" ++ r) ->
  takeSegment (name ++ rest) = name.
Proof.
  intros Hn Hr. induction name as [|c name IH].
  - destruct Hr as [-> | [r [-> | ->]]]; reflexivity.
  - cbn [Props.allChars] in Hn. apply andb_true_iff in Hn. destruct Hn as [Hc Hn].
    unfold Props.isSegmentChar in Hc. apply negb_true_iff in Hc.
    cbn [append takeSegment]. rewrite Hc, IH by exact Hn. reflexivity.
Qed.

Lemma segmentAfterR_spec s name :
  segmentAfterR s = name -> name <> EmptyString ->
  Props.allChars Props.isSegmentChar name = true
  /\ exists rest, s = "/r/" ++ name ++ rest.
Proof.
  unfold segmentAfterR. destruct s as [|a [|b [|c s]]]; try congruence.
  destruct (Ascii.eqb a "/") eqn:A; cbn [andb]; [|congruence].
  destruct (Ascii.eqb b "r") eqn:B; cbn [andb]; [|congruence].
  destruct (Ascii.eqb c "/") eqn:C; [|congruence].
  apply Ascii.eqb_eq in A, B, C. subst a b c. intros <- _.
  split; [apply takeSegment_chars|].
  destruct (takeSegment_prefix s) as [rest H]. exists rest. cbn. now rewrite <- H.
Qed.

(** X2. A subreddit name extracted from a source URL is never empty,
    holds neither a slash nor a question mark, and stands in the URL
    right after "/r/"; and a canonical reddit URL gives back the name it
    was built from. *)
Theorem extractSubreddit_name :
  (forall url name,
     extractSubreddit url = Some name ->
     name <> EmptyString
     /\ Props.allChars Props.isSegmentChar name = true
     /\ Spec.occursIn ("/r/" ++ name) url)
  /\ (forall name rest,
        name <> EmptyString ->
        Props.allChars Props.isSegmentChar name = true ->
        (rest = EmptyString \/ exists r, rest = "/" ++ r \/ rest = "?" ++ r) ->
        extractSubreddit (baseUrl ++ "/r/" ++ name ++ rest) = Some name).
Proof.
  split.
  - intros url. induction url as [|c url IH]; intros name; cbn [extractSubreddit];
      [discriminate|].
    destruct (segmentAfterR (String c url)) as [|d seg] eqn:E.
    + intros H. destruct (IH name H) as (H1 & H2 & before & after_ & H3).
      split; [exact H1|]. split; [exact H2|].
      exists (String c before), after_. cbn. now rewrite H3.
    + intros [= <-].
      destruct (segmentAfterR_spec _ _ E) as [H2 [rest H3]]; [discriminate|].
      split; [discriminate|]. split; [exact H2|].
      exists EmptyString, rest. rewrite H3. reflexivity.
  - intros name rest Hne Hchars Hrest.
    pose proof (takeSegment_exact name rest Hchars Hrest) as Ht.
    assert (Hskip : forall c s, segmentAfterR (String c s) = EmptyString ->
                                extractSubreddit (String c s) = extractSubreddit s).
    { intros c s H. cbn [extractSubreddit]. now rewrite H. }
    unfold baseUrl. cbn [append].
    repeat (rewrite Hskip by reflexivity).
    cbn [extractSubreddit].
    replace (segmentAfterR (String "/" (String "r" (String "/" (name ++ rest)))))
      with name by (symmetry; exact Ht).
    destruct name; [congruence | reflexivity].
Qed.

Lemma extractSubreddit_name_witness :
  extractSubreddit (baseUrl ++ "/r/" ++ "startups" ++ "/new?limit=5") = Some "startups"
  /\ Spec.occursIn ("/r/" ++ "startups") "https://old.reddit.com/r/startups".
Proof.
  destruct extractSubreddit_name as [Hsound Hround]. split.
  - apply Hround; [discriminate | reflexivity | right; exists "new?limit=5"; now left].
  - apply (Hsound "https://old.reddit.com/r/startups" "startups"). reflexivity.
Defined.

End TitlesAndNames.

(** ** Tags and content of a transformed post *)

Section TagsAndContent.
Import RedditScraper.
Local Open Scope string_scope.

Lemma toLowerChar_idempotent c : toLowerChar (toLowerChar c) = toLowerChar c.
Proof.
  destruct c as [[] [] [] [] [] [] [] []]; reflexivity.
Qed.

Lemma toLowerCase_idempotent s : toLowerCase (toLowerCase s) = toLowerCase s.
Proof.
  induction s as [|c s IH]; [reflexivity|].
  cbn [toLowerCase]. now rewrite toLowerChar_idempotent, IH.
Qed.

Lemma toLowerCase_nonempty s : s <> EmptyString -> toLowerCase s <> EmptyString.
Proof. destruct s; [congruence | discriminate]. Qed.

Lemma closeTag_nonempty cur : Forall (fun t => t <> EmptyString) (closeTag cur).
Proof.
  destruct cur as [[|c w]|]; cbn; repeat constructor. discriminate.
Qed.

Lemma scanHashtags_nonempty text :
  forall cur, Forall (fun t => t <> EmptyString) (scanHashtags cur text).
Proof.
  induction text as [|c text IH]; intros cur; cbn [scanHashtags].
  - apply closeTag_nonempty.
  - destruct cur as [w|]; [|apply IH].
    destruct (isWordChar c); [apply IH|].
    apply Forall_app. split; [apply closeTag_nonempty | apply IH].
Qed.

Lemma dedupe_spec l :
  forall seen,
    NoDup (dedupe seen l)
    /\ (forall x, In x (dedupe seen l) -> In x l /\ ~ In x seen).
Proof.
  induction l as [|x l IH]; intros seen; cbn [dedupe].
  - split; [constructor | intros y []].
  - destruct (existsb (String.eqb x) seen) eqn:E.
    + destruct (IH seen) as [H1 H2]. split; [exact H1|].
      intros y Hy. destruct (H2 y Hy). split; [now right | assumption].
    + destruct (IH (x :: seen)) as [H1 H2]. split.
      * constructor; [|exact H1]. intros Hx. destruct (H2 x Hx) as [_ Hn].
        apply Hn. now left.
      * intros y [<- | Hy].
        -- split; [now left|]. intros Hin.
           assert (existsb (String.eqb x) seen = true).
           { apply existsb_exists. exists x. split; [exact Hin | apply String.eqb_refl]. }
           congruence.
        -- destruct (H2 y Hy) as [Ha Hb]. split; [now right|].
           intros Hin. apply Hb. now right.
Qed.

(** X3. The tags of a post are pairwise distinct, none is empty, each is in
    lower case, and the first one is the lower-cased subreddit name. *)
Theorem extractTags_distinct_lowercase post :
  NoDup (extractTags post)
  /\ Forall (fun t => t <> EmptyString /\ toLowerCase t = t) (extractTags post)
  /\ (Raw.subreddit post <> EmptyString ->
      hd_error (extractTags post) = Some (toLowerCase (Raw.subreddit post))).
Proof.
  unfold extractTags.
  match goal with |- context [dedupe [] ?l] => set (tags := l) end.
  destruct (dedupe_spec tags []) as [Hnd Hin]. split; [exact Hnd|]. split.
  - apply Forall_forall. intros t Ht. destruct (Hin t Ht) as [Ht' _].
    subst tags. apply in_app_or in Ht'. destruct Ht' as [Ht'|Ht'].
    + destruct (Raw.subreddit post) as [|c sub] eqn:E; [destruct Ht'|].
      destruct Ht' as [<- | []]. split; [cbn; discriminate | apply toLowerCase_idempotent].
    + apply in_app_or in Ht'. destruct Ht' as [Ht'|Ht'].
      * destruct (Raw.link_flair_text post) as [[|c f]|]; cbn in Ht'; try contradiction.
        destruct Ht' as [<- | []].
        split; [discriminate | apply (toLowerCase_idempotent (String c f))].
      * apply in_map_iff in Ht'. destruct Ht' as (h & <- & Hh).
        split; [|apply toLowerCase_idempotent].
        apply toLowerCase_nonempty.
        pose proof (scanHashtags_nonempty
                      (show (Raw.title post) ++ " " ++ orEmpty (Raw.selftext post)) None) as F.
        rewrite Forall_forall in F. now apply F.
  - intros Hsub. subst tags. destruct (Raw.subreddit post) as [|c sub]; [congruence|].
    reflexivity.
Qed.

Lemma length_append_s (a b : string) :
  String.length (a ++ b) = String.length a + String.length b.
Proof. induction a as [|c a IH]; cbn; [reflexivity | now rewrite IH]. Qed.

Lemma draw_bound bound n : 0 < bound -> fst (Env.draw bound n) < bound.
Proof.
  intros H. unfold Env.draw. destruct (Env.random n) as [|x r]; cbn [fst]; [exact H|].
  apply Nat.mod_upper_bound. lia.
Qed.

Lemma expandShortContent_length content n :
  50 <= String.length (fst (expandShortContent content n)).
Proof.
  unfold expandShortContent. destruct (Nat.leb_spec 50 (String.length content)) as [H|H];
    [exact H|].
  pose proof (draw_bound (List.length expansions) n ltac:(cbn; lia)) as Hk.
  destruct (Env.draw (List.length expansions) n) as [k n']. cbn [fst] in *.
  rewrite !length_append_s.
  change (List.length expansions) with 4 in Hk.
  destruct k as [|[|[|[|k]]]]; cbn; lia.
Qed.

(** X4. The content of a transformed post is never empty; and when the body,
    or without body the title, is not blank, it has at least 50
    characters. *)
Theorem transformRedditPost_content_length redditPost n :
  0 < String.length (Item.content (fst (transformRedditPost redditPost n)))
  /\ (forall original,
        orElse (Raw.selftext redditPost) (Raw.title redditPost) = Some original ->
        trim original <> EmptyString ->
        50 <= String.length (Item.content (fst (transformRedditPost redditPost n)))).
Proof.
  assert (Hgen : 0 < String.length (generateContentFromContext redditPost)).
  { unfold generateContentFromContext. rewrite !length_append_s. cbn. lia. }
  assert (Henh : forall original,
             trim original <> EmptyString ->
             50 <= String.length (fst (enhanceContent (Some original) redditPost n))).
  { intros original Hne. unfold enhanceContent.
    destruct (trim original) as [|c t] eqn:E; [congruence|].
    destruct (Nat.ltb_spec (String.length (cleanContent original)) 50) as [H|H].
    - pose proof (expandShortContent_length (cleanContent original) n) as He.
      destruct (expandShortContent (cleanContent original) n) as [e n']. cbn [fst] in *.
      destruct e; [cbn in He; lia | exact He].
    - cbn [fst]. destruct (cleanContent original); [cbn in H; lia | exact H]. }
  unfold transformRedditPost.
  destruct (enhanceContent (orElse (Raw.selftext redditPost) (Raw.title redditPost))
                           redditPost n) as [content n'] eqn:E.
  cbn [fst Item.content]. split.
  - destruct (orElse (Raw.selftext redditPost) (Raw.title redditPost)) as [original|].
    + destruct (trim original) as [|c t] eqn:Et.
      * unfold enhanceContent in E. rewrite Et in E. injection E as <- _. exact Hgen.
      * specialize (Henh original). rewrite E in Henh. cbn [fst] in Henh.
        assert (50 <= String.length content) by (apply Henh; congruence). lia.
    + cbn in E. injection E as <- _. exact Hgen.
  - intros original Ho Hne. rewrite Ho in E.
    specialize (Henh original Hne). rewrite E in Henh. exact Henh.
Qed.

Lemma transformRedditPost_content_length_witness :
  50 <= String.length
          (Item.content (fst (transformRedditPost Examples.rawHello Examples.env0))).
Proof.
  apply (proj2 (transformRedditPost_content_length Examples.rawHello Examples.env0)
               "Hello"); [reflexivity | discriminate].
Defined.

End TagsAndContent.

(** ** Requests and pauses of a fetch *)

Section FetchTrace.
Import RedditScraper.
Local Open Scope list_scope.

Lemma draw_frame bound n :
  Env.clock (snd (Env.draw bound n)) = Env.clock n
  /\ Env.trace (snd (Env.draw bound n)) = Env.trace n.
Proof. unfold Env.draw. destruct (Env.random n); cbn; tauto. Qed.

Lemma transformRedditPost_frame data n :
  Env.clock (snd (transformRedditPost data n)) = Env.clock n
  /\ Env.trace (snd (transformRedditPost data n)) = Env.trace n.
Proof.
  unfold transformRedditPost.
  destruct (enhanceContent _ data n) as [content n'] eqn:E. cbn [snd].
  unfold enhanceContent in E.
  destruct (orElse (Raw.selftext data) (Raw.title data)) as [original|];
    [|injection E as _ <-; tauto].
  destruct (trim original); [injection E as _ <-; tauto|].
  destruct (String.length (cleanContent original) <? 50);
    [|injection E as _ <-; tauto].
  unfold expandShortContent in E.
  destruct (50 <=? String.length (cleanContent original));
    [injection E as _ <-; tauto|].
  pose proof (draw_frame (List.length expansions) n) as F.
  destruct (Env.draw (List.length expansions) n) as [k n1]. cbn [snd] in F.
  injection E as _ <-. exact F.
Qed.

Lemma processChildren_frame opts children :
  forall acc reached n,
    Env.clock (snd (processChildren opts children acc reached n)) = Env.clock n
    /\ Env.trace (snd (processChildren opts children acc reached n)) = Env.trace n.
Proof.
  induction children as [|[data|] children IH]; intros acc reached n;
    cbn [processChildren]; try (cbn; tauto); try apply IH.
  destruct (excludeStickied opts && Raw.stickied data); [apply IH|].
  destruct (atOrBeforeMin (minCreatedUtc opts) data); [apply IH|].
  pose proof (transformRedditPost_frame data n) as F.
  destruct (transformRedditPost data n) as [post n1]. cbn [snd] in F.
  destruct (limit opts <=? _)%Z; [exact F|].
  destruct (IH (acc ++ [post]) reached n1) as [H1 H2]. destruct F as [F1 F2].
  split; congruence.
Qed.

Lemma normalizedSort_listing subreddit sort limit :
  (1 <= limit <= 25)%Z ->
  Props.goodGet subreddit ("/r/" ++ subreddit ++ "/" ++ normalizedSort sort)%string limit
  = true.
Proof.
  intros H. unfold Props.goodGet.
  replace (1 <=? limit)%Z with true by (symmetry; apply Z.leb_le; lia).
  replace (limit <=? 25)%Z with true by (symmetry; apply Z.leb_le; lia).
  rewrite !andb_true_r. unfold normalizedSort.
  destruct (existsb (String.eqb sort) ["hot"; "new"; "top"; "rising"]%string) eqn:E.
  - apply existsb_exists in E. destruct E as (s & Hs & Heq).
    apply String.eqb_eq in Heq. subst s. apply existsb_exists.
    exists sort. split; [exact Hs | apply String.eqb_refl].
  - cbn [existsb]. now rewrite String.eqb_refl.
Qed.

Lemma fetchLoop_paced subreddit opts :
  forall u acc nextAfter reached n,
    exists evs,
      Env.trace (snd (fetchLoop subreddit opts u acc nextAfter reached n))
      = Env.trace n ++ evs
      /\ Props.paced subreddit true evs = true
      /\ Env.clock (snd (fetchLoop subreddit opts u acc nextAfter reached n))
         = (Env.clock n + Props.delays evs)%Z.
Proof.
  assert (Hstop : forall n : Env.t,
             exists evs, Env.trace n = Env.trace n ++ evs
                         /\ Props.paced subreddit true evs = true
                         /\ Env.clock n = (Env.clock n + Props.delays evs)%Z).
  { intros n. exists []. rewrite app_nil_r. cbn. repeat split. lia. }
  intros u. induction u as [|r u IH]; intros acc nextAfter reached n;
    rewrite fetchLoop_eq;
    destruct (Z.ltb_spec (Z.of_nat (List.length acc)) (limit opts)) as [Hlt|Hge];
    cbn [andb]; try apply Hstop;
    destruct reached; cbn [negb]; try apply Hstop; cbv zeta.
  - exists [EvGet ("/r/" ++ subreddit ++ "/" ++ normalizedSort (sort opts))%string
                  (Z.min (limit opts - Z.of_nat (List.length acc)) 25)
                  (if truthy nextAfter then nextAfter else None)].
    cbn [snd Env.log Env.trace Env.clock Props.paced Props.delays].
    rewrite normalizedSort_listing by lia. repeat split. lia.
  - set (get := EvGet ("/r/" ++ subreddit ++ "/" ++ normalizedSort (sort opts))%string
                      (Z.min (limit opts - Z.of_nat (List.length acc)) 25)
                      (if truthy nextAfter then nextAfter else None)).
    assert (Hone : exists evs,
               Env.trace (Env.log get n) = Env.trace n ++ evs
               /\ Props.paced subreddit true evs = true
               /\ Env.clock (Env.log get n) = (Env.clock n + Props.delays evs)%Z).
    { exists [get]. subst get. cbn [Env.log Env.trace Env.clock Props.paced Props.delays].
      rewrite normalizedSort_listing by lia. repeat split. lia. }
    assert (Hmore : forall ms n2 (nf : Env.t),
               (ms = 2000 \/ ms = 5000)%Z ->
               Env.trace n2 = Env.trace (Env.log get n) ->
               Env.clock n2 = Env.clock (Env.log get n) ->
               (exists evs,
                  Env.trace nf = Env.trace (Env.delay ms n2) ++ evs
                  /\ Props.paced subreddit true evs = true
                  /\ Env.clock nf = (Env.clock (Env.delay ms n2) + Props.delays evs)%Z) ->
               exists evs,
                 Env.trace nf = Env.trace n ++ evs
                 /\ Props.paced subreddit true evs = true
                 /\ Env.clock nf = (Env.clock n + Props.delays evs)%Z).
    { intros ms n2 nf Hms Ht Hc (evs & E1 & E2 & E3).
      exists (get :: EvDelay ms :: evs).
      cbn [Env.delay Env.trace Env.clock] in E1, E3. rewrite Ht in E1. rewrite Hc in E3.
      cbn [Env.log Env.trace Env.clock] in E1, E3.
      split; [rewrite E1, <- !app_assoc; reflexivity|]. split.
      - subst get. cbn [Props.paced]. rewrite normalizedSort_listing by lia.
        rewrite E2. destruct Hms as [-> | ->]; reflexivity.
      - subst get. cbn [Props.delays]. lia. }
    destruct r as [listing | status message].
    + destruct (Http.children listing) as [|child children] eqn:Hch; [exact Hone|].
      pose proof (processChildren_frame opts (child :: children) acc false (Env.log get n))
        as [F1 F2].
      destruct (processChildren opts (child :: children) acc false (Env.log get n))
        as [[acc' reached'] n2]. cbn [snd] in F1, F2.
      destruct (truthy (Http.after listing)).
      * apply (Hmore 2000%Z n2); [now left | exact F2 | exact F1 | apply IH].
      * cbn [snd]. rewrite F1, F2. exact Hone.
    + destruct (isRateLimited status); [|exact Hone].
      apply (Hmore 5000%Z (Env.log get n)); [now right | reflexivity | reflexivity | apply IH].
Qed.

(** X5. Requests and pauses of a listing fetch. The events a fetch adds
    to the trace alternate between requests and pauses, starting with a
    request: never two requests without a pause of 2000 ms (next page) or
    5000 ms (after a 429) between them. Every request asks one of the four
    listings of the subreddit for 1 to 25 items, and the clock advances by
    the pauses. *)
Theorem fetchRedditPosts_paced subreddit opts after u n :
  exists evs,
    Env.trace (snd (fetchRedditPosts subreddit opts after u n)) = Env.trace n ++ evs
    /\ Props.paced subreddit true evs = true
    /\ Env.clock (snd (fetchRedditPosts subreddit opts after u n))
       = (Env.clock n + Props.delays evs)%Z.
Proof. apply fetchLoop_paced. Qed.

End FetchTrace.

(** ** Rate limiting before the first page, and failures of a scrape *)

Section FetchRandom.
Import RedditScraper.
Local Open Scope list_scope.

Lemma draw_random bound n m :
  Env.random n = Env.random m ->
  fst (Env.draw bound n) = fst (Env.draw bound m)
  /\ Env.random (snd (Env.draw bound n)) = Env.random (snd (Env.draw bound m)).
Proof.
  unfold Env.draw. intros H. rewrite H. destruct (Env.random m) eqn:E; cbn; [|tauto].
  split; [reflexivity | congruence].
Qed.

Lemma draw_random_nil bound n :
  Env.random n = [] -> Env.random (snd (Env.draw bound n)) = [].
Proof. unfold Env.draw. intros H. rewrite H. exact H. Qed.

Lemma enhanceContent_random original data n m :
  Env.random n = Env.random m ->
  fst (enhanceContent original data n) = fst (enhanceContent original data m)
  /\ Env.random (snd (enhanceContent original data n))
     = Env.random (snd (enhanceContent original data m)).
Proof.
  intros H. unfold enhanceContent.
  destruct original as [original|]; [|now split].
  destruct (trim original); [now split|].
  destruct (String.length (cleanContent original) <? 50); [|now split].
  unfold expandShortContent.
  destruct (50 <=? String.length (cleanContent original)); [now split|].
  destruct (draw_random (List.length expansions) n m H) as [H1 H2].
  destruct (Env.draw (List.length expansions) n) as [k n1].
  destruct (Env.draw (List.length expansions) m) as [k' m1].
  cbn [fst snd] in *. subst k'. now split.
Qed.

Lemma transformRedditPost_random data n m :
  Env.random n = Env.random m ->
  fst (transformRedditPost data n) = fst (transformRedditPost data m)
  /\ Env.random (snd (transformRedditPost data n))
     = Env.random (snd (transformRedditPost data m)).
Proof.
  intros H. unfold transformRedditPost.
  destruct (enhanceContent_random (orElse (Raw.selftext data) (Raw.title data))
                                  data n m H) as [H1 H2].
  destruct (enhanceContent _ data n) as [c1 n1].
  destruct (enhanceContent _ data m) as [c2 m1].
  cbn [fst snd] in *. subst c2. now split.
Qed.

Lemma processChildren_random opts children :
  forall acc reached n m,
    Env.random n = Env.random m ->
    fst (processChildren opts children acc reached n)
    = fst (processChildren opts children acc reached m)
    /\ Env.random (snd (processChildren opts children acc reached n))
       = Env.random (snd (processChildren opts children acc reached m)).
Proof.
  induction children as [|[data|] children IH]; intros acc reached n m H;
    cbn [processChildren]; try (now split); try (now apply IH).
  destruct (excludeStickied opts && Raw.stickied data); [now apply IH|].
  destruct (atOrBeforeMin (minCreatedUtc opts) data); [now apply IH|].
  destruct (transformRedditPost_random data n m H) as [H1 H2].
  destruct (transformRedditPost data n) as [p1 n1].
  destruct (transformRedditPost data m) as [p2 m1].
  cbn [fst snd] in *. subst p2.
  destruct (limit opts <=? _)%Z; [now split | now apply IH].
Qed.

(** What a fetch returns, and what it leaves of the upstream script,
    depends on its surroundings through the random draws only. *)
Lemma fetchLoop_random subreddit opts :
  forall u acc nextAfter reached n m,
    Env.random n = Env.random m ->
    fst (fetchLoop subreddit opts u acc nextAfter reached n)
    = fst (fetchLoop subreddit opts u acc nextAfter reached m)
    /\ Env.random (snd (fetchLoop subreddit opts u acc nextAfter reached n))
       = Env.random (snd (fetchLoop subreddit opts u acc nextAfter reached m)).
Proof.
  intros u. induction u as [|r u IH]; intros acc nextAfter reached n m H;
    rewrite !fetchLoop_eq;
    destruct ((Z.of_nat (List.length acc) <? limit opts)%Z && negb reached);
    try (split; [reflexivity | exact H]); cbv zeta.
  destruct r as [listing | status message].
  - destruct (Http.children listing) as [|child children]; [now split|].
    match goal with
      |- context [processChildren opts ?cs acc reached (Env.log ?e n)] =>
        destruct (processChildren_random opts cs acc reached (Env.log e n) (Env.log e m) H)
          as [H1 H2];
        destruct (processChildren opts cs acc reached (Env.log e n)) as [[a1 r1] n1];
        destruct (processChildren opts cs acc reached (Env.log e m)) as [[a2 r2] m1]
    end.
    cbn [fst snd] in *. injection H1 as -> ->.
    destruct (truthy (Http.after listing)); [|now split].
    apply IH. exact H2.
  - destruct (isRateLimited status); [|now split].
    apply IH. exact H.
Qed.

(** X6. Rate limiting before the first page loses nothing: when the
    upstream answers 429 any number of times before the first page, a
    fetch with a positive limit returns what it returns without them and
    leaves the same replies unread. *)
Theorem fetchRedditPosts_429_before_first_page subreddit opts after prefix u n :
  forallb Props.is429 prefix = true ->
  (0 < limit opts)%Z ->
  fst (fetchRedditPosts subreddit opts after (prefix ++ u) n)
  = fst (fetchRedditPosts subreddit opts after u n).
Proof.
  intros Hp Hlimit. unfold fetchRedditPosts. revert n.
  induction prefix as [|r prefix IH]; intros n; [reflexivity|].
  cbn [forallb] in Hp. apply andb_true_iff in Hp. destruct Hp as [Hr Hp].
  destruct r as [listing | status message]; [discriminate|].
  cbn [Props.is429] in Hr. cbn [app].
  rewrite fetchLoop_eq. cbn [List.length]. 
  replace (Z.of_nat 0 <? limit opts)%Z with true by (symmetry; apply Z.ltb_lt; lia).
  cbn [andb negb]. cbv zeta. rewrite Hr.
  rewrite (IH Hp).
  apply fetchLoop_random. reflexivity.
Qed.

Lemma fetchRedditPosts_429_before_first_page_witness :
  fst (fetchRedditPosts "startups" Examples.fetch50 None
         ([ Http.Rejected (Some 429%Z) "Too Many Requests";
            Http.Rejected (Some 429%Z) "Too Many Requests" ] ++ Examples.scriptQuiet)
         Examples.env0)
  = fst (fetchRedditPosts "startups" Examples.fetch50 None Examples.scriptQuiet
                          Examples.env0).
Proof.
  apply fetchRedditPosts_429_before_first_page; [reflexivity | reflexivity].
Defined.

(** X7. Failures of a scrape. A source URL without a subreddit fails
    before any request is made; a rejection of the first request with a
    status other than 429 surfaces at once, one reply consumed; and every
    failure of [scrapeContent] carries the prefix of the scraper. *)
Theorem scrapeContent_failures config u n :
  (extractSubreddit (sourceUrl config) = None ->
   scrapeContent config u n
   = (Throw "Reddit scraping failed: Invalid Reddit URL - could not extract subreddit"%string,
      u, n))
  /\ (forall status cause rest,
        extractSubreddit (sourceUrl config) <> None ->
        (0 < maxPosts config)%Z ->
        isRateLimited status = false ->
        u = Http.Rejected status cause :: rest ->
        fst (scrapeContent config u n)
        = (Throw ("Reddit scraping failed: " ++ cause)%string, rest))
  /\ (forall message,
        fst (fst (scrapeContent config u n)) = Throw message ->
        exists cause, message = ("Reddit scraping failed: " ++ cause)%string).
Proof.
  unfold scrapeContent. split; [|split].
  - intros ->. reflexivity.
  - intros status cause rest Hsub Hpos Hrl ->.
    destruct (extractSubreddit (sourceUrl config)) as [subreddit|]; [|congruence].
    unfold fetchRedditPosts. rewrite fetchLoop_eq. cbn [List.length limit].
    replace (Z.of_nat 0 <? maxPosts config)%Z with true by (symmetry; apply Z.ltb_lt; lia).
    cbn [andb negb]. cbv zeta. rewrite Hrl. reflexivity.
  - intros message.
    destruct (extractSubreddit (sourceUrl config)) as [subreddit|].
    + destruct (fetchRedditPosts subreddit _ None u n) as [[[page|cause] u'] n'];
        cbn [fst]; [discriminate|].
      intros [= <-]. now exists cause.
    + cbn [fst]. intros [= <-]. now eexists.
Qed.

Lemma scrapeContent_failures_witness :
  fst (scrapeContent Examples.configMarketing
         [Http.Rejected (Some 503%Z) "Request failed with status code 503"]
         Examples.env0)
  = (Throw "Reddit scraping failed: Request failed with status code 503"%string, []).
Proof.
  apply (proj1 (proj2 (scrapeContent_failures Examples.configMarketing
                         [Http.Rejected (Some 503%Z) "Request failed with status code 503"]
                         Examples.env0))
               (Some 503%Z) "Request failed with status code 503"%string []);
    [discriminate | reflexivity | reflexivity | reflexivity].
Defined.

End FetchRandom.

(* ================================================================== *)
(** * Further properties of ScraperManager.js *)
(* ================================================================== *)

(** ** Uniqueness of the two keys *)

Section Uniqueness.
Import ScraperManager.
Local Open Scope list_scope.

Lemma postExists_false db platform originalId sourceUrl :
  postExists db platform originalId sourceUrl = false ->
  ~ In sourceUrl (map Post.sourceUrl db)
  /\ ~ In (platform, originalId) (map Props.key db).
Proof.
  unfold postExists. intros H. rewrite existsb_false in H. split.
  - intros Hin. apply in_map_iff in Hin. destruct Hin as (p & Hp & Hin).
    specialize (H p Hin). unfold matchesPost in H.
    rewrite Hp, String.eqb_refl, orb_true_r in H. discriminate.
  - intros Hin. apply in_map_iff in Hin. destruct Hin as (p & Hp & Hin).
    specialize (H p Hin). unfold matchesPost in H. unfold Props.key in Hp.
    injection Hp as Hp1 Hp2. rewrite Hp1, Hp2, !String.eqb_refl in H. discriminate.
Qed.

Lemma Unique_snoc db p :
  Props.Unique db ->
  ~ In (Post.sourceUrl p) (map Post.sourceUrl db) ->
  ~ In (Props.key p) (map Props.key db) ->
  Props.Unique (db ++ [p]).
Proof.
  intros [H1 H2] Hu Hk. unfold Props.Unique. rewrite !map_app. cbn [map]. split.
  - apply NoDup_app; [exact H1 | repeat constructor; intros [] |].
    intros a Ha [<- | []]. contradiction.
  - apply NoDup_app; [exact H2 | repeat constructor; intros [] |].
    intros a Ha [<- | []]. contradiction.
Qed.

Lemma createFromScraped_unique calc pc community platform platformUsers w r content :
  Props.Unique (World.posts w) ->
  Props.Unique (World.posts (fst (createFromScraped calc pc community platform
                                    platformUsers (w, r) content))).
Proof.
  intros HU. unfold createFromScraped.
  destruct (postExists (World.posts w) platform (Item.id content) (Item.url content))
    eqn:He; [exact HU|].
  destruct (Qltb (calc content) _); [exact HU|].
  destruct (Env.draw (List.length platformUsers) (World.env w)) as [k e1].
  destruct (Env.draw 11 e1) as [l e2].
  destruct (nth_error platformUsers k) as [randomUser|]; [|exact HU].
  match goal with |- context [createPost ?d ?db] => destruct (createPost d db) as [db'|] eqn:Hc end;
    [|exact HU].
  apply createPost_Some in Hc. subst db'. cbn [fst World.posts World.withPosts].
  destruct (postExists_false _ _ _ _ He) as [Hu Hk].
  apply Unique_snoc; [exact HU | exact Hu | exact Hk].
Qed.

Lemma createFromAuthentic_unique pac community platform users w r content :
  Props.Unique (World.posts w) ->
  Props.Unique (World.posts (fst (createFromAuthentic pac community platform
                                    users (w, r) content))).
Proof.
  intros HU. unfold createFromAuthentic.
  destruct (postExists (World.posts w) platform _ _) eqn:He; [exact HU|].
  destruct (Env.draw (List.length users) (World.env w)) as [k e1].
  destruct (Env.draw 11 e1) as [l e2].
  destruct (nth_error users k) as [randomUser|]; [|exact HU].
  match goal with |- context [createPost ?d ?db] => destruct (createPost d db) as [db'|] eqn:Hc end;
    [|exact HU].
  apply createPost_Some in Hc. subst db'. cbn [fst World.posts World.withPosts].
  destruct (postExists_false _ _ _ _ He) as [Hu Hk].
  apply Unique_snoc; [exact HU | exact Hu | exact Hk].
Qed.

Lemma fold_keeps {A S : Type} (I : list Post.t -> Prop)
    (posts : S -> list Post.t) (step : S -> A -> S) :
  (forall st a, I (posts st) -> I (posts (step st a))) ->
  forall l st, I (posts st) -> I (posts (fold_left step l st)).
Proof.
  intros Hstep l. induction l as [|a l IH]; intros st H; cbn [fold_left]; [exact H|].
  apply IH. now apply Hstep.
Qed.

Lemma enrich_posts created platform w :
  World.posts (enrich created platform w) = World.posts w.
Proof.
  destruct (enrich_adds created platform w) as (H & _). now rewrite H, app_nil_r.
Qed.

Lemma stageOf_unique calc pc pac va mode :
  Props.StageKeeps Props.Unique (Spec.stageOf calc pc pac va mode).
Proof.
  intros community platformConfig platformUsers w HU.
  destruct mode as [| |n]; cbn [Spec.stageOf];
    unfold bulkStage, singlePostStage, authenticStage;
    match goal with |- context [RedditScraper.scrapeContent ?c ?u ?e] =>
      destruct (RedditScraper.scrapeContent c u e) as [[[scraped|message] u'] e'] end;
    try exact HU.
  - match goal with |- context [createPostsFromScrapedContent calc pc ?items ?c ?pl ?us ?w1] =>
      pose proof (fold_keeps Props.Unique (fun st : World.t * Creation => World.posts (fst st))
                    (createFromScraped calc pc c pl us)
                    (fun st a => match st with (w0, r0) =>
                                   createFromScraped_unique calc pc c pl us w0 r0 a end)
                    items (w1, noCreation) HU) as H;
      fold (createPostsFromScrapedContent calc pc items c pl us w1) in H;
      destruct (createPostsFromScrapedContent calc pc items c pl us w1) as [w2 cr]
    end.
    cbn [snd fst] in *. now rewrite enrich_posts.
  - match goal with |- context [createPostsFromScrapedContent calc pc ?items ?c ?pl ?us ?w1] =>
      pose proof (fold_keeps Props.Unique (fun st : World.t * Creation => World.posts (fst st))
                    (createFromScraped calc pc c pl us)
                    (fun st a => match st with (w0, r0) =>
                                   createFromScraped_unique calc pc c pl us w0 r0 a end)
                    items (w1, noCreation) HU) as H;
      fold (createPostsFromScrapedContent calc pc items c pl us w1) in H;
      destruct (createPostsFromScrapedContent calc pc items c pl us w1) as [w2 cr]
    end.
    cbn [snd fst] in *. now rewrite enrich_posts.
  - match goal with |- context [createPostsFromAuthenticContent pac ?items ?c ?pl ?us ?w1] =>
      pose proof (fold_keeps Props.Unique (fun st : World.t * Creation => World.posts (fst st))
                    (createFromAuthentic pac c pl us)
                    (fun st a => match st with (w0, r0) =>
                                   createFromAuthentic_unique pac c pl us w0 r0 a end)
                    items (w1, noCreation) HU) as H;
      fold (createPostsFromAuthenticContent pac items c pl us w1) in H;
      destruct (createPostsFromAuthenticContent pac items c pl us w1) as [w2 cr]
    end.
    cbn [snd fst] in *. now rewrite enrich_posts.
Qed.

Lemma communityRun_keeps (I : list Post.t -> Prop) stage communityId w :
  Props.StageKeeps I stage ->
  I (World.posts w) ->
  I (World.posts (snd (communityRun stage communityId w))).
Proof.
  intros Hstage HI. unfold communityRun.
  destruct (findById (World.communities w) communityId) as [community|]; [|exact HI].
  destruct (filter isPlatformUser (World.users w)) as [|u0 us]; [exact HI|].
  assert (Hstep : forall (st : World.t * nat * list PlatformResult) cfg,
             I (World.posts (fst (fst st))) ->
             I (World.posts (fst (fst (platformStep stage community (u0 :: us) st cfg))))).
  { intros [[w0 t0] r0] cfg HI0. unfold platformStep. cbn [fst] in HI0.
    destruct (negb (PlatformConfig.isActive cfg)); [exact HI0|].
    destruct (negb (String.eqb (PlatformConfig.platform cfg) "reddit")); [exact HI0|].
    specialize (Hstage community cfg (u0 :: us) w0 HI0).
    destruct (stage community cfg (u0 :: us) w0) as [[c|message] w1]; exact Hstage. }
  pose proof (fold_keeps I
                (fun st : World.t * nat * list PlatformResult => World.posts (fst (fst st)))
                (platformStep stage community (u0 :: us)) Hstep
                (Community.scrapingPlatforms community) (w, 0, []) HI) as H.
  destruct (fold_left _ _ _) as [[w1 total] results]. exact H.
Qed.

Lemma sweep_keeps (I : list Post.t -> Prop) run w :
  (forall communityId w0, I (World.posts w0) -> I (World.posts (snd (run communityId w0)))) ->
  I (World.posts w) ->
  I (World.posts (snd (sweep run w))).
Proof.
  intros Hrun HI. unfold sweep.
  destruct (World.communityListError w); [exact HI|].
  assert (Hstep : forall (st : World.t * RunResult) c,
             I (World.posts (fst st)) -> I (World.posts (fst (sweepStep run st c)))).
  { intros [w0 r0] c HI0. cbn [sweepStep fst] in *.
    specialize (Hrun (Community._id c) w0 HI0).
    destruct (run (Community._id c) w0) as [[cr|message] w1]; exact Hrun. }
  pose proof (fold_keeps I (fun st : World.t * RunResult => World.posts (fst st))
                (sweepStep run) Hstep
                (filter isActiveCommunity (World.communities w))
                (w, mkRunResult (List.length (filter isActiveCommunity (World.communities w)))
                                0 0 0 []) HI) as H.
  destruct (fold_left _ _ _) as [w1 r1]. exact H.
Qed.

(** X8. Uniqueness of the two keys. If no two records of the corpus
    share a source URL and no two share platform and original id, the
    same holds after a community run in any mode and after either sweep,
    whatever the upstream lists. *)
Theorem runs_keep_keys_unique calc pc pac va mode communityId trickle w :
  Props.Unique (World.posts w) ->
  Props.Unique (World.posts (snd (Spec.runMode calc pc pac va mode communityId w)))
  /\ Props.Unique (World.posts (snd (Spec.sweepOf calc pc trickle w))).
Proof.
  intros HU. split.
  - rewrite runMode_communityRun.
    apply communityRun_keeps; [apply stageOf_unique | exact HU].
  - assert (E : Spec.sweepOf calc pc trickle w = sweep (Spec.flowOf calc pc trickle) w)
      by (destruct trickle; reflexivity).
    rewrite E. apply sweep_keeps; [|exact HU].
    intros id w0 H0. destruct trickle; cbn [Spec.flowOf].
    + apply (communityRun_keeps _ (singlePostStage calc pc)); [|exact H0].
      exact (stageOf_unique calc pc pac va Spec.SinglePost).
    + apply (communityRun_keeps _ (bulkStage calc pc)); [|exact H0].
      exact (stageOf_unique calc pc pac va Spec.Bulk).
Qed.

End Uniqueness.

(** ** Creation, once more *)

Section CreationAgain.
Import ScraperManager.
Local Open Scope list_scope.

Lemma runs_keep_keys_unique_witness :
  map Post.originalId (World.posts Cases.worldAgain) = ["a1"; "b2"]%string
  /\ map Post.originalId
       (World.posts (snd (Spec.runMode Examples.scoreHigh Examples.plainProcess
                            Examples.plainProcessAuthentic Examples.alwaysAuthentic
                            Spec.Bulk "c1" Cases.worldAgain)))
     = ["a1"; "b2"; "h0"]%string
  /\ Props.Unique
       (World.posts (snd (Spec.runMode Examples.scoreHigh Examples.plainProcess
                            Examples.plainProcessAuthentic Examples.alwaysAuthentic
                            Spec.Bulk "c1" Cases.worldAgain)))
  /\ Props.Unique
       (World.posts (snd (Spec.sweepOf Examples.scoreHigh Examples.plainProcess false
                                       Cases.worldAgain))).
Proof.
  split; [vm_compute; reflexivity|]. split; [vm_compute; reflexivity|].
  apply runs_keep_keys_unique.
  split; vm_compute; repeat constructor; cbn; intuition discriminate.
Defined.

Lemma postExists_app db l platform originalId sourceUrl :
  postExists db platform originalId sourceUrl = true ->
  postExists (db ++ l) platform originalId sourceUrl = true.
Proof.
  unfold postExists. rewrite existsb_app. intros ->. reflexivity.
Qed.

Lemma settled_app calc pc community platform db l c :
  Props.settled calc pc community platform db c ->
  Props.settled calc pc community platform (db ++ l) c.
Proof.
  intros [H | [H | H]]; [left; now apply postExists_app | right; now left | right; now right].
Qed.

(** An item for which nothing is left to do changes neither the corpus
    nor the count of created posts. *)
Lemma createFromScraped_settled calc pc community platform platformUsers w r c :
  Props.settled calc pc community platform (World.posts w) c ->
  World.posts (fst (createFromScraped calc pc community platform platformUsers (w, r) c))
  = World.posts w
  /\ postsCreated (snd (createFromScraped calc pc community platform platformUsers (w, r) c))
     = postsCreated r.
Proof.
  intros Hs. unfold createFromScraped.
  destruct (postExists (World.posts w) platform (Item.id c) (Item.url c)) eqn:He;
    [now split|].
  destruct (Qltb (calc c) _) eqn:Hq; [now split|].
  destruct Hs as [Hs | [Hs | Hs]]; try congruence.
  destruct (Env.draw (List.length platformUsers) (World.env w)) as [k e1].
  destruct (Env.draw 11 e1) as [l e2].
  destruct (nth_error platformUsers k) as [randomUser|]; [|now split].
  match goal with |- context [createPost ?d ?db] =>
    assert (Hc : createPost d db = None)
  end.
  { unfold createPost. unfold Props.validatesItem in Hs.
    match goal with |- context [validates ?p] =>
      replace (validates p) with false by (symmetry; exact Hs)
    end. reflexivity. }
  rewrite Hc. now split.
Qed.

Lemma draw_user_Some (users : list User.t) e :
  users <> [] ->
  exists randomUser,
    nth_error users (fst (Env.draw (List.length users) e)) = Some randomUser
    /\ In randomUser users.
Proof.
  intros H.
  assert (Hk : fst (Env.draw (List.length users) e) < List.length users).
  { apply draw_bound. destruct users; [congruence | cbn; lia]. }
  destruct (nth_error users (fst (Env.draw (List.length users) e))) as [u|] eqn:E.
  - exists u. split; [reflexivity | now apply nth_error_In in E].
  - apply nth_error_None in E. lia.
Qed.

(** With no user to own the posts, an iteration creates nothing. *)
Lemma createFromScraped_no_users calc pc community platform w r c :
  World.posts (fst (createFromScraped calc pc community platform [] (w, r) c))
  = World.posts w
  /\ postsCreated (snd (createFromScraped calc pc community platform [] (w, r) c))
     = postsCreated r.
Proof.
  unfold createFromScraped.
  destruct (postExists (World.posts w) platform (Item.id c) (Item.url c)); [now split|].
  destruct (Qltb (calc c) _); [now split|].
  destruct (Env.draw (List.length (@nil User.t)) (World.env w)) as [k e1].
  destruct (Env.draw 11 e1) as [l e2].
  destruct k; now split.
Qed.

Lemma createLoop_no_users calc pc community platform :
  forall items w r,
    World.posts (fst (fold_left (createFromScraped calc pc community platform [])
                                items (w, r)))
    = World.posts w
    /\ postsCreated (snd (fold_left (createFromScraped calc pc community platform [])
                                    items (w, r)))
       = postsCreated r.
Proof.
  induction items as [|c items IH]; intros w r; [now split|].
  cbn [fold_left].
  destruct (createFromScraped_no_users calc pc community platform w r c) as [H1 H2].
  destruct (createFromScraped calc pc community platform [] (w, r) c) as [w1 r1].
  cbn [fst snd] in *. destruct (IH w1 r1) as [H3 H4]. split; congruence.
Qed.

(** After its iteration, nothing is left to do for the item (when there
    is a user to own the post). *)
Lemma createFromScraped_settles calc pc community platform platformUsers w r c :
  platformUsers <> [] ->
  Props.settled calc pc community platform
    (World.posts (fst (createFromScraped calc pc community platform platformUsers (w, r) c)))
    c.
Proof.
  intros Hu. unfold createFromScraped.
  destruct (postExists (World.posts w) platform (Item.id c) (Item.url c)) eqn:He;
    [now left|].
  destruct (Qltb (calc c) _) eqn:Hq; [right; now left|].
  destruct (draw_user_Some platformUsers (World.env w) Hu) as (randomUser & Hn & _).
  destruct (Env.draw (List.length platformUsers) (World.env w)) as [k e1].
  cbn [fst] in Hn.
  destruct (Env.draw 11 e1) as [l e2]. rewrite Hn.
  match goal with |- context [createPost ?d ?db] =>
    destruct (createPost d db) as [db'|] eqn:Hc
  end.
  - apply createPost_Some in Hc. subst db'. left.
    cbn [fst World.posts World.withPosts]. unfold postExists.
    rewrite existsb_app. cbn [existsb]. unfold matchesPost at 2. cbn.
    rewrite !String.eqb_refl. cbn. now rewrite orb_true_r.
  - cbn [fst World.posts World.withEnv World.withNet].
    unfold createPost in Hc.
    match type of Hc with
      (if validates ?p && negb (existsb ?f ?db) then _ else _) = None =>
        destruct (validates p) eqn:Hv; [|right; right; exact Hv];
        destruct (existsb f db) eqn:Hx; [|discriminate]
    end.
    exfalso. apply existsb_exists in Hx. destruct Hx as (q & Hq1 & Hq2).
    unfold postExists in He. rewrite existsb_false in He. specialize (He q Hq1).
    unfold matchesPost in He. cbn in Hq2. apply String.eqb_eq in Hq2.
    rewrite Hq2, String.eqb_refl, orb_true_r in He. discriminate.
Qed.

Lemma createLoop_settles calc pc community platform platformUsers :
  platformUsers <> [] ->
  forall items w r,
    Forall (Props.settled calc pc community platform
              (World.posts (fst (fold_left (createFromScraped calc pc community platform
                                              platformUsers) items (w, r)))))
           items.
Proof.
  intros Hu. induction items as [|c items IH]; intros w r; [constructor|].
  cbn [fold_left].
  pose proof (createFromScraped_settles calc pc community platform platformUsers w r c Hu)
    as Hc.
  destruct (createFromScraped calc pc community platform platformUsers (w, r) c)
    as [w1 r1]. cbn [fst] in Hc.
  constructor; [|apply IH].
  destruct (fold_adds (createFromScraped calc pc community platform platformUsers)
              (fun content p => Spec.fromItem platform content p
                                /\ Spec.passesGate (1 # 2) community p)
              (fun w r a => createFromScraped_adds calc pc community platform
                              platformUsers w r a)
              items w1 r1) as (created & (Hp & _) & _).
  rewrite Hp. now apply settled_app.
Qed.

Lemma createLoop_settled calc pc community platform platformUsers :
  forall items w r,
    Forall (Props.settled calc pc community platform (World.posts w)) items ->
    World.posts (fst (fold_left (createFromScraped calc pc community platform
                                   platformUsers) items (w, r)))
    = World.posts w
    /\ postsCreated (snd (fold_left (createFromScraped calc pc community platform
                                       platformUsers) items (w, r)))
       = postsCreated r.
Proof.
  induction items as [|c items IH]; intros w r H; [now split|].
  cbn [fold_left]. inversion H as [|? ? Hc Hrest]; subst.
  destruct (createFromScraped_settled calc pc community platform platformUsers w r c Hc)
    as [H1 H2].
  destruct (createFromScraped calc pc community platform platformUsers (w, r) c)
    as [w1 r1]. cbn [fst snd] in *.
  rewrite <- H1 in Hrest. destruct (IH w1 r1 Hrest) as [H3 H4].
  split; congruence.
Qed.

(** X9. Creating twice creates once: after [createPostsFromScrapedContent]
    has gone through a list of items, going through the same list again,
    in a world with the corpus it left (whatever the clock and the random
    draws), creates no post and leaves the corpus as it is. *)
Theorem createPostsFromScrapedContent_twice calc pc items community platform
    platformUsers w w2 :
  World.posts w2
  = World.posts (fst (createPostsFromScrapedContent calc pc items community platform
                        platformUsers w)) ->
  World.posts (fst (createPostsFromScrapedContent calc pc items community platform
                      platformUsers w2))
  = World.posts w2
  /\ postsCreated (snd (createPostsFromScrapedContent calc pc items community platform
                          platformUsers w2))
     = 0.
Proof.
  intros Hw2. unfold createPostsFromScrapedContent in *.
  destruct platformUsers as [|u0 us].
  - apply (createLoop_no_users calc pc community platform items w2 noCreation).
  - apply (createLoop_settled calc pc community platform (u0 :: us) items w2 noCreation).
    rewrite Hw2. apply createLoop_settles. discriminate.
Qed.

Lemma createPostsFromScrapedContent_twice_witness :
  World.posts
    (fst (createPostsFromScrapedContent Examples.scoreHigh Examples.plainProcess
            Examples.keptMarketing Examples.founders "reddit" Examples.users1
            (fst (createPostsFromScrapedContent Examples.scoreHigh Examples.plainProcess
                    Examples.keptMarketing Examples.founders "reddit" Examples.users1
                    Examples.worldMixed))))
  = World.posts
      (fst (createPostsFromScrapedContent Examples.scoreHigh Examples.plainProcess
              Examples.keptMarketing Examples.founders "reddit" Examples.users1
              Examples.worldMixed))
  /\ List.length
       (World.posts
          (fst (createPostsFromScrapedContent Examples.scoreHigh Examples.plainProcess
                  Examples.keptMarketing Examples.founders "reddit" Examples.users1
                  Examples.worldMixed)))
     = 1.
Proof.
  split; [|vm_compute; reflexivity].
  apply (createPostsFromScrapedContent_twice Examples.scoreHigh Examples.plainProcess
           Examples.keptMarketing Examples.founders "reddit" Examples.users1
           Examples.worldMixed). reflexivity.
Defined.

End CreationAgain.

(** ** Counters and seeded fields of the creation loops *)

Section Counters.
Import ScraperManager.
Local Open Scope list_scope.

Lemma hasRecord_app_l db l platform originalId :
  Props.hasRecord db platform originalId = true ->
  Props.hasRecord (db ++ l) platform originalId = true.
Proof. unfold Props.hasRecord. rewrite existsb_app. now intros ->. Qed.

Lemma hasRecord_snoc db p :
  Props.hasRecord (db ++ [p]) (Post.platform p) (Post.originalId p) = true.
Proof.
  unfold Props.hasRecord. rewrite existsb_app. cbn [existsb].
  rewrite !String.eqb_refl. cbn. now rewrite orb_true_r.
Qed.

Lemma countsFor_step platform seen w r w' r' c :
  Props.countsFor platform seen (w, r) ->
  (World.posts w' = World.posts w
   /\ (r' = r \/ r' = countExisting r \/ r' = countLowQuality r))
  \/ (exists p, World.posts w' = World.posts w ++ [p]
                /\ Post.platform p = platform /\ Post.originalId p = Item.id c
                /\ r' = countCreated c r) ->
  Props.countsFor platform (seen ++ [c]) (w', r').
Proof.
  unfold Props.countsFor, Props.accounted. cbn [fst snd].
  intros (H1 & H2 & H3 & H4) [[Hp Hr] | (p & Hp & Hpl & Hid & ->)].
  - rewrite Hp, length_app. cbn [List.length].
    assert (Hincl : incl (createdItems r) (seen ++ [c]))
      by (intros x Hx; apply in_or_app; left; now apply H3).
    destruct Hr as [-> | [-> | ->]]; cbn; repeat split; try assumption; lia.
  - rewrite Hp, length_app. cbn [List.length countCreated postsCreated createdItems
                                   skippedExisting skippedLowQuality].
    rewrite length_app. cbn [List.length]. repeat split; try lia.
    + intros x Hx. apply in_app_or in Hx. apply in_or_app.
      destruct Hx as [Hx | Hx]; [left; now apply H3 | now right].
    + apply Forall_app. split.
      * eapply Forall_impl; [|exact H4]. intros a Ha. now apply hasRecord_app_l.
      * constructor; [|constructor]. rewrite <- Hpl, <- Hid. apply hasRecord_snoc.
Qed.

Lemma createFromScraped_counts calc pc community platform platformUsers seen w r c :
  Props.countsFor platform seen (w, r) ->
  Props.countsFor platform (seen ++ [c])
            (createFromScraped calc pc community platform platformUsers (w, r) c).
Proof.
  intros H. unfold createFromScraped.
  destruct (postExists (World.posts w) platform (Item.id c) (Item.url c)).
  { eapply countsFor_step; [exact H|]. left. split; [reflexivity | tauto]. }
  destruct (Qltb (calc c) _).
  { eapply countsFor_step; [exact H|]. left. split; [reflexivity | tauto]. }
  destruct (Env.draw (List.length platformUsers) (World.env w)) as [k e1].
  destruct (Env.draw 11 e1) as [l e2].
  destruct (nth_error _ k) as [randomUser|];
    [|eapply countsFor_step; [exact H|]; left; split; [reflexivity | tauto]].
  match goal with |- context [createPost ?d ?db] =>
    destruct (createPost d db) as [db'|] eqn:Hc
  end.
  - apply createPost_Some in Hc. subst db'.
    eapply countsFor_step; [exact H|]. right. eexists. split; [reflexivity|].
    cbn. tauto.
  - eapply countsFor_step; [exact H|]. left. split; [reflexivity | tauto].
Qed.

Lemma createFromAuthentic_counts pac community platform users seen w r a :
  Props.countsFor platform seen (w, r) ->
  Props.countsFor platform (seen ++ [item a])
            (createFromAuthentic pac community platform users (w, r) a).
Proof.
  intros H. unfold createFromAuthentic.
  destruct (postExists (World.posts w) platform _ _).
  { eapply countsFor_step; [exact H|]. left. split; [reflexivity | tauto]. }
  destruct (Env.draw (List.length users) (World.env w)) as [k e1].
  destruct (Env.draw 11 e1) as [l e2].
  destruct (nth_error _ k) as [randomUser|];
    [|eapply countsFor_step; [exact H|]; left; split; [reflexivity | tauto]].
  match goal with |- context [createPost ?d ?db] =>
    destruct (createPost d db) as [db'|] eqn:Hc
  end.
  - apply createPost_Some in Hc. subst db'.
    eapply countsFor_step; [exact H|]. right. eexists. split; [reflexivity|].
    cbn. tauto.
  - eapply countsFor_step; [exact H|]. left. split; [reflexivity | tauto].
Qed.

Lemma fold_counts {A : Type} platform (proj : A -> Item.t)
    (step : World.t * Creation -> A -> World.t * Creation) :
  (forall seen w r a,
     Props.countsFor platform seen (w, r) -> Props.countsFor platform (seen ++ [proj a]) (step (w, r) a)) ->
  forall l seen st,
    Props.countsFor platform seen st ->
    Props.countsFor platform (seen ++ map proj l) (fold_left step l st).
Proof.
  intros Hstep l. induction l as [|a l IH]; intros seen [w r] H; cbn [fold_left map].
  - now rewrite app_nil_r.
  - replace (seen ++ proj a :: map proj l) with ((seen ++ [proj a]) ++ map proj l)
      by (rewrite <- app_assoc; reflexivity).
    apply IH. now apply Hstep.
Qed.

Lemma countsFor_start platform w : Props.countsFor platform [] (w, noCreation).
Proof.
  unfold Props.countsFor, Props.accounted. cbn. repeat split; try lia; try constructor.
  intros x [].
Qed.

Lemma createPostsFromScrapedContent_counts calc pc items community platform platformUsers w :
  Props.countsFor platform items
            (createPostsFromScrapedContent calc pc items community platform platformUsers w).
Proof.
  unfold createPostsFromScrapedContent.
  pose proof (fold_counts platform (fun c : Item.t => c)
                (createFromScraped calc pc community platform platformUsers)
                (fun seen w r a => createFromScraped_counts calc pc community platform
                                     platformUsers seen w r a)
                items [] (w, noCreation) (countsFor_start platform w)) as H.
  now rewrite map_id in H.
Qed.

Lemma createPostsFromAuthenticContent_counts pac items community platform users w :
  Props.countsFor platform (map item items)
            (createPostsFromAuthenticContent pac items community platform users w).
Proof.
  unfold createPostsFromAuthenticContent.
  exact (fold_counts platform item
           (createFromAuthentic pac community platform users)
           (fun seen w r a => createFromAuthentic_counts pac community platform
                                users seen w r a)
           items [] (w, noCreation) (countsFor_start platform w)).
Qed.

(** X10. What the two creation loops report. The count of created posts
    is the number of created items; created, skipped-existing and
    skipped-low-quality together never exceed the number of items given
    (an item the store refuses is in none of them); the created items are
    among the items given; and each of them has a record of its platform
    and id in the corpus, which is what the comment generation looks up. *)
Theorem creation_loops_account calc pc pac community platform users w :
  (forall items r w',
     createPostsFromScrapedContent calc pc items community platform users w = (w', r) ->
     postsCreated r = List.length (createdItems r)
     /\ Props.accounted r <= List.length items
     /\ incl (createdItems r) items
     /\ Forall (fun c => Props.hasRecord (World.posts w') platform (Item.id c) = true)
               (createdItems r))
  /\ (forall items r w',
        createPostsFromAuthenticContent pac items community platform users w = (w', r) ->
        postsCreated r = List.length (createdItems r)
        /\ Props.accounted r <= List.length items
        /\ incl (createdItems r) (map item items)
        /\ Forall (fun c => Props.hasRecord (World.posts w') platform (Item.id c) = true)
                  (createdItems r)).
Proof.
  split; intros items r w' H.
  - pose proof (createPostsFromScrapedContent_counts calc pc items community platform
                  users w) as C.
    rewrite H in C. exact C.
  - pose proof (createPostsFromAuthenticContent_counts pac items community platform
                  users w) as C.
    rewrite H in C. unfold Props.countsFor in C. rewrite length_map in C. exact C.
Qed.

Lemma creation_loops_account_witness :
  Props.accounted
    (snd (createPostsFromScrapedContent Examples.scoreHigh Examples.plainProcess
            Examples.keptMarketing Examples.founders "reddit" Examples.users1
            Examples.worldMixed))
  <= List.length Examples.keptMarketing.
Proof.
  destruct (createPostsFromScrapedContent Examples.scoreHigh Examples.plainProcess
              Examples.keptMarketing Examples.founders "reddit" Examples.users1
              Examples.worldMixed) as [w' r] eqn:E.
  exact (proj1 (proj2 (proj1 (creation_loops_account Examples.scoreHigh
                                Examples.plainProcess Examples.plainProcessAuthentic
                                Examples.founders "reddit" Examples.users1
                                Examples.worldMixed)
                              Examples.keptMarketing r w' E))).
Defined.

End Counters.

(** ** The fields of the records the manager creates *)

Section Seeded.
Import ScraperManager.
Local Open Scope list_scope.

Lemma draw_user (users : list User.t) k randomUser :
  nth_error users k = Some randomUser ->
  In (User._id randomUser) (map User._id users).
Proof. intros H. apply in_map. now apply nth_error_In in H. Qed.

Lemma draw_likes e :
  (5 <= Z.of_nat (fst (Env.draw 11 e)) + 5 <= 15)%Z.
Proof. pose proof (draw_bound 11 e ltac:(lia)). lia. Qed.

Lemma createFromScraped_seeded calc pc community platform users w r c :
  users <> [] ->
  exists created,
    Spec.added w (fst (createFromScraped calc pc community platform users (w, r) c)) created
    /\ Forall (Props.seeded community platform users) created
    /\ postsCreated (snd (createFromScraped calc pc community platform users (w, r) c))
       = postsCreated r + List.length created.
Proof.
  intros Hu. unfold createFromScraped.
  destruct (postExists (World.posts w) platform (Item.id c) (Item.url c)).
  { exists []. cbn. split; [apply added_refl|]. split; [constructor | lia]. }
  destruct (Qltb (calc c) _).
  { exists []. cbn. split; [apply added_refl|]. split; [constructor | lia]. }
  destruct (Env.draw (List.length users) (World.env w)) as [k e1].
  pose proof (draw_likes e1) as Hl.
  destruct (Env.draw 11 e1) as [l e2]. cbn [fst] in Hl.
  destruct (nth_error users k) as [randomUser|] eqn:Hn;
    [|exists []; cbn [fst snd]; split; [apply added_withEnv|];
      split; [constructor | cbn; lia]].
  pose proof (draw_user users k randomUser Hn) as Hk.
  match goal with |- context [createPost ?d ?db] =>
    destruct (createPost d db) as [db'|] eqn:Hc
  end.
  - apply createPost_Some in Hc. subst db'.
    eexists. cbn [fst snd]. split; [|split].
    + unfold Spec.added. cbn. split; [reflexivity | tauto].
    + constructor; [|constructor]. unfold Props.seeded. cbn. tauto.
    + cbn. lia.
  - exists []. cbn [fst snd]. split; [apply added_withEnv|].
    split; [constructor | cbn; lia].
Qed.

Lemma createFromAuthentic_seeded pac community platform users w r a :
  users <> [] ->
  exists created,
    Spec.added w (fst (createFromAuthentic pac community platform users (w, r) a)) created
    /\ Forall (Props.seeded community platform users) created
    /\ postsCreated (snd (createFromAuthentic pac community platform users (w, r) a))
       = postsCreated r + List.length created.
Proof.
  intros Hu. unfold createFromAuthentic.
  destruct (postExists (World.posts w) platform _ _).
  { exists []. cbn. split; [apply added_refl|]. split; [constructor | lia]. }
  destruct (Env.draw (List.length users) (World.env w)) as [k e1].
  pose proof (draw_likes e1) as Hl.
  destruct (Env.draw 11 e1) as [l e2]. cbn [fst] in Hl.
  destruct (nth_error users k) as [randomUser|] eqn:Hn;
    [|exists []; cbn [fst snd]; split; [apply added_withEnv|];
      split; [constructor | cbn; lia]].
  pose proof (draw_user users k randomUser Hn) as Hk.
  match goal with |- context [createPost ?d ?db] =>
    destruct (createPost d db) as [db'|] eqn:Hc
  end.
  - apply createPost_Some in Hc. subst db'.
    eexists. cbn [fst snd]. split; [|split].
    + unfold Spec.added. cbn. split; [reflexivity | tauto].
    + constructor; [|constructor]. unfold Props.seeded. cbn. tauto.
    + cbn. lia.
  - exists []. cbn [fst snd]. split; [apply added_withEnv|].
    split; [constructor | cbn; lia].
Qed.

(** X11. Every record the two creation loops append is seeded the same
    way, whatever the random draws: between 5 and 15 likes, status
    "active", the community's id, the platform of the source config, and
    an owner taken from the platform users given (which the callers make
    sure are not empty). *)
Theorem created_records_seeded calc pc pac community platform users w :
  users <> [] ->
  (forall items,
     exists created,
       World.posts (fst (createPostsFromScrapedContent calc pc items community
                           platform users w))
       = World.posts w ++ created
       /\ Forall (Props.seeded community platform users) created)
  /\ (forall items,
        exists created,
          World.posts (fst (createPostsFromAuthenticContent pac items community
                              platform users w))
          = World.posts w ++ created
          /\ Forall (Props.seeded community platform users) created).
Proof.
  intros Hu. split; intros items.
  - destruct (fold_adds (createFromScraped calc pc community platform users)
                (fun _ => Props.seeded community platform users)
                (fun w r a => createFromScraped_seeded calc pc community platform
                                users w r a Hu)
                items w noCreation) as (created & A & F & _).
    exists created. split; [exact (proj1 A)|].
    eapply Forall_impl; [|exact F]. now intros p (_ & _ & Hp).
  - destruct (fold_adds (createFromAuthentic pac community platform users)
                (fun _ => Props.seeded community platform users)
                (fun w r a => createFromAuthentic_seeded pac community platform
                                users w r a Hu)
                items w noCreation) as (created & A & F & _).
    exists created. split; [exact (proj1 A)|].
    eapply Forall_impl; [|exact F]. now intros p (_ & _ & Hp).
Qed.

Lemma created_records_seeded_witness :
  exists created,
    World.posts (fst (createPostsFromScrapedContent Examples.scoreHigh
                        Examples.plainProcess Examples.keptMarketing Examples.founders
                        "reddit" Examples.users1 Examples.worldMixed))
    = World.posts Examples.worldMixed ++ created
    /\ Forall (Props.seeded Examples.founders "reddit" Examples.users1) created.
Proof.
  apply (created_records_seeded Examples.scoreHigh Examples.plainProcess
           Examples.plainProcessAuthentic Examples.founders "reddit" Examples.users1
           Examples.worldMixed).
  discriminate.
Defined.

End Seeded.

(** ** Comment generation *)

Section CommentGeneration.
Import ScraperManager.
Local Open Scope list_scope.

Lemma forallb_app_true {A : Type} (f : A -> bool) l1 l2 :
  forallb f l1 = true -> forallb f l2 = true -> forallb f (l1 ++ l2) = true.
Proof. intros H1 H2. rewrite forallb_app, H1, H2. reflexivity. Qed.

Lemma generatedFor_app l1 l2 :
  Props.generatedFor (l1 ++ l2) = Props.generatedFor l1 ++ Props.generatedFor l2.
Proof.
  induction l1 as [|[| |] l1 IH]; cbn; [reflexivity | exact IH | exact IH |].
  now rewrite IH.
Qed.

Lemma delays_app l1 l2 :
  Props.delays (l1 ++ l2) = (Props.delays l1 + Props.delays l2)%Z.
Proof.
  induction l1 as [|[| |] l1 IH]; cbn; [reflexivity | exact IH | | exact IH].
  rewrite IH. lia.
Qed.

Lemma commented_refl w : Props.commented [] w w.
Proof.
  split; [apply added_refl|]. split; [reflexivity|]. exists []. cbn.
  rewrite app_nil_r. repeat split. lia.
Qed.

Lemma commented_trans s1 s2 w1 w2 w3 :
  Props.commented s1 w1 w2 -> Props.commented s2 w2 w3 -> Props.commented (s1 ++ s2) w1 w3.
Proof.
  intros (A1 & U1 & e1 & T1 & F1 & G1 & C1) (A2 & U2 & e2 & T2 & F2 & G2 & C2).
  split; [exact (added_nil_trans _ _ _ _ A1 A2)|]. split; [congruence|].
  exists (e1 ++ e2). rewrite T2, T1, app_assoc, generatedFor_app, delays_app, G1, G2, C2, C1.
  repeat split; [now apply forallb_app_true | lia].
Qed.

Lemma findPost_hasRecord db platform originalId :
  match findPost db platform originalId with
  | Some post => Props.hasRecord db platform originalId = true
                 /\ Post.originalId post = originalId
  | None => Props.hasRecord db platform originalId = false
  end.
Proof.
  unfold findPost, Props.hasRecord. induction db as [|p db IH]; cbn; [reflexivity|].
  destruct (String.eqb (Post.platform p) platform) eqn:E1; cbn; [|exact IH].
  destruct (String.eqb (Post.originalId p) originalId) eqn:E2; cbn; [|exact IH].
  split; [reflexivity | now apply String.eqb_eq].
Qed.

Lemma generateCommentsFor_commented platform w c :
  Props.commented (if Props.hasRecord (World.posts w) platform (Item.id c)
             then [Item.id c] else [])
            w (generateCommentsFor platform w c).
Proof.
  pose proof (generateCommentsFor_adds platform w c) as A.
  split; [exact A|]. revert A. unfold generateCommentsFor.
  pose proof (findPost_hasRecord (World.posts w) platform (Item.id c)) as H.
  destruct (findPost (World.posts w) platform (Item.id c)) as [post|].
  - destruct H as [-> Hid]. intros _.
    pose proof (draw_frame 6 (World.env w)) as [Hc Ht].
    pose proof (draw_bound 6 (World.env w) ltac:(lia)) as Hk.
    destruct (Env.draw 6 (World.env w)) as [k e1]. cbn [fst snd] in *.
    assert (Hev : ((10 <=? k + 10) && (k + 10 <=? 15))%nat = true).
    { apply andb_true_intro. split; apply Nat.leb_le; lia. }
    destruct (World.commentGeneratorOk w (Post.originalId post));
      (split; [reflexivity|]).
    + exists [EvGenerateComments (Post.originalId post) (k + 10); EvDelay 2000].
      cbn -[Nat.leb]. rewrite Ht, Hc, Hev, Hid, <- app_assoc. repeat split; try lia.
    + exists [EvGenerateComments (Post.originalId post) (k + 10)].
      cbn -[Nat.leb]. rewrite Ht, Hc, Hev, Hid. repeat split; try lia.
  - rewrite H. intros _. apply commented_refl.
Qed.

Lemma generateLoop_commented platform :
  forall items w,
    Props.commented
      (map Item.id
           (filter (fun c => Props.hasRecord (World.posts w) platform (Item.id c)) items))
      w (fold_left (generateCommentsFor platform) items w).
Proof.
  induction items as [|c items IH]; intros w; cbn [fold_left filter map].
  - apply commented_refl.
  - pose proof (generateCommentsFor_commented platform w c) as H1.
    pose proof (IH (generateCommentsFor platform w c)) as H2.
    assert (Hp : World.posts (generateCommentsFor platform w c) = World.posts w).
    { destruct H1 as ((Hp & _) & _). now rewrite Hp, app_nil_r. }
    rewrite Hp in H2.
    pose proof (commented_trans _ _ _ _ _ H1 H2) as H.
    destruct (Props.hasRecord (World.posts w) platform (Item.id c)); exact H.
Qed.

(** X12. Comment generation touches nothing but the trace and the clock.
    With an API key it asks, in the order of the created items and once
    for each of them that has a record of the platform in the corpus, for
    10 to 15 comments; the only other events are the pauses of 2000 ms,
    and the clock advances by exactly these pauses. Without an API key it
    does nothing at all. *)
Theorem generateCommentsForCreatedPosts_effects createdItems platform w :
  (World.openaiKey w = true ->
   Props.commented
     (map Item.id
          (filter (fun c => Props.hasRecord (World.posts w) platform (Item.id c))
                  createdItems))
     w (generateCommentsForCreatedPosts createdItems platform w))
  /\ (World.openaiKey w = false ->
      generateCommentsForCreatedPosts createdItems platform w = w).
Proof.
  unfold generateCommentsForCreatedPosts. split; intros ->.
  - apply generateLoop_commented.
  - reflexivity.
Qed.

End CommentGeneration.

(** ** The selection of the authentic mode *)

Section Selection.
Import ScraperManager.
Local Open Scope list_scope.

Lemma validateLoop_selects calc va db community maxPosts all :
  forall scraped acc,
    incl scraped all ->
    Forall (fun a => In (item a) all /\ Props.selected calc va db community a) acc ->
    Forall (fun a => In (item a) all /\ Props.selected calc va db community a)
           (validateLoop calc va db community maxPosts scraped acc).
Proof.
  induction scraped as [|c rest IH]; intros acc Hin Hacc; cbn [validateLoop];
    [exact Hacc|].
  assert (Hrest : incl rest all) by (intros x Hx; apply Hin; now right).
  destruct (postExists db (Item.platform c) (Item.id c) (Item.url c)) eqn:He;
    [now apply IH|].
  destruct (valid (va c)) eqn:Hv; cbn [negb]; [|now apply IH].
  destruct (Qltb (calc c) _) eqn:Hq; [now apply IH|].
  assert (Hacc' : Forall (fun a => In (item a) all /\ Props.selected calc va db community a)
                         (acc ++ [mkAuthenticItem c (calc c) (score (va c))])).
  { apply Forall_app. split; [exact Hacc|]. constructor; [|constructor].
    split; [apply Hin; now left|]. unfold Props.selected. cbn.
    repeat split; try assumption. now apply Qltb_false. }
  destruct (maxPosts <=? _)%Z; [exact Hacc' | now apply IH].
Qed.

Lemma validateLoop_length calc va db community maxPosts :
  forall scraped acc,
    (Z.of_nat (List.length acc) < Z.max 1 maxPosts)%Z ->
    (Z.of_nat (List.length (validateLoop calc va db community maxPosts scraped acc))
     <= Z.max 1 maxPosts)%Z
    /\ List.length (validateLoop calc va db community maxPosts scraped acc)
       <= List.length acc + List.length scraped.
Proof.
  induction scraped as [|c rest IH]; intros acc Hacc; cbn [validateLoop List.length];
    [lia|].
  pose proof (IH acc Hacc) as [I1 I2].
  destruct (postExists db _ _ _); [lia|].
  destruct (valid (va c)); cbn [negb]; [|lia].
  destruct (Qltb (calc c) _); [lia|].
  destruct (Z.leb_spec maxPosts
              (Z.of_nat (List.length (acc ++ [mkAuthenticItem c (calc c) (score (va c))]))))
    as [Hle|Hlt]; rewrite length_app in *; cbn [List.length] in *.
  - lia.
  - destruct (IH (acc ++ [mkAuthenticItem c (calc c) (score (va c))])) as [J1 J2].
    + rewrite length_app. cbn [List.length]. lia.
    + rewrite length_app in J2. cbn [List.length] in J2. lia.
Qed.

(** X13. What the validation of the authentic mode selects. Every selected
    item is one of the scraped items, has no record of its own platform
    and id or of its URL in the corpus, was judged valid, carries the
    quality score computed for it and the authenticity score of the
    judgement, and its quality score reaches the community's threshold
    (0.6 when none is set). It selects no more items than it was given,
    and at most [maxPosts] of them, but one when [maxPosts] is below 1,
    since the limit is checked after an item was added. *)
Theorem validateAuthenticContent_selects calc va db scraped community maxPosts :
  Forall (fun a => In (item a) scraped /\ Props.selected calc va db community a)
         (validateAuthenticContent calc va db scraped community maxPosts)
  /\ (Z.of_nat (List.length (validateAuthenticContent calc va db scraped community maxPosts))
      <= Z.max 1 maxPosts)%Z
  /\ List.length (validateAuthenticContent calc va db scraped community maxPosts)
     <= List.length scraped.
Proof.
  unfold validateAuthenticContent. split.
  - apply validateLoop_selects; [apply incl_refl | constructor].
  - apply (validateLoop_length calc va db community maxPosts scraped []). cbn. lia.
Qed.

End Selection.

(** ** How many posts a run can create *)

Section Caps.
Import ScraperManager RedditScraper.
Local Open Scope list_scope.

Lemma scrapeContent_length config u n kept u' n' :
  scrapeContent config u n = (Ok kept, u', n') ->
  (Z.of_nat (List.length kept) <= Z.max 0 (maxPosts config))%Z.
Proof.
  intros H. apply scrapeContent_Ok in H. destruct H as (s & page & _ & Hf & ->).
  apply fetchRedditPosts_length in Hf. cbn in Hf.
  pose proof (filterByKeywords_length (keywords config) (posts page)). lia.
Qed.

Lemma filterNewContent_length db items platform :
  List.length (filterNewContent db items platform) <= List.length items.
Proof. rewrite filterNewContent_filter. apply filter_length_le. Qed.

Lemma slice0_length {A : Type} (e : Z) (l : list A) :
  (0 <= e)%Z -> List.length (slice0 e l) <= Z.to_nat e.
Proof.
  intros H. unfold slice0. destruct (Z.ltb_spec e 0); [lia|]. apply firstn_le_length.
Qed.

Lemma scraped_created_le calc pc items community platform users w :
  postsCreated (snd (createPostsFromScrapedContent calc pc items community platform users w))
  <= List.length items.
Proof.
  pose proof (createPostsFromScrapedContent_counts calc pc items community platform
                users w) as (_ & H & _).
  unfold Props.accounted in H. lia.
Qed.

Lemma authentic_created_le pac items community platform users w :
  postsCreated (snd (createPostsFromAuthenticContent pac items community platform users w))
  <= List.length items.
Proof.
  pose proof (createPostsFromAuthenticContent_counts pac items community platform
                users w) as (_ & H & _).
  unfold Props.accounted in H. rewrite length_map in H. lia.
Qed.

Lemma stageOf_cap calc pc pac va mode community platformConfig users w created w' :
  Spec.stageOf calc pc pac va mode community platformConfig users w = (Ok created, w') ->
  (Z.of_nat (postsCreated created) <= Props.capOf mode community)%Z.
Proof.
  destruct mode as [| |n]; cbn [Spec.stageOf Props.capOf];
    unfold bulkStage, singlePostStage, authenticStage.
  - destruct (scrapeContent _ _ _) as [[[kept|m] u] e] eqn:Hs; [|discriminate].
    apply scrapeContent_length in Hs. cbn [maxPosts] in Hs.
    match goal with |- context [createPostsFromScrapedContent ?a ?b ?items ?c ?p ?us ?w0] =>
      pose proof (scraped_created_le a b items c p us w0) as Hc;
      pose proof (filterNewContent_length (World.posts (World.withNet w u e)) kept p) as Hf;
      destruct (createPostsFromScrapedContent a b items c p us w0) as [w2 cr]
    end.
    cbn [snd] in Hc. intros [= <- _]. lia.
  - destruct (scrapeContent _ _ _) as [[[kept|m] u] e] eqn:Hs; [|discriminate].
    match goal with |- context [createPostsFromScrapedContent ?a ?b ?items ?c ?p ?us ?w0] =>
      pose proof (scraped_created_le a b items c p us w0) as Hc;
      destruct (createPostsFromScrapedContent a b items c p us w0) as [w2 cr]
    end.
    cbn [snd] in Hc.
    match type of Hc with _ <= List.length (slice0 1 ?l) =>
      pose proof (slice0_length 1 l ltac:(lia)) as Hl
    end.
    intros [= <- _]. change (Z.to_nat 1) with 1 in Hl. lia.
  - destruct (scrapeContent _ _ _) as [[[kept|m] u] e] eqn:Hs; [|discriminate].
    apply scrapeContent_length in Hs. cbn [maxPosts] in Hs.
    match goal with |- context [createPostsFromAuthenticContent ?a ?items ?c ?p ?us ?w0] =>
      pose proof (authentic_created_le a items c p us w0) as Hc;
      destruct (createPostsFromAuthenticContent a items c p us w0) as [w2 cr]
    end.
    cbn [snd] in Hc.
    match type of Hc with _ <= List.length (validateAuthenticContent ?a ?b ?db ?l ?c ?k) =>
      pose proof (validateLoop_length a b db c k l [] ltac:(cbn; lia)) as [L1 L2]
    end.
    unfold validateAuthenticContent in Hc. cbn [List.length] in L2.
    intros [= <- _]. lia.
Qed.

Lemma platformLoop_cap stage community users cap :
  (forall platformConfig w created w',
     stage community platformConfig users w = (Ok created, w') ->
     postsCreated created <= cap) ->
  forall configs w total results,
    snd (fst (fold_left (platformStep stage community users) configs (w, total, results)))
    <= total + cap * List.length (filter Spec.isScraped configs).
Proof.
  intros Hcap. induction configs as [|cfg configs IH]; intros w total results;
    cbn [fold_left filter]; [cbn; lia|].
  unfold platformStep at 2. unfold Spec.isScraped at 1.
  destruct (PlatformConfig.isActive cfg); cbn [negb andb]; [|apply IH].
  destruct (String.eqb (PlatformConfig.platform cfg) "reddit"); cbn [negb]; [|apply IH].
  destruct (stage community cfg users w) as [[created|m] w1] eqn:Hs.
  - apply Hcap in Hs. etransitivity; [apply IH|]. cbn [List.length]. nia.
  - etransitivity; [apply IH|]. cbn [List.length]. nia.
Qed.

(** X14. The most a run can create. For each active reddit source config
    of the community, a bulk run creates at most [maxPostsPerScrape]
    posts (50 when it is unset or 0), a single-post run at most one, and
    an authentic run at most [postsPerPlatform]; the total the run reports
    is at most that number times the number of such configs. *)
Theorem community_run_cap calc pc pac va mode communityId w community result w' :
  findById (World.communities w) communityId = Some community ->
  Spec.runMode calc pc pac va mode communityId w = (Ok result, w') ->
  (Z.of_nat (cr_postsCreated result)
   <= Props.capOf mode community
      * Z.of_nat (List.length (filter Spec.isScraped
                                      (Community.scrapingPlatforms community))))%Z.
Proof.
  intros Hf. rewrite runMode_communityRun. unfold communityRun. rewrite Hf.
  destruct (filter isPlatformUser (World.users w)) as [|u0 us]; [discriminate|].
  assert (Hc : (0 <= Props.capOf mode community)%Z) by (destruct mode; cbn; lia).
  assert (Hstage : forall platformConfig w0 created w1,
             Spec.stageOf calc pc pac va mode community platformConfig (u0 :: us) w0
             = (Ok created, w1) ->
             postsCreated created <= Z.to_nat (Props.capOf mode community)).
  { intros platformConfig w0 created w1 Hs. apply stageOf_cap in Hs. lia. }
  pose proof (platformLoop_cap (Spec.stageOf calc pc pac va mode) community (u0 :: us)
                (Z.to_nat (Props.capOf mode community)) Hstage
                (Community.scrapingPlatforms community) w 0 []) as H.
  destruct (fold_left _ _ _) as [[w1 total] results]. cbn [fst snd] in H.
  intros [= <- _]. cbn [cr_postsCreated]. nia.
Qed.

Lemma community_run_cap_witness :
  (Z.of_nat (cr_postsCreated
               (mkCommunityResult "c1" "Founders" 1
                  [mkPlatformResult "reddit" 0 0 0 false
                                    (Some "Reddit scraping failed: Invalid Reddit URL - could not extract subreddit");
                   mkPlatformResult "reddit" 1 0 0 true None]))
   <= Props.capOf Spec.SinglePost Examples.founders
      * Z.of_nat (List.length (filter Spec.isScraped
                                      (Community.scrapingPlatforms Examples.founders))))%Z.
Proof.
  eapply (community_run_cap Examples.scoreHigh Examples.plainProcess
            Examples.plainProcessAuthentic Examples.alwaysAuthentic Spec.SinglePost
            "c1" Examples.worldMixed Examples.founders).
  - reflexivity.
  - vm_compute. reflexivity.
Defined.

End Caps.

(** ** The total a sweep reports *)

Section Totals.
Import ScraperManager.
Local Open Scope list_scope.

Lemma communityRun_total R stage communityId w :
  Spec.StageAdds R stage ->
  exists created,
    World.posts (snd (communityRun stage communityId w)) = World.posts w ++ created
    /\ match fst (communityRun stage communityId w) with
       | Ok result => cr_postsCreated result = List.length created
       | Throw _ => created = []
       end.
Proof.
  intros Hstage.
  destruct (findById (World.communities w) communityId) as [community|] eqn:Hf.
  - destruct (filter isPlatformUser (World.users w)) as [|u0 us] eqn:Hu.
    + exists []. unfold communityRun. rewrite Hf, Hu. cbn. now rewrite app_nil_r.
    + destruct (communityRun_spec R stage Hstage communityId w community Hf)
        as (created & entries & w' & Hrun & Hposts & _); [rewrite Hu; discriminate|].
      exists created. rewrite Hrun. cbn. split; [exact Hposts | reflexivity].
  - exists []. unfold communityRun. rewrite Hf. cbn. now rewrite app_nil_r.
Qed.

Lemma sweepLoop_total run :
  (forall communityId w,
     exists created,
       World.posts (snd (run communityId w)) = World.posts w ++ created
       /\ match fst (run communityId w) with
          | Ok result => cr_postsCreated result = List.length created
          | Throw _ => created = []
          end) ->
  forall l w r,
    exists created,
      World.posts (fst (fold_left (sweepStep run) l (w, r))) = World.posts w ++ created
      /\ totalPostsCreated (snd (fold_left (sweepStep run) l (w, r)))
         = totalPostsCreated r + List.length created.
Proof.
  intros Hrun. induction l as [|c l IH]; intros w r; cbn [fold_left].
  - exists []. cbn. rewrite app_nil_r. split; [reflexivity | lia].
  - destruct (Hrun (Community._id c) w) as (c1 & P1 & T1). cbn [sweepStep].
    destruct (run (Community._id c) w) as [[result|message] w1]; cbn [fst snd] in *.
    + match goal with |- context [fold_left _ l (w1, ?r1)] =>
        destruct (IH w1 r1) as (c2 & P2 & T2)
      end.
      exists (c1 ++ c2). rewrite P2, P1, T2, app_assoc, length_app.
      cbn [totalPostsCreated]. split; [reflexivity | lia].
    + match goal with |- context [fold_left _ l (w1, ?r1)] =>
        destruct (IH w1 r1) as (c2 & P2 & T2)
      end.
      subst c1. rewrite app_nil_r in P1.
      exists c2. rewrite P2, P1, T2. cbn [totalPostsCreated]. split; reflexivity.
Qed.

(** X15. The total of a sweep is the growth of the corpus. When a sweep
    (bulk or single-post) returns, the corpus is the one before it with
    new records appended, and [totalPostsCreated] is exactly their number:
    the posts of a community whose run failed are not counted and none
    were created for it. *)
Theorem sweep_total_is_corpus_growth calc pc trickle w :
  exists created,
    World.posts (snd (Spec.sweepOf calc pc trickle w)) = World.posts w ++ created
    /\ match fst (Spec.sweepOf calc pc trickle w) with
       | Ok results => totalPostsCreated results = List.length created
       | Throw _ => created = []
       end.
Proof.
  assert (Hsweep : forall stage R,
             Spec.StageAdds R stage ->
             exists created,
               World.posts (snd (sweep (communityRun stage) w)) = World.posts w ++ created
               /\ match fst (sweep (communityRun stage) w) with
                  | Ok results => totalPostsCreated results = List.length created
                  | Throw _ => created = []
                  end).
  { intros stage R Hstage. unfold sweep.
    destruct (World.communityListError w).
    { exists []. cbn. now rewrite app_nil_r. }
    destruct (sweepLoop_total (communityRun stage)
                (fun communityId w0 => communityRun_total R stage communityId w0 Hstage)
                (filter isActiveCommunity (World.communities w)) w
                (mkRunResult (List.length (filter isActiveCommunity (World.communities w)))
                             0 0 0 [])) as (created & P & T).
    destruct (fold_left _ _ _) as [w1 r1]. cbn [fst snd] in *.
    exists created. split; [exact P | exact T]. }
  destruct trickle; cbn [Spec.sweepOf].
  - exact (Hsweep _ _ (singlePostStage_adds calc pc)).
  - exact (Hsweep _ _ (bulkStage_adds calc pc)).
Qed.

End Totals.

(** ** The OAuth token cache *)

Section TokenCache.
Import Token.
Local Open Scope string_scope.

Lemma truthy_nonempty (s : option string) :
  truthy s = true -> exists c r, s = Some (String c r).
Proof.
  destruct s as [[|c r]|]; cbn; try discriminate. intros _. now exists c, r.
Qed.

(** X16. How long a granted token is reused. After the token endpoint
    granted a token at time [arrival] for [e] seconds (3600 when the
    answer names no lifetime), a later call reuses it without a request to
    the endpoint exactly while fewer than max(e - 120, 0) seconds have
    passed since [arrival]; so a token granted for 120 seconds or less is
    never reused, and a token is never reused in its last 60 seconds. A
    call that reuses the token returns it and leaves the cache as it is. *)
Theorem granted_token_reuse_window cred c tok expires_in arrival now reply' arrival' :
  isAuthConfigured cred = true ->
  truthy (Some tok) = true ->
  let e := match expires_in with Some e => e | None => 3600%Z end in
  let first := refresh cred c (Granted (Some tok) expires_in) arrival in
  let again := getAccessToken cred (cache first) now reply' arrival' in
  token first = Ok tok
  /\ (exchanged again = false <-> (now < arrival + Z.max (e - 120) 0 * 1000)%Z)
  /\ (exchanged again = false -> token again = Ok tok /\ cache again = cache first).
Proof.
  intros Hc Ht e first again. subst first again. unfold refresh.
  rewrite Hc, Ht. cbn [negb cache token]. split; [reflexivity|].
  unfold getAccessToken. cbn [accessToken tokenExpiresAt]. rewrite Ht. cbn [andb].
  fold e.
  destruct (Z.ltb_spec now (arrival + Z.max (e - 60) 60 * 1000 - 60 * 1000)) as [Hlt|Hge].
  - cbn [exchanged token cache]. split; [split; [lia | reflexivity] | now split].
  - unfold refresh. rewrite Hc. cbn [negb].
    assert (Hx : forall o, exchanged o = true ->
                 (exchanged o = false <-> (now < arrival + Z.max (e - 120) 0 * 1000)%Z)
                 /\ (exchanged o = false -> token o = Ok tok
                     /\ cache o = mkCache (Some tok)
                                          (arrival + Z.max (e - 60) 60 * 1000)%Z)).
    { intros o Ho. rewrite Ho. split; [split; [discriminate | lia] | discriminate]. }
    destruct reply' as [a x|d m msg]; [destruct (truthy a)|]; apply Hx; reflexivity.
Qed.

Lemma granted_token_reuse_window_witness :
  token (refresh (mkCredentials (Some "id") (Some "secret") (Some "refresh")) emptyCache
                 (Granted (Some "t1") (Some 3600%Z)) 1000)
  = Ok "t1"
  /\ (exchanged (getAccessToken (mkCredentials (Some "id") (Some "secret") (Some "refresh"))
                   (cache (refresh (mkCredentials (Some "id") (Some "secret") (Some "refresh"))
                                   emptyCache (Granted (Some "t1") (Some 3600%Z)) 1000))
                   3481000 (Granted (Some "t2") None) 3482000) = false
      <-> (3481000 < 1000 + Z.max (3600 - 120) 0 * 1000)%Z)
  /\ (exchanged (getAccessToken (mkCredentials (Some "id") (Some "secret") (Some "refresh"))
                   (cache (refresh (mkCredentials (Some "id") (Some "secret") (Some "refresh"))
                                   emptyCache (Granted (Some "t1") (Some 3600%Z)) 1000))
                   3481000 (Granted (Some "t2") None) 3482000) = false ->
      token (getAccessToken (mkCredentials (Some "id") (Some "secret") (Some "refresh"))
               (cache (refresh (mkCredentials (Some "id") (Some "secret") (Some "refresh"))
                               emptyCache (Granted (Some "t1") (Some 3600%Z)) 1000))
               3481000 (Granted (Some "t2") None) 3482000) = Ok "t1"
      /\ cache (getAccessToken (mkCredentials (Some "id") (Some "secret") (Some "refresh"))
                  (cache (refresh (mkCredentials (Some "id") (Some "secret") (Some "refresh"))
                                  emptyCache (Granted (Some "t1") (Some 3600%Z)) 1000))
                  3481000 (Granted (Some "t2") None) 3482000)
         = cache (refresh (mkCredentials (Some "id") (Some "secret") (Some "refresh"))
                          emptyCache (Granted (Some "t1") (Some 3600%Z)) 1000)).
Proof.
  apply (granted_token_reuse_window
           (mkCredentials (Some "id") (Some "secret") (Some "refresh")) emptyCache
           "t1" (Some 3600%Z) 1000 3481000 (Granted (Some "t2") None) 3482000);
    reflexivity.
Defined.

(** X17. What a call for a token can end in. A returned token is never
    the empty string and is the one the cache holds afterwards. A call
    that throws leaves the cache as it was, and its message is either the
    one about missing credentials, in which case no request went to the
    token endpoint, or starts with "Failed to refresh Reddit access
    token: " after a request that was refused or granted no token. Without
    the three credentials no request goes to the endpoint at all. *)
Theorem getAccessToken_outcomes cred c now reply arrival :
  let out := getAccessToken cred c now reply arrival in
  (forall tok, token out = Ok tok ->
     tok <> EmptyString /\ accessToken (cache out) = Some tok)
  /\ (forall message, token out = Throw message ->
        cache out = c
        /\ ((message = missingCredentials /\ exchanged out = false
             /\ isAuthConfigured cred = false)
            \/ (exists detail, message = refreshFailed detail /\ exchanged out = true)))
  /\ (isAuthConfigured cred = false -> exchanged out = false).
Proof.
  cbv zeta. unfold getAccessToken.
  destruct (truthy (accessToken c) && (now <? tokenExpiresAt c - 60 * 1000)%Z) eqn:Hhit.
  - apply andb_prop in Hhit. destruct Hhit as [Ht _].
    apply truthy_nonempty in Ht. destruct Ht as (x & r & Ht). rewrite Ht.
    cbn. split; [|split].
    + intros tok [= <-]. split; [discriminate | exact Ht].
    + discriminate.
    + reflexivity.
  - unfold refresh. destruct (isAuthConfigured cred); cbn [negb].
    + destruct reply as [a x|d m msg]; [destruct (truthy a) eqn:Ha|].
      * apply truthy_nonempty in Ha. destruct Ha as (y & r & ->). cbn.
        split; [|split]; try discriminate.
        intros tok [= <-]. split; [discriminate | reflexivity].
      * cbn. split; [|split]; try discriminate.
        intros message [= <-]. split; [reflexivity|]. right. eexists.
        split; reflexivity.
      * cbn. split; [|split]; try discriminate.
        intros message [= <-]. split; [reflexivity|]. right. eexists.
        split; reflexivity.
    + cbn. split; [|split]; try discriminate; [|reflexivity].
      intros message [= <-]. split; [reflexivity|]. left. repeat split.
Qed.

End TokenCache.

(** ** Thumbnails and media URLs *)

Section MediaFacts.
Import Media.
Local Open Scope string_scope.

Lemma unescapeAmp_escapeAmp s :
  unescapeAmp 0 (Props.escapeAmp s) = s.
Proof.
  induction s as [|c r IH]; [reflexivity|]. cbn [Props.escapeAmp].
  destruct (Ascii.eqb c "&") eqn:E.
  - apply Ascii.eqb_eq in E. subst c.
    change (unescapeAmp 0 ("&amp;" ++ Props.escapeAmp r))
      with (String "&" (unescapeAmp 0 (Props.escapeAmp r))).
    now rewrite IH.
  - cbn [unescapeAmp]. 
    assert (Hs : startsWith "&amp;" (String c (Props.escapeAmp r)) = false).
    { cbn [startsWith]. rewrite Ascii.eqb_sym, E. reflexivity. }
    rewrite Hs, IH. reflexivity.
Qed.

Lemma unescapeAmp_nonempty c r : unescapeAmp 0 (String c r) <> EmptyString.
Proof.
  cbn [unescapeAmp]. destruct (startsWith "&amp;" (String c r)); discriminate.
Qed.

Lemma escapeAmp_nonempty u : u <> EmptyString -> truthy (Some (Props.escapeAmp u)) = true.
Proof.
  destruct u as [|c r]; [congruence|]. intros _. cbn [Props.escapeAmp].
  destruct (Ascii.eqb c "&"); reflexivity.
Qed.

(** X18. Thumbnails. The thumbnail of a post is never the empty string.
    When the post's own thumbnail is missing, empty, "self" or "default",
    the thumbnail is the preview URL with every "&amp;" read back as "&":
    a URL the upstream escaped that way comes out as it was. *)
Theorem extractThumbnail_preview post :
  (forall t, extractThumbnail post = Some t -> t <> EmptyString)
  /\ (forall u,
        In (thumbnail post) [None; Some EmptyString; Some "self"; Some "default"] ->
        u <> EmptyString ->
        previewUrl post = Some (Props.escapeAmp u) ->
        extractThumbnail post = Some u).
Proof.
  split.
  - unfold extractThumbnail. intros t.
    destruct (truthy (thumbnail post) && _ && _) eqn:H1.
    + apply andb_prop in H1. destruct H1 as [H1 _]. apply andb_prop in H1.
      destruct H1 as [H1 _]. apply truthy_nonempty in H1. destruct H1 as (c & r & ->).
      intros [= <-]. discriminate.
    + destruct (truthy (previewUrl post)) eqn:H2; [|discriminate].
      apply truthy_nonempty in H2. destruct H2 as (c & r & ->). cbn [RedditScraper.orEmpty].
      intros [= <-]. apply unescapeAmp_nonempty.
  - intros u Hin Hu Hp. unfold extractThumbnail.
    assert (H1 : truthy (thumbnail post)
                 && negb (String.eqb (RedditScraper.orEmpty (thumbnail post)) "self")
                 && negb (String.eqb (RedditScraper.orEmpty (thumbnail post)) "default")
                 = false).
    { cbn in Hin. destruct Hin as [<- | [<- | [<- | [<- | []]]]]; reflexivity. }
    rewrite H1, Hp, (escapeAmp_nonempty u Hu). cbn [RedditScraper.orEmpty].
    now rewrite unescapeAmp_escapeAmp.
Qed.

Lemma galleryEntry_spec u :
  Forall (fun m => type m = "image" /\ m_url m <> EmptyString) (galleryEntry u).
Proof.
  unfold galleryEntry. destruct (truthy u) eqn:H; [|constructor].
  apply truthy_nonempty in H. destruct H as (c & r & ->). constructor; [|constructor].
  split; [reflexivity|]. cbn [m_url RedditScraper.orEmpty]. apply unescapeAmp_nonempty.
Qed.

Lemma gallery_spec entries :
  Forall (fun m => type m = "image" /\ m_url m <> EmptyString)
         (flat_map galleryEntry entries).
Proof.
  induction entries as [|u entries IH]; cbn [flat_map]; [constructor|].
  apply Forall_app. split; [apply galleryEntry_spec | exact IH].
Qed.

Lemma images_no_video l :
  Forall (fun m => type m = "image" /\ m_url m <> EmptyString) l ->
  filter Props.isVideo l = [].
Proof.
  induction 1 as [|m l [Hm _] _ IH]; [reflexivity|]. cbn [filter].
  unfold Props.isVideo at 1. rewrite Hm. exact IH.
Qed.

(** X19. Media URLs. Every entry is an image or a video with a URL that
    is not empty; at most one entry is a video, and it is there exactly
    when the post is a video with a fallback URL; the entries of a post
    that is not a gallery are at most two. *)
Theorem extractMediaUrls_entries isImageUrl post :
  Forall (fun m => (type m = "image" \/ type m = "video") /\ m_url m <> EmptyString)
         (extractMediaUrls isImageUrl post)
  /\ filter Props.isVideo (extractMediaUrls isImageUrl post)
     = (if is_video post && truthy (fallback_url post)
        then [mkMediaUrl "video" (RedditScraper.orEmpty (fallback_url post))] else [])
  /\ (is_gallery post = false -> List.length (extractMediaUrls isImageUrl post) <= 2)%nat.
Proof.
  unfold extractMediaUrls.
  assert (Hg : Forall (fun m => type m = "image" /\ m_url m <> EmptyString)
                 (if is_gallery post
                  then match media_metadata post with
                       | Some entries => flat_map galleryEntry entries
                       | None => []
                       end
                  else [])).
  { destruct (is_gallery post); [|constructor].
    destruct (media_metadata post); [apply gallery_spec | constructor]. }
  assert (Hi : Forall (fun m => type m = "image" /\ m_url m <> EmptyString)
                 (if truthy (url post) && isImageUrl (RedditScraper.orEmpty (url post))
                  then [mkMediaUrl "image" (RedditScraper.orEmpty (url post))] else [])).
  { destruct (truthy (url post)) eqn:H; cbn [andb]; [|constructor].
    apply truthy_nonempty in H. destruct H as (c & r & ->).
    destruct (isImageUrl _); constructor; [|constructor]. split; [reflexivity | discriminate]. }
  split; [|split].
  - apply Forall_app. split.
    { eapply Forall_impl; [|exact Hi]. intros m [H1 H2]. split; [now left | exact H2]. }
    apply Forall_app. split.
    { destruct (is_video post); cbn [andb]; [|constructor].
      destruct (truthy (fallback_url post)) eqn:H; [|constructor].
      apply truthy_nonempty in H. destruct H as (c & r & ->).
      constructor; [|constructor]. split; [now right | discriminate]. }
    eapply Forall_impl; [|exact Hg]. intros m [H1 H2]. split; [now left | exact H2].
  - rewrite !filter_app, (images_no_video _ Hi), (images_no_video _ Hg), app_nil_r.
    cbn [app]. destruct (is_video post && truthy (fallback_url post)); reflexivity.
  - intros Hng. rewrite Hng, !length_app.
    destruct (truthy (url post) && _); destruct (is_video post && _); cbn; lia.
Qed.

End MediaFacts.

(** ** Cleanup of the corpus *)

Section Cleanup.
Import Maintenance.
Local Open Scope list_scope.

Lemma hide_not_active d : isActive (hide d) = false.
Proof. reflexivity. Qed.

Lemma activeOf_hide communityId d : activeOf communityId (hide d) = false.
Proof. unfold activeOf. rewrite hide_not_active. apply andb_false_r. Qed.

Lemma updateMany_ids query db : map _id (fst (updateMany query db)) = map _id db.
Proof.
  cbn [updateMany fst]. rewrite map_map. apply map_ext. intros d.
  destruct (query d); reflexivity.
Qed.

Lemma updateMany_hiddenFrom query db :
  (forall d, In d db -> query d = true -> isActive d = true) ->
  Forall2 Props.hiddenFrom db (fst (updateMany query db)).
Proof.
  cbn [updateMany fst]. induction db as [|d db IH]; intros H; cbn [map]; constructor.
  - destruct (query d) eqn:Hq; [right | left; reflexivity].
    split; [apply H; [now left | exact Hq] | reflexivity].
  - apply IH. intros x Hx. apply H. now right.
Qed.

Lemma updateMany_active communityId query db :
  filter (activeOf communityId) (fst (updateMany query db))
  = filter (fun d => negb (query d)) (filter (activeOf communityId) db).
Proof.
  cbn [updateMany fst]. induction db as [|d db IH]; [reflexivity|]. cbn [map filter].
  destruct (query d) eqn:Hq.
  - rewrite activeOf_hide. destruct (activeOf communityId d); cbn [filter];
      [rewrite Hq; cbn [negb]|]; exact IH.
  - destruct (activeOf communityId d); cbn [filter]; [rewrite Hq; cbn [negb]|];
      now rewrite IH.
Qed.

Lemma insertDesc_perm d l : Permutation (insertDesc d l) (d :: l).
Proof.
  induction l as [|x l IH]; cbn [insertDesc]; [reflexivity|].
  destruct (createdAt x <? createdAt d)%Z; [reflexivity|].
  rewrite IH. apply perm_swap.
Qed.

Lemma sortDesc_perm l : Permutation (sortDesc l) l.
Proof.
  induction l as [|d l IH]; cbn [sortDesc fold_right]; [reflexivity|].
  fold (sortDesc l). rewrite insertDesc_perm. now constructor.
Qed.

Lemma filter_perm {A : Type} (f : A -> bool) l l' :
  Permutation l l' -> Permutation (filter f l) (filter f l').
Proof.
  induction 1 as [|x l l' _ IH|x y l|l l' l'' _ IH1 _ IH2]; cbn [filter].
  - reflexivity.
  - destruct (f x); [now constructor | exact IH].
  - destruct (f x), (f y); try reflexivity. apply perm_swap.
  - now rewrite IH1.
Qed.

Lemma filter_none {A : Type} (f : A -> bool) l :
  (forall x, In x l -> f x = false) -> filter f l = [].
Proof.
  induction l as [|x l IH]; intros H; [reflexivity|]. cbn [filter].
  rewrite (H x (or_introl eq_refl)). apply IH. intros y Hy. apply H. now right.
Qed.

Lemma inIds_spec d (l : list Stored) :
  existsb (Nat.eqb (_id d)) (map _id l) = true <-> exists e, In e l /\ _id e = _id d.
Proof.
  rewrite existsb_exists. split.
  - intros (n & Hn & He). apply Nat.eqb_eq in He. apply in_map_iff in Hn.
    destruct Hn as (e & <- & Hin). now exists e.
  - intros (e & Hin & He). exists (_id e). split; [now apply in_map|].
    apply Nat.eqb_eq. now symmetry.
Qed.

(** After the iteration for a community, it has at most
    [maxPostsPerCommunity] active posts. *)
Lemma capCommunity_own cap db community :
  Props.activeCount (Community._id community) (capCommunity cap db community) <= cap.
Proof.
  unfold capCommunity, Props.activeCount.
  set (A := filter (activeOf (Community._id community)) db).
  destruct (skipn cap (sortDesc A)) as [|e0 E] eqn:HE.
  - fold A. rewrite <- (Permutation_length (sortDesc_perm A)).
    pose proof (length_skipn cap (sortDesc A)) as H. rewrite HE in H. cbn in H. lia.
  - rewrite updateMany_active. fold A. rewrite <- HE.
    rewrite <- (Permutation_length (filter_perm _ _ _ (sortDesc_perm A))).
    rewrite <- (firstn_skipn cap (sortDesc A)) at 1.
    rewrite filter_app, length_app.
    rewrite (filter_none _ (skipn cap (sortDesc A))).
    + cbn [List.length]. rewrite Nat.add_0_r.
      etransitivity; [apply filter_length_le | apply firstn_le_length].
    + intros x Hx. apply negb_false_iff. apply inIds_spec. now exists x.
Qed.

(** No iteration raises the number of active posts of any community. *)
Lemma capCommunity_other cap db community communityId :
  Props.activeCount communityId (capCommunity cap db community)
  <= Props.activeCount communityId db.
Proof.
  unfold capCommunity, Props.activeCount.
  destruct (skipn cap _) as [|e0 E]; [lia|].
  rewrite updateMany_active. apply filter_length_le.
Qed.

Lemma capLoop_le cap communityId :
  forall communities db,
    Props.activeCount communityId (fold_left (capCommunity cap) communities db)
    <= Props.activeCount communityId db.
Proof.
  induction communities as [|c communities IH]; intros db; cbn [fold_left]; [lia|].
  etransitivity; [apply IH | apply capCommunity_other].
Qed.

Lemma capLoop_cap cap :
  forall communities db community,
    In community communities ->
    Props.activeCount (Community._id community)
                      (fold_left (capCommunity cap) communities db) <= cap.
Proof.
  induction communities as [|c communities IH]; intros db community Hin; [destruct Hin|].
  cbn [fold_left]. destruct Hin as [-> | Hin].
  - etransitivity; [apply capLoop_le | apply capCommunity_own].
  - now apply IH.
Qed.

Lemma cleanupPosts_eq options now communities db :
  cleanupPosts options now communities db
  = (fold_left (capCommunity (Props.capIn options))
               (filter Community.isActive communities)
               (fst (updateMany (oldAndLow (Props.cutoffOf options now)
                                           (Props.minQualityOf options)) db)),
     snd (updateMany (oldAndLow (Props.cutoffOf options now)
                                (Props.minQualityOf options)) db)).
Proof.
  unfold cleanupPosts, Props.capIn, Props.cutoffOf, Props.minQualityOf.
  destruct (olderThanDays options), (minQualityScore options),
    (maxPostsPerCommunity options); reflexivity.
Qed.

(** X20. The cap of a cleanup. After [cleanupPosts], every active
    community has at most [maxPostsPerCommunity] (1000 when the option is
    missing) active posts. *)
Theorem cleanupPosts_caps_active options now communities db community :
  In community communities ->
  Community.isActive community = true ->
  Props.activeCount (Community._id community)
                    (fst (cleanupPosts options now communities db))
  <= Props.capIn options.
Proof.
  intros Hin Hact. rewrite cleanupPosts_eq. cbn [fst].
  apply capLoop_cap. apply filter_In. now split.
Qed.


Lemma cleanupPosts_caps_active_witness :
  Props.activeCount (Community._id Examples.founders)
                    (fst (cleanupPosts Cases.keepTwo 1700000000000
                                       [Examples.founders] Cases.stored4))
  <= Props.capIn Cases.keepTwo.
Proof.
  apply (cleanupPosts_caps_active Cases.keepTwo 1700000000000 [Examples.founders]
           Cases.stored4 Examples.founders).
  - left. reflexivity.
  - reflexivity.
Defined.

Lemma ids_injective (l : list Stored) x y :
  NoDup (map _id l) -> In x l -> In y l -> _id x = _id y -> x = y.
Proof.
  induction l as [|a l IH]; intros Hnd Hx Hy Hid; [destruct Hx|].
  cbn [map] in Hnd. inversion Hnd as [|? ? Hna Hnd']; subst.
  destruct Hx as [-> | Hx], Hy as [-> | Hy].
  - reflexivity.
  - exfalso. apply Hna. rewrite Hid. now apply in_map.
  - exfalso. apply Hna. rewrite <- Hid. now apply in_map.
  - now apply IH.
Qed.

Lemma skipn_In {A : Type} n (l : list A) x : In x (skipn n l) -> In x l.
Proof.
  intros H. rewrite <- (firstn_skipn n l). apply in_or_app. now right.
Qed.

Lemma hiddenFrom_refl db : Forall2 Props.hiddenFrom db db.
Proof. induction db; constructor; [now left | assumption]. Qed.

Lemma hiddenFrom_trans l1 l2 l3 :
  Forall2 Props.hiddenFrom l1 l2 -> Forall2 Props.hiddenFrom l2 l3 ->
  Forall2 Props.hiddenFrom l1 l3.
Proof.
  intros H. revert l3. induction H as [|d d' l1 l2 Hd _ IH]; intros l3 H2;
    inversion H2 as [|? d'' ? l3' Hd' H2']; subst; constructor; [|now apply IH].
  destruct Hd as [-> | [Ha ->]]; [exact Hd'|].
  destruct Hd' as [-> | [Ha' _]]; [now right|].
  rewrite hide_not_active in Ha'. discriminate.
Qed.

Lemma capCommunity_hiddenFrom cap db community :
  NoDup (map _id db) ->
  Forall2 Props.hiddenFrom db (capCommunity cap db community)
  /\ map _id (capCommunity cap db community) = map _id db.
Proof.
  intros Hnd. unfold capCommunity.
  destruct (skipn cap _) as [|e0 E] eqn:HE; [split; [apply hiddenFrom_refl | reflexivity]|].
  split; [|apply updateMany_ids].
  apply updateMany_hiddenFrom. intros d Hd Hq.
  apply inIds_spec in Hq. destruct Hq as (e & He & Hid).
  rewrite <- HE in He. apply skipn_In in He.
  apply (Permutation_in _ (sortDesc_perm _)) in He.
  apply filter_In in He. destruct He as [He Hact].
  rewrite <- (ids_injective db e d Hnd He Hd Hid).
  unfold activeOf in Hact. now apply andb_prop in Hact.
Qed.

Lemma capLoop_hiddenFrom cap :
  forall communities db,
    NoDup (map _id db) ->
    Forall2 Props.hiddenFrom db (fold_left (capCommunity cap) communities db).
Proof.
  induction communities as [|c communities IH]; intros db Hnd; cbn [fold_left];
    [apply hiddenFrom_refl|].
  destruct (capCommunity_hiddenFrom cap db c Hnd) as [H1 H2].
  eapply hiddenFrom_trans; [exact H1|]. apply IH. now rewrite H2.
Qed.

Lemma oldAndLow_active cutoffDate minQ d :
  oldAndLow cutoffDate minQ d = true -> isActive d = true.
Proof. unfold oldAndLow. intros H. now apply andb_prop in H. Qed.

Lemma active_not_hidden d : isActive d = true -> isHidden d = false.
Proof.
  unfold isActive, isHidden. intros H. apply String.eqb_eq in H. now rewrite H.
Qed.

(** X21. A cleanup only hides. [cleanupPosts] removes no post and changes
    nothing of a post but its status, and the only change of status is
    from "active" to "hidden" (the store's identifiers being distinct);
    the count it returns is the number of active posts older than the
    cutoff whose quality score is below the minimum. *)
Theorem cleanupPosts_only_hides options now communities db :
  NoDup (map _id db) ->
  Forall2 Props.hiddenFrom db (fst (cleanupPosts options now communities db))
  /\ snd (cleanupPosts options now communities db)
     = List.length (filter (oldAndLow (Props.cutoffOf options now)
                                      (Props.minQualityOf options)) db).
Proof.
  intros Hnd. rewrite cleanupPosts_eq. cbn [fst snd]. split.
  - eapply hiddenFrom_trans.
    + apply updateMany_hiddenFrom. intros d _. apply oldAndLow_active.
    + apply capLoop_hiddenFrom. now rewrite updateMany_ids.
  - cbn [updateMany snd]. f_equal. apply filter_ext_in. intros d _.
    destruct (oldAndLow _ _ d) eqn:H; [|reflexivity].
    apply oldAndLow_active, active_not_hidden in H. now rewrite H.
Qed.

Lemma cleanupPosts_only_hides_witness :
  Forall2 Props.hiddenFrom Cases.stored4
          (fst (cleanupPosts Cases.keepTwo 1700000000000
                             [Examples.founders] Cases.stored4))
  /\ snd (cleanupPosts Cases.keepTwo 1700000000000 [Examples.founders]
                       Cases.stored4)
     = List.length (filter (oldAndLow (Props.cutoffOf Cases.keepTwo 1700000000000)
                                      (Props.minQualityOf Cases.keepTwo))
                           Cases.stored4).
Proof.
  apply (cleanupPosts_only_hides Cases.keepTwo 1700000000000 [Examples.founders]
           Cases.stored4).
  repeat constructor; cbn; intuition discriminate.
Defined.

Lemma updateMany_Forall (P : Stored -> Prop) query db :
  (forall d, P (hide d)) -> Forall P db -> Forall P (fst (updateMany query db)).
Proof.
  intros Hh H. cbn [updateMany fst]. induction H as [|d db Hd _ IH]; cbn [map];
    constructor; [|exact IH].
  destruct (query d); [apply Hh | exact Hd].
Qed.

Lemma capCommunity_Forall (P : Stored -> Prop) cap db community :
  (forall d, P (hide d)) -> Forall P db -> Forall P (capCommunity cap db community).
Proof.
  intros Hh H. unfold capCommunity. destruct (skipn cap _); [exact H|].
  now apply updateMany_Forall.
Qed.

Lemma capLoop_Forall (P : Stored -> Prop) cap :
  (forall d, P (hide d)) ->
  forall communities db,
    Forall P db -> Forall P (fold_left (capCommunity cap) communities db).
Proof.
  intros Hh. induction communities as [|c communities IH]; intros db H; cbn [fold_left];
    [exact H|].
  apply IH. now apply capCommunity_Forall.
Qed.

Lemma updateMany_none query db :
  Forall (fun d => query d = false) db -> updateMany query db = (db, 0).
Proof.
  intros H. rewrite Forall_forall in H. unfold updateMany. f_equal.
  - rewrite <- (map_id db) at 2. apply map_ext_in. intros d Hd. now rewrite (H d Hd).
  - rewrite filter_none; [reflexivity|]. intros d Hd. now rewrite (H d Hd).
Qed.

Lemma fold_fixed {A B : Type} (f : A -> B -> A) (l : list B) (x : A) :
  (forall b, In b l -> f x b = x) -> fold_left f l x = x.
Proof.
  induction l as [|b l IH]; intros H; cbn [fold_left]; [reflexivity|].
  rewrite (H b (or_introl eq_refl)). apply IH. intros b' Hb'. apply H. now right.
Qed.

Lemma capCommunity_within cap db community :
  Props.activeCount (Community._id community) db <= cap ->
  capCommunity cap db community = db.
Proof.
  unfold Props.activeCount, capCommunity. intros H.
  rewrite skipn_all2; [reflexivity|].
  now rewrite (Permutation_length (sortDesc_perm _)).
Qed.

(** X22. A second cleanup changes nothing. Run again with the same
    options, at the same time and for the same communities on the corpus
    a cleanup left, [cleanupPosts] leaves that corpus as it is and reports
    that it hid no post. *)
Theorem cleanupPosts_twice options now communities db :
  cleanupPosts options now communities
               (fst (cleanupPosts options now communities db))
  = (fst (cleanupPosts options now communities db), 0).
Proof.
  set (low := oldAndLow (Props.cutoffOf options now) (Props.minQualityOf options)).
  assert (Hlow : Forall (fun d => low d = false)
                        (fst (cleanupPosts options now communities db))).
  { rewrite cleanupPosts_eq. cbn [fst]. fold low.
    assert (Hh : forall d, low (hide d) = false).
    { intros d. unfold low, oldAndLow. rewrite hide_not_active. apply andb_false_r. }
    apply capLoop_Forall; [exact Hh|].
    cbn [updateMany fst]. apply Forall_forall. intros d' Hd'.
    apply in_map_iff in Hd'. destruct Hd' as (d & <- & _).
    destruct (low d) eqn:E; [apply Hh | exact E]. }
  assert (Hcap : forall community,
             In community (filter Community.isActive communities) ->
             Props.activeCount (Community._id community)
                               (fst (cleanupPosts options now communities db))
             <= Props.capIn options).
  { intros community Hin. rewrite cleanupPosts_eq. cbn [fst]. now apply capLoop_cap. }
  rewrite (cleanupPosts_eq options now communities
             (fst (cleanupPosts options now communities db))).
  fold low. rewrite (updateMany_none low _ Hlow). cbn [fst snd]. f_equal.
  apply fold_fixed. intros community Hin. apply capCommunity_within. now apply Hcap.
Qed.

End Cleanup.


(** ** The deduplicator in front of the creation loop *)

Section FreshBatch.
Import ScraperManager RedditScraper.
Local Open Scope list_scope.

Lemma postExists_snoc db p platform originalId sourceUrl :
  postExists (db ++ [p]) platform originalId sourceUrl
  = postExists db platform originalId sourceUrl
    || matchesPost platform originalId sourceUrl p.
Proof.
  unfold postExists. rewrite existsb_app. cbn [existsb]. now rewrite orb_false_r.
Qed.

Lemma eqb_neq_false a b : a <> b -> String.eqb a b = false.
Proof. intros H. now apply String.eqb_neq. Qed.

(** One iteration on an item that is not in the corpus counts no existing
    record, and the items still to come stay out of the corpus when their
    ids and URLs differ from the item's. *)
Lemma createFromScraped_fresh calc pc community platform users w r c rest :
  postExists (World.posts w) platform (Item.id c) (Item.url c) = false ->
  Forall (fun c' => postExists (World.posts w) platform (Item.id c') (Item.url c') = false)
         rest ->
  ~ In (Item.id c) (map Item.id rest) ->
  ~ In (Item.url c) (map Item.url rest) ->
  skippedExisting (snd (createFromScraped calc pc community platform users (w, r) c))
  = skippedExisting r
  /\ Forall (fun c' =>
               postExists (World.posts (fst (createFromScraped calc pc community platform
                                               users (w, r) c)))
                          platform (Item.id c') (Item.url c') = false)
            rest.
Proof.
  intros Hc Hrest Hid Hurl. unfold createFromScraped. rewrite Hc.
  destruct (Qltb (calc c) _); [now split|].
  destruct (Env.draw (List.length users) (World.env w)) as [k e1].
  destruct (Env.draw 11 e1) as [l e2].
  destruct (nth_error users k) as [randomUser|]; [|now split].
  match goal with |- context [createPost ?d ?db] =>
    destruct (createPost d db) as [db'|] eqn:Hcr
  end; [|now split].
  apply createPost_Some in Hcr. subst db'. cbn [fst snd countCreated skippedExisting].
  split; [reflexivity|]. cbn [World.withPosts World.posts].
  rewrite Forall_forall in *. intros c' Hin. rewrite postExists_snoc, (Hrest c' Hin).
  cbn [orb]. unfold matchesPost, withDefaults, withTrimmedTitle.
  cbn [Post.platform Post.originalId Post.sourceUrl].
  rewrite (eqb_neq_false (Item.id c) (Item.id c')), (eqb_neq_false (Item.url c) (Item.url c')).
  - now rewrite andb_false_r.
  - intros E. apply Hurl. rewrite E. now apply in_map.
  - intros E. apply Hid. rewrite E. now apply in_map.
Qed.

Lemma createLoop_fresh calc pc community platform users :
  forall items w r,
    Forall (fun c => postExists (World.posts w) platform (Item.id c) (Item.url c) = false)
           items ->
    NoDup (map Item.id items) ->
    NoDup (map Item.url items) ->
    skippedExisting (snd (fold_left (createFromScraped calc pc community platform users)
                                    items (w, r)))
    = skippedExisting r.
Proof.
  induction items as [|c items IH]; intros w r Hall Hid Hurl; [reflexivity|].
  cbn [fold_left]. cbn [map] in Hid, Hurl.
  inversion Hall as [|? ? Hc Hrest]; subst.
  inversion Hid as [|? ? Hid1 Hid2]; subst. inversion Hurl as [|? ? Hurl1 Hurl2]; subst.
  destruct (createFromScraped_fresh calc pc community platform users w r c items
              Hc Hrest Hid1 Hurl1) as [Hs Hnext].
  destruct (createFromScraped calc pc community platform users (w, r) c) as [w1 r1].
  cbn [fst snd] in *. rewrite (IH w1 r1 Hnext Hid2 Hurl2). exact Hs.
Qed.

Lemma NoDup_map_filter {A B : Type} (f : A -> B) (p : A -> bool) l :
  NoDup (map f l) -> NoDup (map f (filter p l)).
Proof.
  induction l as [|a l IH]; cbn [map filter]; intros H; [constructor|].
  inversion H as [|? ? Hn Hr]; subst. destruct (p a); [|now apply IH].
  cbn [map]. constructor; [|now apply IH].
  intros Hin. apply Hn. apply in_map_iff in Hin. destruct Hin as (x & Hx & Hin).
  apply filter_In in Hin. apply in_map_iff. exists x. tauto.
Qed.

Lemma NoDup_map_firstn {A B : Type} (f : A -> B) k (l : list A) :
  NoDup (map f l) -> NoDup (map f (firstn k l)).
Proof.
  revert k. induction l as [|a l IH]; intros k H; destruct k; cbn [firstn map];
    try constructor.
  - inversion H as [|? ? Hn Hr]; subst. intros Hin. apply Hn.
    apply in_map_iff in Hin. destruct Hin as (x & Hx & Hin).
    apply in_map_iff. exists x. split; [exact Hx | now apply (firstn_incl k l)].
  - inversion H; subst. now apply IH.
Qed.

Lemma slice0_firstn {A : Type} (e : Z) (l : list A) : exists k, slice0 e l = firstn k l.
Proof. unfold slice0. destruct (e <? 0)%Z; eexists; reflexivity. Qed.

(** X23. The deduplicator leaves nothing for the creation loop to skip
    as existing. When the scraped items have pairwise distinct ids and
    pairwise distinct URLs, the creation loop run on what
    [filterNewContent] kept of them (all of it, as the bulk run does, or
    its first item only, as the single-post run does) reports
    [skippedExisting] = 0: the items that are already in the corpus were
    dropped before and are counted nowhere. *)
Theorem filtered_batch_skips_no_existing calc pc scraped community platform users w :
  NoDup (map Item.id scraped) ->
  NoDup (map Item.url scraped) ->
  skippedExisting
    (snd (createPostsFromScrapedContent calc pc
            (filterNewContent (World.posts w) scraped platform)
            community platform users w)) = 0
  /\ skippedExisting
       (snd (createPostsFromScrapedContent calc pc
               (slice0 1 (filterNewContent (World.posts w) scraped platform))
               community platform users w)) = 0.
Proof.
  intros Hid Hurl.
  assert (Hnew : Forall (fun c => postExists (World.posts w) platform (Item.id c)
                                             (Item.url c) = false)
                        (filterNewContent (World.posts w) scraped platform)).
  { rewrite filterNewContent_filter. apply Forall_forall. intros c Hc.
    apply filter_In in Hc. destruct Hc as [_ Hc]. rewrite <- keep_isNew in Hc.
    apply andb_prop in Hc. destruct Hc as [Hc _]. now apply negb_true_iff in Hc. }
  assert (Hid' : NoDup (map Item.id (filterNewContent (World.posts w) scraped platform)))
    by (rewrite filterNewContent_filter; now apply NoDup_map_filter).
  assert (Hurl' : NoDup (map Item.url (filterNewContent (World.posts w) scraped platform)))
    by (rewrite filterNewContent_filter; now apply NoDup_map_filter).
  unfold createPostsFromScrapedContent. split.
  - now rewrite createLoop_fresh.
  - destruct (slice0_firstn 1 (filterNewContent (World.posts w) scraped platform))
      as [k ->].
    rewrite createLoop_fresh; [reflexivity | | now apply NoDup_map_firstn
                                             | now apply NoDup_map_firstn].
    apply Forall_forall. intros c Hc. rewrite Forall_forall in Hnew. apply Hnew.
    now apply (firstn_incl k _).
Qed.

Lemma filtered_batch_skips_no_existing_witness :
  (map Item.id Cases.scrapedThree = ["a1"; "b2"; "h0"]%string
   /\ map Post.originalId (World.posts Cases.worldAgain) = ["a1"; "b2"]%string
   /\ map Item.id (filterNewContent (World.posts Cases.worldAgain) Cases.scrapedThree
                                    "reddit")
      = ["h0"]%string)
  /\ skippedExisting
       (snd (createPostsFromScrapedContent Examples.scoreHigh Examples.plainProcess
               (filterNewContent (World.posts Cases.worldAgain) Cases.scrapedThree
                                 "reddit")
               Examples.founders "reddit" Examples.users1 Cases.worldAgain)) = 0
  /\ skippedExisting
       (snd (createPostsFromScrapedContent Examples.scoreHigh Examples.plainProcess
               (slice0 1 (filterNewContent (World.posts Cases.worldAgain)
                                           Cases.scrapedThree "reddit"))
               Examples.founders "reddit" Examples.users1 Cases.worldAgain)) = 0.
Proof.
  split; [repeat split; vm_compute; reflexivity|].
  apply (filtered_batch_skips_no_existing Examples.scoreHigh Examples.plainProcess
           Cases.scrapedThree Examples.founders "reddit" Examples.users1
           Cases.worldAgain).
  - vm_compute. repeat constructor; cbn; intuition discriminate.
  - vm_compute. repeat constructor; cbn; intuition discriminate.
Defined.

End FreshBatch.


(** ** Which posts the cap of a cleanup hides *)

Section CleanupOrder.
Import Maintenance.
Local Open Scope list_scope.

Lemma insertDesc_descending d l :
  Props.descending l -> Props.descending (insertDesc d l).
Proof.
  induction l as [|x l IH]; cbn [insertDesc Props.descending].
  - intros _. split; [constructor | exact I].
  - intros [Hx Hl]. destruct (Z.ltb_spec (createdAt x) (createdAt d)) as [Hlt|Hge].
    + cbn [Props.descending]. split; [|split; assumption].
      constructor; [lia|]. eapply Forall_impl; [|exact Hx]. cbn. intros y Hy. lia.
    + cbn [Props.descending]. split; [|now apply IH].
      apply Forall_forall. intros y Hy.
      apply (Permutation_in _ (insertDesc_perm d l)) in Hy.
      destruct Hy as [<- | Hy]; [lia|]. rewrite Forall_forall in Hx. now apply Hx.
Qed.

Lemma sortDesc_descending l : Props.descending (sortDesc l).
Proof.
  induction l as [|d l IH]; cbn [sortDesc fold_right]; [exact I|].
  apply insertDesc_descending. exact IH.
Qed.

Lemma descending_split l1 l2 x y :
  Props.descending (l1 ++ l2) -> In x l1 -> In y l2 ->
  (createdAt y <= createdAt x)%Z.
Proof.
  induction l1 as [|a l1 IH]; intros H Hx Hy; [destruct Hx|].
  cbn [app Props.descending] in H. destruct H as [Ha Hl].
  destruct Hx as [-> | Hx]; [|now apply IH].
  rewrite Forall_forall in Ha. apply Ha. apply in_or_app. now right.
Qed.

Lemma hiddenFrom_active_In l l' x :
  Forall2 Props.hiddenFrom l l' -> In x l' -> isActive x = true -> In x l.
Proof.
  induction 1 as [|d d' l l' Hd _ IH]; intros Hin Hact; [destruct Hin|].
  destruct Hin as [-> | Hin]; [|right; now apply IH].
  left. destruct Hd as [-> | [_ ->]]; [reflexivity|].
  rewrite hide_not_active in Hact. discriminate.
Qed.

Lemma updateMany_In query db x :
  In x (fst (updateMany query db)) -> isActive x = true ->
  In x db /\ query x = false.
Proof.
  cbn [updateMany fst]. intros Hx Hax. apply in_map_iff in Hx.
  destruct Hx as (d & Hd & Hdin). destruct (query d) eqn:Hq.
  - subst x. rewrite hide_not_active in Hax. discriminate.
  - subst d. now split.
Qed.

Lemma updateMany_keeps query db y :
  In y db -> query y = false -> In y (fst (updateMany query db)).
Proof.
  intros Hy Hq. cbn [updateMany fst]. apply in_map_iff. exists y. rewrite Hq. now split.
Qed.

(** The iteration for a community hides, among its active posts, only
    posts that are not newer than the ones it leaves active. *)
Lemma capCommunity_order cap db community x y :
  NoDup (map _id db) ->
  In x (capCommunity cap db community) -> isActive x = true ->
  In y db -> isActive y = true ->
  Post.community (doc x) = Post.community (doc y) ->
  In y (capCommunity cap db community) \/ (createdAt y <= createdAt x)%Z.
Proof.
  intros Hnd Hx Hax Hy Hay Hc. unfold capCommunity in *.
  set (A := filter (activeOf (Community._id community)) db) in *.
  destruct (skipn cap (sortDesc A)) as [|e0 E] eqn:HE; [now left|].
  rewrite <- HE in *. clear HE e0 E.
  apply updateMany_In in Hx; [|exact Hax]. destruct Hx as [Hdin Hqx].
  destruct (existsb (Nat.eqb (_id y)) (map _id (skipn cap (sortDesc A)))) eqn:Hqy.
  - right. apply inIds_spec in Hqy. destruct Hqy as (e & He & Hid).
    assert (HeS : In e (sortDesc A)) by (now apply skipn_In in He).
    assert (HeA : In e A) by (now apply (Permutation_in _ (sortDesc_perm A))).
    apply filter_In in HeA. destruct HeA as [Hedb Heact].
    assert (e = y) by (now apply (ids_injective db)). subst e.
    assert (HxA : In x A).
    { apply filter_In. split; [exact Hdin|]. unfold activeOf in *.
      rewrite Hc, Hax. apply andb_prop in Heact. destruct Heact as [-> _]. reflexivity. }
    apply (Permutation_in _ (Permutation_sym (sortDesc_perm A))) in HxA.
    rewrite <- (firstn_skipn cap (sortDesc A)) in HxA. apply in_app_or in HxA.
    destruct HxA as [HxF | HxE].
    + apply (descending_split (firstn cap (sortDesc A)) (skipn cap (sortDesc A)));
        [rewrite firstn_skipn; apply sortDesc_descending | exact HxF | exact He].
    + exfalso.
      assert (Hqx' : existsb (Nat.eqb (_id x)) (map _id (skipn cap (sortDesc A))) = true)
        by (apply inIds_spec; now exists x).
      congruence.
  - left. now apply updateMany_keeps.
Qed.

Lemma capCommunity_ids cap db community :
  map _id (capCommunity cap db community) = map _id db.
Proof.
  unfold capCommunity. destruct (skipn cap _); [reflexivity | apply updateMany_ids].
Qed.

Lemma capLoop_order cap :
  forall communities db x y,
    NoDup (map _id db) ->
    In x (fold_left (capCommunity cap) communities db) -> isActive x = true ->
    In y db -> isActive y = true ->
    Post.community (doc x) = Post.community (doc y) ->
    In y (fold_left (capCommunity cap) communities db)
    \/ (createdAt y <= createdAt x)%Z.
Proof.
  induction communities as [|c communities IH]; intros db x y Hnd Hx Hax Hy Hay Hc;
    cbn [fold_left] in *; [now left|].
  assert (Hnd2 : NoDup (map _id (capCommunity cap db c)))
    by (now rewrite capCommunity_ids).
  assert (Hx2 : In x (capCommunity cap db c)).
  { apply (hiddenFrom_active_In _ _ x (capLoop_hiddenFrom cap communities _ Hnd2));
      assumption. }
  destruct (capCommunity_order cap db c x y Hnd Hx2 Hax Hy Hay Hc) as [Hy2 | Hle];
    [|now right].
  now apply IH.
Qed.

(** X24. The cap of a cleanup hides the oldest. Of two posts of the same
    community that were active and not due to be hidden as old and of low
    quality, if the cleanup leaves one active and not the other, the one it
    leaves active is at least as new as the other (the store's identifiers
    being distinct). *)
Theorem cleanupPosts_keeps_newest options now communities db x y :
  NoDup (map _id db) ->
  In y db ->
  Post.community (doc x) = Post.community (doc y) ->
  isActive y = true ->
  oldAndLow (Props.cutoffOf options now) (Props.minQualityOf options) y = false ->
  In x (fst (cleanupPosts options now communities db)) ->
  isActive x = true ->
  ~ In y (fst (cleanupPosts options now communities db)) ->
  (createdAt y <= createdAt x)%Z.
Proof.
  intros Hnd Hy Hc Hay Hlow Hx Hax Hny. rewrite cleanupPosts_eq in *. cbn [fst] in *.
  set (low := oldAndLow (Props.cutoffOf options now) (Props.minQualityOf options)) in *.
  assert (Hy1 : In y (fst (updateMany low db))) by (now apply updateMany_keeps).
  assert (Hnd1 : NoDup (map _id (fst (updateMany low db))))
    by (now rewrite updateMany_ids).
  destruct (capLoop_order (Props.capIn options) (filter Community.isActive communities)
              _ x y Hnd1 Hx Hax Hy1 Hay Hc) as [Hin | Hle]; [contradiction | exact Hle].
Qed.

Lemma cleanupPosts_keeps_newest_witness :
  (createdAt (Cases.storedPost 1 1699999000000 (4 # 5))
   <= createdAt (Cases.storedPost 3 1699999200000 (4 # 5)))%Z.
Proof.
  apply (cleanupPosts_keeps_newest Cases.keepTwo 1700000000000 [Examples.founders]
           Cases.stored4).
  - repeat constructor; cbn; intuition discriminate.
  - cbn. tauto.
  - reflexivity.
  - reflexivity.
  - reflexivity.
  - vm_compute. tauto.
  - reflexivity.
  - vm_compute. intuition discriminate.
Defined.

End CleanupOrder.


(** ** Watermark *)

Section Watermark.
Import RedditScraper ScraperManager Examples.
Local Open Scope list_scope.


(** Why the watermark theorem asks for a watermark that is not 0 in
    seconds: the page loop tests [minCreatedUtc && ...], so for a community
    last scraped at 500 ms the bulk run applies no watermark and persists
    a post stamped 0 ms. *)
Example watermark_of_zero_seconds_is_unset :
  Community.lastScrapedAt early = Some 500%Z
  /\ _toUnixSeconds 500 = 0%Z
  /\ createdAtOf (snd (Spec.runMode scoreHigh plainProcess plainProcessAuthentic
                         alwaysAuthentic Spec.Bulk "c2" worldEarly))
     = [("e0"%string, 0%Z)].
Proof. repeat split; vm_compute; reflexivity. Qed.







End Watermark.
